(** * erpnext-agent: planner, execution engine, completion client, router

    A shallow embedding of [ai_agent/llm_client.py], [ai_agent/agent.py],
    [ai_agent/router.py] and [ai_agent/knowledge/qa.py], and of parts of
    [ai_agent/frappe_tools.py], [ai_agent/knowledge/ingest_docs.py],
    [ai_agent/api.py] and [ai_agent/install.py].

    Python values are an inductive type of JSON-like values, exceptions an
    error result, and every interaction with the outside (the completion
    backend, the tool functions of [frappe_tools], the clock, [uuid4], the
    documentation store) is an oracle of a [World] whose calls are logged
    in a trace.  Text is taken as ASCII: [str.lower], [\w], [\s] and [\d]
    are the ASCII ones. *)

From Stdlib Require Import ZArith QArith Qminmax Lqa Lia String Ascii List Bool.
From stdpp Require Import base decidable option list strings gmap.

Local Open Scope string_scope.
Local Open Scope list_scope.
Local Open Scope Z_scope.

(* ===================================================================== *)
(** ** Python values and exceptions *)
(* ===================================================================== *)

Module Py.

(** Values that [json.loads] produces and that the tools return.  A dict
    keeps its insertion order; keys are strings, as in JSON objects. *)
#[warnings="-register-all"]
Inductive pyval : Type :=
| PNone
| PBool (b : bool)
| PInt (z : Z)
| PFloat (q : Q)
| PStr (s : string)
| PList (l : list pyval)
| PDict (kvs : list (string * pyval)).

(** The exceptions the modelled code can see.  [RateLimitError] is a
    subclass of [APIStatusError] in the openai package. *)
Inductive exn : Type :=
| APIConnectionError
| RateLimitError
| APIStatusError
| CircuitBreaker
| JSONDecodeError
| AssertionError
| TypeError
| AttributeError
| ValueError
| KeyError
| IndexError
| OtherError (msg : string).

Inductive result (A : Type) : Type :=
| Ok (a : A)
| Raise (e : exn).
Arguments Ok {A} a.
Arguments Raise {A} e.

#[global] Instance exn_eq_dec : EqDecision exn.
Proof. solve_decision. Defined.

Definition rbind {A B} (r : result A) (k : A → result B) : result B :=
  match r with
  | Ok a => k a
  | Raise e => Raise e
  end.

(** [bool(v)] *)
Definition truthy (v : pyval) : bool :=
  match v with
  | PNone => false
  | PBool b => b
  | PInt z => negb (Z.eqb z 0)
  | PFloat q => negb (Qeq_bool q 0)
  | PStr s => negb (String.eqb s EmptyString)
  | PList l => match l with [] => false | _ => true end
  | PDict kvs => match kvs with [] => false | _ => true end
  end.

(** [a or b] *)
Definition py_or (a b : pyval) : pyval := if truthy a then a else b.

(** [v == "literal"] *)
Definition eq_str (v : pyval) (s : string) : bool :=
  match v with
  | PStr s' => String.eqb s' s
  | _ => false
  end.

Definition isinstance_dict (v : pyval) : bool :=
  match v with PDict _ => true | _ => false end.

Definition isinstance_list (v : pyval) : bool :=
  match v with PList _ => true | _ => false end.

(** [hash(v)] succeeds *)
Definition hashable (v : pyval) : bool :=
  match v with
  | PList _ | PDict _ => false
  | _ => true
  end.

(** *** Dicts as ordered association lists *)

Fixpoint dict_get (k : string) (kvs : list (string * pyval)) : option pyval :=
  match kvs with
  | [] => None
  | (k', v) :: rest => if String.eqb k' k then Some v else dict_get k rest
  end.

(** [d.get(k)] and [d.get(k, default)] *)
Definition get (k : string) (kvs : list (string * pyval)) : pyval :=
  default PNone (dict_get k kvs).

Definition get_or (k : string) (dflt : pyval) (kvs : list (string * pyval)) : pyval :=
  default dflt (dict_get k kvs).

(** [k in d] *)
Definition contains (k : string) (kvs : list (string * pyval)) : bool :=
  match dict_get k kvs with Some _ => true | None => false end.

(** [d[k] = v]: an existing key keeps its position *)
Fixpoint dict_set (k : string) (v : pyval) (kvs : list (string * pyval))
  : list (string * pyval) :=
  match kvs with
  | [] => [(k, v)]
  | (k', v') :: rest =>
      if String.eqb k' k then (k, v) :: rest else (k', v') :: dict_set k v rest
  end.

(** [d.setdefault(k, v)] (the returned value is not used by the code) *)
Definition setdefault (k : string) (v : pyval) (kvs : list (string * pyval))
  : list (string * pyval) :=
  if contains k kvs then kvs else dict_set k v kvs.

(** [d.pop(k)] and [d.pop(k, default)] *)
Fixpoint dict_remove (k : string) (kvs : list (string * pyval))
  : list (string * pyval) :=
  match kvs with
  | [] => []
  | (k', v') :: rest =>
      if String.eqb k' k then rest else (k', v') :: dict_remove k rest
  end.

(** [iter(v)]: the items a [for] loop or comprehension goes through *)
Definition iterate (v : pyval) : result (list pyval) :=
  match v with
  | PList l => Ok l
  | PDict kvs => Ok (map (fun kv => PStr (fst kv)) kvs)
  | PStr s => Ok (map (fun c => PStr (String c EmptyString)) (list_ascii_of_string s))
  | _ => Raise TypeError
  end.

(** [v.get(k)] and [v.get(k, default)] on a value that should be a dict *)
Definition py_get (k : string) (v : pyval) : result pyval :=
  match v with
  | PDict kvs => Ok (get k kvs)
  | _ => Raise AttributeError
  end.

Definition py_get_or (k : string) (dflt : pyval) (v : pyval) : result pyval :=
  match v with
  | PDict kvs => Ok (get_or k dflt kvs)
  | _ => Raise AttributeError
  end.

(** [v[k]] for a string key *)
Definition subscript (k : string) (v : pyval) : result pyval :=
  match v with
  | PDict kvs => match dict_get k kvs with Some x => Ok x | None => Raise KeyError end
  | _ => Raise TypeError
  end.

(** [len(v)] *)
Definition py_len (v : pyval) : result nat :=
  match v with
  | PList l => Ok (length l)
  | PDict kvs => Ok (length kvs)
  | PStr s => Ok (String.length s)
  | _ => Raise TypeError
  end.

(** [v[i]] for an index [i >= 0] *)
Definition py_item (i : nat) (v : pyval) : result pyval :=
  match v with
  | PList l => match nth_error l i with Some x => Ok x | None => Raise IndexError end
  | PStr s => match String.get i s with
              | Some c => Ok (PStr (String c EmptyString))
              | None => Raise IndexError
              end
  | PDict _ => Raise KeyError
  | _ => Raise TypeError
  end.

(** [l[:n]] *)
Definition py_take (n : pyval) (l : list pyval) : result (list pyval) :=
  let upto (z : Z) :=
    if 0 <=? z then take (Z.to_nat z) l
    else take (length l - Z.to_nat (- z)) l in
  match n with
  | PInt z => Ok (upto z)
  | PBool b => Ok (upto (if b then 1 else 0))
  | PNone => Ok l
  | _ => Raise TypeError
  end.

(** [v.copy()] *)
Definition py_copy (v : pyval) : result pyval :=
  match v with
  | PDict kvs => Ok (PDict kvs)
  | PList l => Ok (PList l)
  | _ => Raise AttributeError
  end.

End Py.
Export Py.

(* ===================================================================== *)
(** ** Text: [str] methods and the regular expressions of the code *)
(* ===================================================================== *)

Module Text.

Definition code (c : ascii) : nat := nat_of_ascii c.

Definition between (lo hi : nat) (c : ascii) : bool :=
  (lo <=? code c)%nat && (code c <=? hi)%nat.

(** [c.isspace()], also what [\s] matches *)
Definition is_space (c : ascii) : bool :=
  between 9 13 c || between 28 32 c.

Definition is_digit (c : ascii) : bool := between 48 57 c.

(** [\w] *)
Definition is_word (c : ascii) : bool :=
  between 97 122 c || between 65 90 c || is_digit c || (code c =? 95)%nat.

Definition lower_char (c : ascii) : ascii :=
  if between 65 90 c then ascii_of_nat (code c + 32) else c.

(** [s.lower()] *)
Fixpoint lower (s : string) : string :=
  match s with
  | EmptyString => EmptyString
  | String c s' => String (lower_char c) (lower s')
  end.

Fixpoint lstrip (s : string) : string :=
  match s with
  | EmptyString => EmptyString
  | String c s' => if is_space c then lstrip s' else s
  end.

(** drops trailing white space: a character is kept when something
    other than white space follows it or it is not white space itself *)
Fixpoint rstrip (s : string) : string :=
  match s with
  | EmptyString => EmptyString
  | String c s' =>
      match rstrip s' with
      | EmptyString => if is_space c then EmptyString else String c EmptyString
      | t => String c t
      end
  end.

(** [s.strip()] *)
Definition strip (s : string) : string := rstrip (lstrip s).

Fixpoint starts_with (p s : string) : bool :=
  match p, s with
  | EmptyString, _ => true
  | String a p', String b s' => Ascii.eqb a b && starts_with p' s'
  | String _ _, EmptyString => false
  end.

(** [p in s] for strings *)
Fixpoint contains_str (p s : string) : bool :=
  starts_with p s ||
  match s with
  | EmptyString => false
  | String _ s' => contains_str p s'
  end.

Definition is_alpha (c : ascii) : bool := between 97 122 c || between 65 90 c.

Definition upper_char (c : ascii) : ascii :=
  if between 97 122 c then ascii_of_nat (code c - 32) else c.

Fixpoint title_from (prev_cased : bool) (s : string) : string :=
  match s with
  | EmptyString => EmptyString
  | String c s' =>
      String (if prev_cased then lower_char c else upper_char c)
             (title_from (is_alpha c) s')
  end.

(** [s.title()] *)
Definition title (s : string) : string := title_from false s.

(** *** A backtracking matcher for the patterns the code uses

    A position is the character before it (if any) and the text after
    it; [ends r p] lists, in the order a backtracking matcher tries them,
    the positions where a match of [r] started at [p] can end. *)

Inductive regex : Type :=
| Eps
| Chr (c : ascii)
| Cls (f : ascii → bool)
| Seq (r1 r2 : regex)
| Alt (r1 r2 : regex)
| Star (r : regex)
| WordB
| Bol.

Definition pos : Type := option ascii * string.

Definition shorter (q p : pos) : bool :=
  (String.length (snd q) <? String.length (snd p))%nat.

Definition is_boundary (p : pos) : bool :=
  xorb (match fst p with Some c => is_word c | None => false end)
       (match snd p with String c _ => is_word c | EmptyString => false end).

(** greedy repetition: one more round first, then stop here; a round
    that consumes nothing is not repeated *)
Fixpoint star (f : pos → list pos) (n : nat) (p : pos) : list pos :=
  match n with
  | O => [p]
  | S n' =>
      flat_map (fun q => if shorter q p then star f n' q else []) (f p) ++ [p]
  end.

Fixpoint ends (r : regex) (p : pos) : list pos :=
  match r with
  | Eps => [p]
  | Chr c =>
      match snd p with
      | String c' s' => if Ascii.eqb c c' then [(Some c', s')] else []
      | EmptyString => []
      end
  | Cls f =>
      match snd p with
      | String c' s' => if f c' then [(Some c', s')] else []
      | EmptyString => []
      end
  | Seq r1 r2 => flat_map (ends r2) (ends r1 p)
  | Alt r1 r2 => ends r1 p ++ ends r2 p
  | Star r' => star (ends r') (String.length (snd p)) p
  | WordB => if is_boundary p then [p] else []
  | Bol => match fst p with None => [p] | Some _ => [] end
  end.

(** every position of a text, left to right *)
Fixpoint positions_from (prev : option ascii) (s : string) : list pos :=
  (prev, s) ::
  match s with
  | EmptyString => []
  | String c s' => positions_from (Some c) s'
  end.

Definition positions (s : string) : list pos := positions_from None s.

Definition matches_at (r : regex) (p : pos) : bool :=
  match ends r p with [] => false | _ => true end.

(** [bool(re.match(r, s))] and [bool(re.search(r, s))] *)
Definition re_match (r : regex) (s : string) : bool := matches_at r (None, s).

Definition re_search (r : regex) (s : string) : bool :=
  existsb (matches_at r) (positions s).

(** pattern builders *)
Fixpoint lit (s : string) : regex :=
  match s with
  | EmptyString => Eps
  | String c s' => Seq (Chr c) (lit s')
  end.

Fixpoint alts (rs : list regex) : regex :=
  match rs with
  | [] => Cls (fun _ => false)
  | [r] => r
  | r :: rs' => Alt r (alts rs')
  end.

Definition plus (r : regex) : regex := Seq r (Star r).
Definition opt (r : regex) : regex := Alt r Eps.
Definition dot : regex := Cls (fun c => negb (code c =? 10)%nat).
Definition ws : regex := Cls is_space.
Definition digit : regex := Cls is_digit.

(** the text between two positions of the same string *)
Definition consumed (p q : pos) : string :=
  String.substring 0 (String.length (snd p) - String.length (snd q)) (snd p).

End Text.

(* ===================================================================== *)
(** ** Calendar dates ([datetime.date]) *)
(* ===================================================================== *)

Module Dates.

Record date : Type := mkdate { year : Z; month : Z; day : Z }.

Definition replace_day (d : date) (n : Z) : date :=
  {| year := year d; month := month d; day := n |}.

(** days since 1970-01-01 of a proleptic Gregorian date, and back *)
Definition days_from_civil (d : date) : Z :=
  let y := if month d <=? 2 then year d - 1 else year d in
  let era := y / 400 in
  let yoe := y - era * 400 in
  let mp := if 2 <? month d then month d - 3 else month d + 9 in
  let doy := (153 * mp + 2) / 5 + day d - 1 in
  let doe := yoe * 365 + yoe / 4 - yoe / 100 + doy in
  era * 146097 + doe - 719468.

Definition civil_from_days (z : Z) : date :=
  let z := z + 719468 in
  let era := z / 146097 in
  let doe := z - era * 146097 in
  let yoe := (doe - doe / 1460 + doe / 36524 - doe / 146096) / 365 in
  let y := yoe + era * 400 in
  let doy := doe - (365 * yoe + yoe / 4 - yoe / 100) in
  let mp := (5 * doy + 2) / 153 in
  let d := doy - (153 * mp + 2) / 5 + 1 in
  let m := if mp <? 10 then mp + 3 else mp - 9 in
  {| year := if m <=? 2 then y + 1 else y; month := m; day := d |}.

(** [d - timedelta(days=n)], where the result is a day of the years 1 to
    9999 (outside, the subtraction raises [OverflowError]) *)
Definition minus_days (d : date) (n : Z) : date :=
  civil_from_days (days_from_civil d - n).

Definition digit_char (z : Z) : ascii := ascii_of_nat (48 + Z.to_nat (z mod 10)).

Fixpoint zfill (width : nat) (z : Z) (acc : string) : string :=
  match width with
  | O => acc
  | S w => zfill w (z / 10) (String (digit_char z) acc)
  end.

(** [d.isoformat()], YYYY-MM-DD *)
Definition isoformat (d : date) : string :=
  zfill 4 (year d) (String "-" (zfill 2 (month d) (String "-" (zfill 2 (day d) EmptyString)))).

Definition is_leap (y : Z) : bool :=
  (y mod 4 =? 0) && (negb (y mod 100 =? 0) || (y mod 400 =? 0)).

Definition days_in_month (y m : Z) : Z :=
  if m =? 2 then (if is_leap y then 29 else 28)
  else if (m =? 4) || (m =? 6) || (m =? 9) || (m =? 11) then 30
  else 31.

Definition number (cs : list ascii) : option Z :=
  if forallb (fun c => (48 <=? nat_of_ascii c)%nat && (nat_of_ascii c <=? 57)%nat) cs
  then Some (fold_left (fun acc c => 10 * acc + (Z.of_nat (nat_of_ascii c) - 48)) cs 0)
  else None.

(** [date.fromisoformat(s)] on the texts YYYY-MM-DD: the date, or [None]
    for the [ValueError] of a day that does not exist.  A text of another
    shape is read as [None] too; the interpreter rejects most of them
    and, from version 3.11, accepts some (YYYYMMDD, week dates). *)
Definition fromisoformat (s : string) : option date :=
  match list_ascii_of_string s with
  | [y1; y2; y3; y4; "-"%char; m1; m2; "-"%char; d1; d2] =>
      match number [y1; y2; y3; y4], number [m1; m2], number [d1; d2] with
      | Some y, Some m, Some d =>
          if (1 <=? y) && (1 <=? m) && (m <=? 12) && (1 <=? d) && (d <=? days_in_month y m)
          then Some (mkdate y m d) else None
      | _, _, _ => None
      end
  | _ => None
  end.

(** what the constructor [date(y, m, d)] accepts for the days the code
    builds (1 and at most 28) *)
Definition valid_ym (d : date) : Prop :=
  1 <= year d <= 9999 ∧ 1 <= month d <= 12.

(** the values of [datetime.date]: the days of the years 1 to 9999 *)
Definition is_date (d : date) : Prop :=
  valid_ym d ∧ 1 <= day d <= days_in_month (year d) (month d).

End Dates.

(* ===================================================================== *)
(** ** The outside world, the trace and the state monad *)
(* ===================================================================== *)

Module Sys.
Import Dates.

(** a call of [ft.<tool>] with positional and keyword arguments *)
Record tool_call : Type := mkcall {
  tc_tool : string;
  tc_args : list pyval;
  tc_kwargs : list (string * pyval)
}.

Inductive event : Type :=
| EvNet (system user : string) (streaming : bool)  (* chat.completions.create *)
| EvSleep (seconds : Q)                            (* back-off between attempts *)
| EvTool (c : tool_call)                           (* a function of frappe_tools *)
| EvRag (question : string) (k : Z).               (* RAGStore.query *)

(** what the backend sends: the message of a whole response and the
    fragments of a streamed one *)
Record reply : Type := mkreply {
  content : option string;
  deltas : list (option string)
}.

(** a hit of [RAGStore.query]: the text of a chunk and its source *)
Record hit : Type := mkhit {
  hit_text : string;
  hit_source : string
}.

(** Everything the code asks of its environment.  The oracles that have
    effects answer from the history of events so far; for the backend the
    history ends with the request itself. *)
Record World : Type := mkworld {
  today : date;                                      (* date.today() *)
  time_at : nat → Q;                                 (* n-th time.time() *)
  uuid4_at : nat → string;                           (* n-th str(uuid.uuid4()) *)
  backend : list event → result reply;
  registry : list event → tool_call → result pyval;
  rag_query : list event → string → Z → result (list hit);
  json_loads : string → result pyval;
  py_float : pyval → result Q;                       (* float(v) *)
  py_str : pyval → string                            (* str(v) *)
}.

(** [trace]: the events so far, oldest first; [fail_window]: the
    [_fail_window] of the [LLMClient] in use. *)
Record State : Type := mkstate {
  trace : list event;
  clock_reads : nat;
  uuids : nat;
  fail_window : list Q
}.

Definition init : State :=
  {| trace := []; clock_reads := 0; uuids := 0; fail_window := [] |}.

Definition M (A : Type) : Type := State → result A * State.

Definition ret {A} (a : A) : M A := fun st => (Ok a, st).

Definition raise {A} (e : exn) : M A := fun st => (Raise e, st).

Definition bind {A B} (m : M A) (k : A → M B) : M B :=
  fun st =>
    match m st with
    | (Ok a, st') => k a st'
    | (Raise e, st') => (Raise e, st')
    end.

(** [try: m except <those that h handles>: h e] *)
Definition catch {A} (m : M A) (h : exn → M A) : M A :=
  fun st =>
    match m st with
    | (Ok a, st') => (Ok a, st')
    | (Raise e, st') => h e st'
    end.

Definition lift {A} (r : result A) : M A := fun st => (r, st).

Definition emit (e : event) : M unit :=
  fun st =>
    (Ok tt, {| trace := trace st ++ [e]; clock_reads := clock_reads st;
               uuids := uuids st; fail_window := fail_window st |}).

Definition get_trace : M (list event) := fun st => (Ok (trace st), st).

Definition set_window (w : list Q) : M unit :=
  fun st =>
    (Ok tt, {| trace := trace st; clock_reads := clock_reads st;
               uuids := uuids st; fail_window := w |}).

Definition get_window : M (list Q) := fun st => (Ok (fail_window st), st).

Section WithWorld.
Context (W : World).

(** [time.time()] *)
Definition time_time : M Q :=
  fun st =>
    (Ok (time_at W (clock_reads st)),
     {| trace := trace st; clock_reads := S (clock_reads st);
        uuids := uuids st; fail_window := fail_window st |}).

(** [str(uuid.uuid4())] *)
Definition uuid4 : M string :=
  fun st =>
    (Ok (uuid4_at W (uuids st)),
     {| trace := trace st; clock_reads := clock_reads st;
        uuids := S (uuids st); fail_window := fail_window st |}).

(** a call of a tool function: logged, then answered by the registry *)
Definition call_tool (c : tool_call) : M pyval :=
  fun st =>
    (registry W (trace st) c,
     {| trace := trace st ++ [EvTool c]; clock_reads := clock_reads st;
        uuids := uuids st; fail_window := fail_window st |}).

End WithWorld.

Definition is_tool_event (e : event) : bool :=
  match e with EvTool _ => true | _ => false end.

Definition is_net_event (e : event) : bool :=
  match e with EvNet _ _ _ => true | _ => false end.

(** the tool calls of a trace, in order *)
Definition tool_calls (t : list event) : list tool_call :=
  omap (fun e => match e with EvTool c => Some c | _ => None end) t.

Definition net_calls (t : list event) : nat :=
  length (List.filter is_net_event t).

End Sys.

Notation "'let!' x ':=' m 'in' k" := (Sys.bind m (fun x => k))
  (at level 10, x name, m at level 100, k at level 200).
Notation "m '>>!' k" := (Sys.bind m (fun _ => k))
  (at level 199, right associativity).

(* ===================================================================== *)
(** ** llm_client.py *)
(* ===================================================================== *)

Module LLM.
Import Sys.

Definition Qlt_bool (x y : Q) : bool := negb (Qle_bool y x).

(** what [complete] returns: the message text (which the backend may leave
    out), or the fragments of a stream *)
Inductive completion : Type :=
| CText (o : option string)
| CStream (frags : list string).

(** *** The retry decorator (tenacity) as configured on [complete] *)

(** [retry_if_exception_type((APIConnectionError, RateLimitError))] *)
Definition retry_if (e : exn) : bool :=
  match e with
  | APIConnectionError | RateLimitError => true
  | _ => false
  end.

(** [stop_after_attempt(3)] *)
Definition max_attempts : nat := 3.

(** [wait_exponential(multiplier=1, min=1, max=10)] after attempt [n]:
    [max(max(0, min), min(multiplier * 2 ** (n - 1), max))] *)
Definition wait_exponential (attempt_number : nat) : Q :=
  Qmax (Qmax 0 1) (Qmin (1 * inject_Z (2 ^ (Z.of_nat attempt_number - 1))) 10).

(** attempt [attempt_number] and, while the error is one to retry and
    attempts remain, sleep and try again; with [reraise=True] the last
    error is raised as it is *)
Fixpoint retry_from {A} (remaining : nat) (attempt_number : nat) (body : M A) : M A :=
  catch body (fun e =>
    if retry_if e then
      match remaining with
      | O => raise e
      | S r =>
          emit (EvSleep (wait_exponential attempt_number)) >>!
          retry_from r (S attempt_number) body
      end
    else raise e).

Definition retry {A} (body : M A) : M A :=
  retry_from (max_attempts - 1) 1 body.

Section WithWorld.
Context (W : World).

(** [LLMClient(cfg)]: a client with an empty failure window.  The
    settings read from the environment (timeout, temperature, token
    limit) are taken to be numbers, so that the constructor returns. *)
Definition new_client : M unit := set_window [].

Definition _check_circuit : M unit :=
  let! now := time_time W in
  let! w := get_window in
  let w' := List.filter (fun t => Qlt_bool (now - t) 90) w in
  set_window w' >>!
  if (3 <=? length w')%nat && Qlt_bool (now - List.last w' 0%Q) 30
  then raise CircuitBreaker
  else ret tt.

Definition _record_fail : M unit :=
  let! w := get_window in
  let! now := time_time W in
  set_window (w ++ [now]).

Definition _call (system user : string) (streaming : bool) : M completion :=
  emit (EvNet system user streaming) >>!
  let! history := get_trace in
  let! resp := lift (backend W history) in
  if streaming
  then ret (CStream (map (fun d => default EmptyString d) (deltas resp)))
  else ret (CText (content resp)).

(** the body of [complete], one attempt *)
Definition complete_attempt (system user : string) (streaming : bool) : M completion :=
  _check_circuit >>!
  catch (_call system user streaming) (fun e =>
    match e with
    | APIConnectionError => _record_fail >>! raise e
    | APIStatusError | RateLimitError => _record_fail >>! raise e
    | _ => raise e
    end).

Definition complete (system user : string) (streaming : bool) : M completion :=
  retry (complete_attempt system user streaming).

End WithWorld.

Definition nl : string := String "010" EmptyString.
Definition dq : string := String "034" EmptyString.

Definition PLANNER_SYSTEM : string :=
  "You are an ERPNext/Frappe agent planner." ++ nl ++
  "ONLY return machine-executable tool calls; DO NOT describe UI navigation." ++ nl ++
  "Available tools: create_doctype, update_doctype, create_workflow, create_query_report, " ++
  "create_script_report, run_sql, run_report, get_sales_stats, get_purchase_stats, " ++
  "get_inventory_snapshot, create_task, enqueue_background_job." ++ nl ++
  "Return STRICT JSON: {" ++ dq ++ "intent" ++ dq ++
  ": <one of: analytics|structural_change|reporting|tasking>, " ++
  dq ++ "steps" ++ dq ++ ": [{" ++ dq ++ "tool" ++
  dq ++ ": <tool_name>, " ++ dq ++ "args" ++ dq ++
  ": {...}}], " ++ dq ++ "risks" ++ dq ++ ": [" ++
  dq ++ "..." ++ dq ++ "], " ++ dq ++
  "confirm_required" ++ dq ++ ": <true|false>}." ++ nl ++
  "Limit steps<=8. Use safe defaults. No prose, no UI steps.".

End LLM.

(* ===================================================================== *)
(** ** knowledge/qa.py *)
(* ===================================================================== *)

Module QA.
Import Sys Text.

Definition SYS_PROMPT : string :=
  "You are an ERPNext/Frappe expert. Answer concisely using ONLY the provided context. " +:+
  "If the answer is not clearly in the context, say 'I don't know'. " +:+
  "Prefer steps and exact ERPNext/Frappe terms when possible.".

(** [sources]: the non-empty sources of the hits, without repetition *)
Fixpoint collect_sources (hits : list hit) (sources : list string) : list string :=
  match hits with
  | [] => sources
  | h :: rest =>
      let src := hit_source h in
      collect_sources rest
        (if negb (String.eqb src EmptyString) && negb (existsb (String.eqb src) sources)
         then sources ++ [src] else sources)
  end.

(** [sep.join(parts)] *)
Fixpoint join (sep : string) (parts : list string) : string :=
  match parts with
  | [] => EmptyString
  | [p] => p
  | p :: rest => p +:+ sep +:+ join sep rest
  end.

(** [l[:k]] for an integer [k]: the first [k] items, and for a negative
    [k] all but the last [-k] *)
Definition upto {A} (k : Z) (l : list A) : list A :=
  if 0 <=? k then take (Z.to_nat k) l
  else take (length l - Z.to_nat (- k)) l.

Section WithWorld.
Context (W : World).

Definition answer_question (question : string) (top_k : Z) : M pyval :=
  let! history := get_trace in
  emit (EvRag question top_k) >>!
  let! hits := lift (rag_query W history question top_k) in
  match hits with
  | [] => ret (PDict [("answer", PStr "I don't know."); ("sources", PList [])])
  | h0 :: _ =>
      let sources := collect_sources hits [] in
      let ctx_parts :=
        map (fun h => "[" +:+ hit_source h +:+ "] " +:+ hit_text h) hits in
      let context := join (LLM.nl +:+ LLM.nl) ctx_parts in
      let context :=
        if 8000 <? Z.of_nat (String.length context)
        then String.substring 0 (Z.to_nat 8000) context else context in
      let user_prompt :=
        "Question: " +:+ question +:+ LLM.nl +:+ LLM.nl +:+ "Context:" +:+ LLM.nl +:+
        context +:+ LLM.nl +:+ LLM.nl +:+ "Answer:" in
      LLM.new_client >>!
      let! answer :=
        catch
          (let! c := LLM.complete W SYS_PROMPT user_prompt false in
           ret (match c with
                | LLM.CText (Some s) => PStr s
                | LLM.CText None => PNone
                | LLM.CStream frags => PList (map PStr frags)
                end))
          (fun _ => ret (PStr (String.substring 0 (Z.to_nat 600) (hit_text h0)))) in
      ret (PDict [("answer", answer);
                  ("sources", PList (map PStr (upto top_k sources)))])
  end.

End WithWorld.
End QA.

(* ===================================================================== *)
(** ** router.py *)
(* ===================================================================== *)

Module Router.
Import Sys Text Dates.

Definition _SYNONYMS_DOMAIN : list (string * list string) :=
  [("sales", ["sale"; "sell"; "revenue"; "turnover"; "customers"; "invoice"; "si";
              "sales invoice"]);
   ("purchase", ["buy"; "bought"; "vendor"; "supplier"; "po"; "purchase"; "spend"; "ap"]);
   ("inventory", ["stock"; "inventory"; "warehouse"; "qty"; "available"])].

Definition _SYNONYMS_DIM : list (string * list string) :=
  [("month", ["month"; "monthly"]);
   ("customer", ["customer"; "customers"; "party"]);
   ("item", ["item"; "sku"; "product"]);
   ("region", ["region"; "territory"; "country"; "state"]);
   ("supplier", ["supplier"; "vendor"])].

Definition synonyms (table : list (string * list string)) (k : string) : list string :=
  default [] (snd <$> List.find (fun kv => String.eqb (fst kv) k) table).

Definition _first_day_of_year (d : date) : date := mkdate (year d) 1 1.

Definition _first_day_of_month (d : date) : date := mkdate (year d) (month d) 1.

Definition _last_day_of_month (d : date) : date :=
  if month d =? 12 then mkdate (year d) 12 31
  else minus_days (mkdate (year d) (month d + 1) 1) 1.

(** a pattern between two word boundaries *)
Definition bounded (r : regex) : regex := Seq WordB (Seq r WordB).

Definition seqs (rs : list regex) : regex := fold_right Seq Eps rs.

Section WithWorld.
Context (W : World).

Definition _now_date : date := today W.

Definition _parse_date_range (text : string) : string * string * string :=
  let t := lower text in
  let today := _now_date in
  if re_search (bounded (alts [lit "ytd"; lit "this year"; lit "year to date"])) t then
    (isoformat (_first_day_of_year today), isoformat today, "this year")
  else if re_search (bounded (alts [seqs [lit "last"; plus ws; lit "12"; plus ws; lit "months"];
                                    lit "l12m"])) t then
    (isoformat (minus_days today 365), isoformat today, "last 12 months")
  else if re_search (bounded (seqs [lit "last"; plus ws; lit "30"; plus ws; lit "days"])) t then
    (isoformat (minus_days today 30), isoformat today, "last 30 days")
  else if re_search (bounded (alts [lit "this month"; lit "mtd"; lit "month to date"])) t then
    (isoformat (_first_day_of_month today), isoformat today, "this month")
  else if re_search (bounded (lit "last month")) t then
    let lm := minus_days (replace_day today 1) 1 in
    (isoformat (_first_day_of_month lm), isoformat (_last_day_of_month lm), "last month")
  else if re_search (bounded (lit "today")) t then
    (isoformat today, isoformat today, "today")
  else if re_search (bounded (lit "yesterday")) t then
    let y := minus_days today 1 in
    (isoformat y, isoformat y, "yesterday")
  else
    (isoformat (minus_days today 365), isoformat today, "last 12 months").

End WithWorld.

(** the first group of the first match of [pre (grp) post] *)
Definition first_group (pre grp post : regex) (s : string) : option string :=
  head (flat_map (fun p =>
          flat_map (fun q =>
            flat_map (fun g => if matches_at post g then [consumed q g] else [])
                     (ends grp q))
            (ends pre p))
          (positions s)).

(** [int(s)] for a string of decimal digits *)
Definition int_of_digits (s : string) : Z :=
  fold_left (fun acc c => 10 * acc + (Z.of_nat (code c) - 48)) (list_ascii_of_string s) 0.

(** [\btop\s+(\d{1,3})\b] *)
Definition _detect_top_n (text : string) : option Z :=
  match first_group (seqs [WordB; lit "top"; plus ws])
                    (Seq digit (opt (Seq digit (opt digit))))
                    WordB (lower text) with
  | Some digits => Some (Z.max 1 (Z.min 200 (int_of_digits digits)))
  | None => None
  end.

Definition _match_any (text : string) (words : list string) : bool :=
  let t := lower text in
  existsb (fun w => re_search (bounded (lit w)) t) words.

Definition _detect_domain (text : string) : string :=
  let t := lower text in
  if _match_any t (synonyms _SYNONYMS_DOMAIN "purchase") then "purchase"
  else if _match_any t (synonyms _SYNONYMS_DOMAIN "inventory") then "inventory"
  else if _match_any t (synonyms _SYNONYMS_DOMAIN "sales") then "sales"
  else "sales".

Fixpoint detect_dimension_loop (t domain : string) (items : list (string * list string))
  : option string :=
  match items with
  | [] => None
  | (dim, words) :: rest =>
      if _match_any t words then
        if String.eqb dim "supplier" && String.eqb domain "purchase" then Some "supplier"
        else if negb (String.eqb dim "supplier") then Some dim
        else detect_dimension_loop t domain rest
      else detect_dimension_loop t domain rest
  end.

Definition _detect_dimension (text domain : string) : string :=
  let t := lower text in
  match detect_dimension_loop t domain _SYNONYMS_DIM with
  | Some dim => dim
  | None =>
      if String.eqb domain "sales" then "customer"
      else if String.eqb domain "purchase" then "supplier"
      else "month"
  end.

(** [^\s*(how|what|why|when|where|explain|guide|docs?)\b] *)
Definition _is_docs_question (text : string) : bool :=
  re_match
    (seqs [Bol; Star ws;
           alts [lit "how"; lit "what"; lit "why"; lit "when"; lit "where";
                 lit "explain"; lit "guide"; Seq (lit "doc") (opt (Chr "s"))];
           WordB])
    (lower (strip text)).

Definition group_ui (dim : string) : string :=
  default "Month"
    (snd <$> List.find (fun kv => String.eqb (fst kv) dim)
       [("month", "Month"); ("customer", "Customer"); ("item", "Item Code");
        ("region", "Territory"); ("supplier", "Supplier")]).

Definition opt_int (o : option Z) : pyval :=
  match o with Some n => PInt n | None => PNone end.

Section WithWorld.
Context (W : World).

Definition route (query : string) : list (string * pyval) :=
  let q := strip query in
  if _is_docs_question q then
    [("intent", PStr "doc_help"); ("action", PStr "rag"); ("query", PStr q)]
  else
    let domain := _detect_domain q in
    let '(from_date, to_date, label) := _parse_date_range W q in
    let top_n := _detect_top_n q in
    let dim := _detect_dimension q domain in
    if re_search (bounded (seqs [lit "run"; plus ws; lit "report"])) (lower q) then
      let report_name :=
        if String.eqb domain "sales" then "Sales Analytics" else "Purchase Analytics" in
      let filters :=
        PDict [("from_date", PStr from_date); ("to_date", PStr to_date);
               ("group_by", PStr (group_ui dim))] in
      [("intent", PStr "reporting"); ("action", PStr "run_report");
       ("report_name", PStr report_name); ("filters", filters)]
    else if String.eqb domain "inventory" then
      [("intent", PStr "analytics"); ("action", PStr "inventory_snapshot");
       ("args", PDict [("warehouse", PNone)])]
    else
      let args :=
        PDict [("by", PStr dim); ("from_date", PStr from_date);
               ("to_date", PStr to_date); ("top_n", opt_int top_n)] in
      if String.eqb domain "purchase" then
        [("intent", PStr "analytics"); ("action", PStr "purchase_stats"); ("args", args)]
      else
        [("intent", PStr "analytics"); ("action", PStr "sales_stats"); ("args", args)].

End WithWorld.

(** *** executor with graceful fallbacks *)

(** [getter(by=dim, **args)] *)
Definition stats_kwargs (dim : pyval) (args : list (string * pyval))
  : result (list (string * pyval)) :=
  if contains "by" args then Raise TypeError else Ok (("by", dim) :: args).

(** stable insertion into a list sorted by decreasing key *)
Fixpoint insert_desc (k : Q) (x : pyval) (l : list (Q * pyval)) : list (Q * pyval) :=
  match l with
  | [] => [(k, x)]
  | (k', y) :: rest =>
      if LLM.Qlt_bool k' k then (k, x) :: (k', y) :: rest
      else (k', y) :: insert_desc k x rest
  end.

Definition label_columns : list string :=
  ["customer"; "supplier"; "item"; "month"; "territory"; "region"; "label"; "name"].

Definition total_columns : list string :=
  ["grand total"; "total"; "amount"; "value"; "net total"].

(** [next((i for i, c in enumerate(cols) if c in names), None)] *)
Fixpoint find_index (names : list string) (cols : list string) (i : nat) : option nat :=
  match cols with
  | [] => None
  | c :: rest =>
      if existsb (String.eqb c) names then Some i else find_index names rest (S i)
  end.

(** [[c.lower() for c in cols]] *)
Fixpoint lower_all (cols : list pyval) : result (list string) :=
  match cols with
  | [] => Ok []
  | PStr c :: rest => rbind (lower_all rest) (fun l => Ok (lower c :: l))
  | _ :: _ => Raise AttributeError
  end.

(** [[{"label": r[lab], "total": r[num]} for r in rows if len(r) > max(lab, num)]] *)
Fixpoint shape_rows (lab num : nat) (rows : list pyval) : result (list pyval) :=
  match rows with
  | [] => Ok []
  | r :: rest =>
      rbind (py_len r) (fun n =>
      if (Nat.max lab num <? n)%nat then
        rbind (py_item lab r) (fun l =>
        rbind (py_item num r) (fun t =>
        rbind (shape_rows lab num rest) (fun shaped =>
        Ok (PDict [("label", l); ("total", t)] :: shaped))))
      else shape_rows lab num rest)
  end.

Section WithWorld.
Context (W : World).

(** [float(r.get("total") or 0)] *)
Definition total_key (r : pyval) : result Q :=
  rbind (py_get "total" r) (fun v => py_float W (py_or v (PInt 0))).

(** [sorted(rows, key=..., reverse=True)]: keys first, then a stable sort *)
Fixpoint sort_desc (rows : list pyval) (sorted : list (Q * pyval)) : result (list pyval) :=
  match rows with
  | [] => Ok (map snd sorted)
  | r :: rest => rbind (total_key r) (fun k => sort_desc rest (insert_desc k r sorted))
  end.

(** the body of the [try] of the top-N step *)
Definition top_rows (rows top_n : pyval) : result (list pyval) :=
  rbind (iterate rows) (fun items =>
  rbind (sort_desc items []) (fun sorted =>
  py_take top_n sorted)).

Definition answer_rows (title_ : string) (ans : pyval) : result pyval :=
  rbind (py_get "answer" ans) (fun a =>
  Ok (PDict [("title", PStr title_); ("columns", PList [PStr "answer"]);
             ("rows", PList [PList [py_or a (PStr EmptyString)]]);
             ("raw", ans)])).

Definition ask (question : pyval) : M pyval :=
  match question with
  | PStr q => QA.answer_question W q 6
  | _ => raise TypeError
  end.

Definition stats_branch (r : list (string * pyval)) (is_sales : bool) : M pyval :=
  let getter := if is_sales then "get_sales_stats" else "get_purchase_stats" in
  let! args0 := lift (rbind (subscript "args" (PDict r)) py_copy) in
  match args0 with
  | PDict args1 =>
      let! dim := lift (subscript "by" args0) in
      let args2 := dict_remove "by" args1 in
      let top_n := get "top_n" args2 in
      let args := dict_remove "top_n" args2 in
      let! kw := lift (stats_kwargs dim args) in
      let! data := call_tool W (mkcall getter [] kw) in
      let! rows := lift (py_get_or "rows" (PList []) data) in
      let! data_rows :=
        if truthy rows then ret (data, rows)
        else
          let! f := lift (subscript "from_date" (PDict args)) in
          let! t := lift (subscript "to_date" (PDict args)) in
          let! t_dt := lift (match t with
                             | PStr ts => match fromisoformat ts with
                                          | Some d => Ok d
                                          | None => Raise ValueError
                                          end
                             | _ => Raise TypeError
                             end) in
          let f2 := isoformat (minus_days t_dt (365 * 3)) in
          let! data2 := call_tool W (mkcall getter []
                          [("by", dim); ("from_date", PStr f2); ("to_date", t)]) in
          let! rows2 := lift (py_get_or "rows" (PList []) data2) in
          ret (data2, rows2) in
      let '(data, rows) := data_rows in
      match data with
      | PDict kvs =>
          let kvs :=
            if truthy rows && truthy top_n then
              match top_rows rows top_n with
              | Ok sorted => dict_set "rows" (PList sorted) kvs
              | Raise _ => kvs
              end
            else kvs in
          match dim with
          | PStr d =>
              let heading := (if is_sales then "Sales" else "Purchases") +:+ " by " +:+ title d in
              ret (PDict (setdefault "group_by" dim (setdefault "title" (PStr heading) kvs)))
          | _ => raise AttributeError
          end
      | _ => raise AttributeError
      end
  | _ => raise TypeError
  end.

Definition report_branch (r : list (string * pyval)) : M pyval :=
  let! name := lift (subscript "report_name" (PDict r)) in
  let filters := py_or (get "filters" r) (PDict []) in
  let! rep := call_tool W (mkcall "run_report" [name; filters] []) in
  let! cols := lift (rbind (rbind (py_get_or "columns" (PList []) rep) iterate) lower_all) in
  let! rows := lift (py_get_or "rows" (PList []) rep) in
  let! row0_is_list :=
    match cols with
    | [] => ret false
    | _ :: _ =>
        if truthy rows
        then lift (rbind (py_item 0 rows) (fun r0 => Ok (isinstance_list r0)))
        else ret false
    end in
  if row0_is_list then
    let lab_idx := default 0%nat (find_index label_columns cols 0) in
    match find_index total_columns cols 0 with
    | Some num_idx =>
        let! shaped := lift (rbind (iterate rows) (shape_rows lab_idx num_idx)) in
        let! title_ := lift (py_get "title" rep) in
        let! group_by := lift (match nth_error cols lab_idx with
                               | Some c => Ok (PStr c)
                               | None => Raise IndexError
                               end) in
        let! fd := lift (py_get "from_date" (get_or "filters" (PDict []) r)) in
        let! td := lift (py_get "to_date" (get_or "filters" (PDict []) r)) in
        ret (PDict [("title", title_); ("group_by", group_by); ("from_date", fd);
                    ("to_date", td); ("rows", PList shaped); ("raw", rep)])
    | None => ret rep
    end
  else ret rep.

Definition execute_routed (r : list (string * pyval)) : M pyval :=
  let action := get "action" r in
  if eq_str action "rag" then
    let! q := lift (subscript "query" (PDict r)) in
    let! ans := ask q in
    lift (answer_rows "Documentation Answer" ans)
  else if eq_str action "inventory_snapshot" then
    let! wh := lift (rbind (subscript "args" (PDict r)) (py_get "warehouse")) in
    let! snap := call_tool W (mkcall "get_inventory_snapshot" [wh] []) in
    let! rows := lift (py_get_or "rows" (PList []) snap) in
    ret (PDict [("title", PStr "Inventory Snapshot");
                ("columns", PList [PStr "Warehouse"; PStr "Item"; PStr "Qty"]);
                ("rows", rows); ("raw", snap)])
  else if eq_str action "sales_stats" || eq_str action "purchase_stats" then
    stats_branch r (eq_str action "sales_stats")
  else if eq_str action "run_report" then
    report_branch r
  else
    let! ans := ask (get_or "query" (PStr EmptyString) r) in
    lift (answer_rows "Answer" ans).

(** [r.get("args", {}).get(k) if r.get("args") else r.get("filters", {}).get(k)] *)
Definition meta_of (r : list (string * pyval)) (k : string) : result pyval :=
  if truthy (get "args" r) then py_get k (get_or "args" (PDict []) r)
  else py_get k (get_or "filters" (PDict []) r).

Definition route_and_execute (query : string) : M pyval :=
  let r := route W query in
  let! out := execute_routed r in
  match out with
  | PDict kvs =>
      let! fd := lift (meta_of r "from_date") in
      let kvs := setdefault "from_date" fd kvs in
      let! td := lift (meta_of r "to_date") in
      let kvs := setdefault "to_date" td kvs in
      let! by_ := lift (py_get "by" (get_or "args" (PDict []) r)) in
      let! gb := if truthy by_ then ret by_
                 else lift (py_get "group_by" (get_or "filters" (PDict []) r)) in
      ret (PDict (if truthy gb then setdefault "group_by" gb kvs else kvs))
  | _ => ret out
  end.

End WithWorld.
End Router.

(* ===================================================================== *)
(** ** agent.py *)
(* ===================================================================== *)

Module Agent.
Import Sys Dates Text.

(** Read-only tools, executed even when [dry_run] is set *)
Definition READ_ONLY_TOOLS : gset string :=
  {[ "get_sales_stats"; "get_purchase_stats"; "get_inventory_snapshot";
     "run_sql"; "run_report" ]}.

(** the names the dispatch of [execute] knows (its [if]/[elif] chain) *)
Definition KNOWN_TOOLS : gset string :=
  {[ "create_doctype"; "update_doctype"; "create_workflow";
     "create_query_report"; "create_script_report"; "run_report"; "run_sql";
     "get_sales_stats"; "get_purchase_stats"; "get_inventory_snapshot";
     "create_task"; "enqueue_background_job" ]}.

(** [tool in READ_ONLY_TOOLS], for any value of [tool] *)
Definition in_read_only (tool : pyval) : result bool :=
  match tool with
  | PStr s => Ok (bool_decide (s ∈ READ_ONLY_TOOLS))
  | PList _ | PDict _ => Raise TypeError
  | _ => Ok false
  end.

(** *** date helpers *)

(** the record that [date(y, m, min(d.day, 28))] is given; the
    constructor returns it when [y] is one of 1..9999 and raises
    [ValueError] otherwise, which the dates the code shifts, within a
    year of today, do not meet *)
Definition _add_months (d : date) (months : Z) : date :=
  let y := year d + ((month d - 1 + months) / 12) in
  let m := (month d - 1 + months) mod 12 + 1 in
  mkdate y m (Z.min (day d) 28).

Section WithWorld.
Context (W : World).

Definition _last_n_month_range (n : Z) : string * string :=
  let today := today W in
  let start := _add_months (replace_day today 1) (- (n - 1)) in
  (isoformat start, isoformat today).

(** *** fast paths for common analytics *)

Definition stats_step (tool by_ f t : string) : pyval :=
  PDict [("tool", PStr tool);
         ("args", PDict [("by", PStr by_); ("from_date", PStr f); ("to_date", PStr t)])].

(** [(best|top|highest).*(selling|sales).*(month)] *)
Definition best_month_re : regex :=
  Seq (alts [lit "best"; lit "top"; lit "highest"])
  (Seq (Star dot)
  (Seq (alts [lit "selling"; lit "sales"])
  (Seq (Star dot) (lit "month")))).

Definition _fastpath (command : string) : option (list (string * pyval)) :=
  let lc := strip (lower command) in
  if re_search best_month_re lc || contains_str "best selling month" lc then
    let '(f, t) := _last_n_month_range 12 in
    Some [("intent", PStr "analytics");
          ("steps", PList [stats_step "get_sales_stats" "month" f t]);
          ("confirm_required", PBool false);
          ("risks", PList [PStr "Assumes last 12 months; adjust if needed."])]
  else if contains_str "top customers" lc then
    let '(f, t) := _last_n_month_range 12 in
    Some [("intent", PStr "analytics");
          ("steps", PList [stats_step "get_sales_stats" "customer" f t]);
          ("confirm_required", PBool false);
          ("risks", PList [])]
  else if contains_str "top items" lc || contains_str "best sellers" lc then
    let '(f, t) := _last_n_month_range 12 in
    Some [("intent", PStr "analytics");
          ("steps", PList [stats_step "get_sales_stats" "item" f t]);
          ("confirm_required", PBool false);
          ("risks", PList [])]
  else None.

(** *** normalization of the steps of a model plan *)

(** [(s.get("args") or {}).copy()] *)
Definition copy_args (a : pyval) : result pyval :=
  match py_or a (PDict []) with
  | PDict kvs => Ok (PDict kvs)
  | PList l => Ok (PList l)
  | _ => Raise AttributeError
  end.

(** [args.setdefault(k, v)] *)
Definition py_setdefault (k : string) (v : pyval) (args : pyval) : result pyval :=
  match args with
  | PDict kvs => Ok (PDict (setdefault k v kvs))
  | _ => Raise AttributeError
  end.

Definition window_defaults (f t : string) (args : pyval) : result pyval :=
  rbind (py_setdefault "by" (PStr "month") args) (fun a1 =>
  rbind (py_setdefault "from_date" (PStr f) a1) (fun a2 =>
  py_setdefault "to_date" (PStr t) a2)).

Definition normalize_step (f t : string) (s : pyval) : result pyval :=
  rbind (py_get "tool" s) (fun tool =>
  rbind (rbind (py_get "args" s) copy_args) (fun args =>
  rbind (if eq_str tool "get_sales_stats" then window_defaults f t args else Ok args)
    (fun args =>
  rbind (if eq_str tool "get_purchase_stats" then window_defaults f t args else Ok args)
    (fun args =>
  Ok (PDict [("tool", tool); ("args", args)]))))).

Fixpoint normalize_loop (f t : string) (steps norm : list pyval) : result (list pyval) :=
  match steps with
  | [] => Ok norm
  | s :: rest =>
      rbind (normalize_step f t s) (fun s' => normalize_loop f t rest (norm ++ [s']))
  end.

Definition _normalize_steps (steps : list pyval) : result (list pyval) :=
  let '(f, t) := _last_n_month_range 12 in
  normalize_loop f t steps [].

(** [isinstance(s, dict) and s.get("tool")] *)
Definition keep_step (s : pyval) : bool :=
  match s with
  | PDict kvs => truthy (get "tool" kvs)
  | _ => false
  end.

(** the body of the [try] of [classify_and_plan] *)
Definition parse_plan (plan_raw : LLM.completion) : result (list (string * pyval)) :=
  rbind (match plan_raw with
         | LLM.CText (Some s) => json_loads W s
         | _ => Raise TypeError
         end) (fun plan =>
  match plan with
  | PDict kvs =>
      if contains "steps" kvs then
        rbind (iterate (get_or "steps" (PList []) kvs)) (fun items =>
        let kvs1 := dict_set "steps" (PList (List.filter keep_step items)) kvs in
        rbind (iterate (get "steps" kvs1)) (fun steps =>
        rbind (_normalize_steps steps) (fun norm =>
        Ok (dict_set "steps" (PList norm) kvs1))))
      else Raise AssertionError
  | _ => Raise AssertionError
  end).

Definition fallback_plan : list (string * pyval) :=
  let '(f, t) := _last_n_month_range 12 in
  [("intent", PStr "analytics");
   ("steps", PList [stats_step "get_sales_stats" "month" f t]);
   ("confirm_required", PBool false);
   ("risks", PList [PStr "planner_fallback"])].

Definition classify_and_plan (command : string) : M (list (string * pyval)) :=
  match _fastpath command with
  | Some fast => ret fast
  | None =>
      let! plan_raw := LLM.complete W LLM.PLANNER_SYSTEM command false in
      catch (lift (parse_plan plan_raw)) (fun _ => ret fallback_plan)
  end.

(** *** the execution engine *)

(** a per-step outcome: [{step, tool, result}] or, skipped under dry run,
    [{step, tool, dry_run: True, args}] *)
Inductive outcome : Type :=
| StepResult (step : Z) (tool : pyval) (res : pyval)
| StepSkipped (step : Z) (tool : pyval) (args : pyval).

Inductive exec_result : Type :=
| AwaitingConfirmation (correlation_id : string) (plan : list (string * pyval))
| Completed (correlation_id : option string) (plan : list (string * pyval))
            (results : list outcome) (summary : option string).

(** [bool(confirm_token)] *)
Definition token_given (confirm_token : option string) : bool :=
  match confirm_token with
  | Some s => negb (String.eqb s EmptyString)
  | None => false
  end.

(** [plan.get("steps", [])[:8]] and the items [enumerate] yields *)
Definition first8 (steps : pyval) : result (list pyval) :=
  match steps with
  | PList l => Ok (take 8 l)
  | PStr s => iterate (PStr (String.substring 0 8 s))
  | _ => Raise TypeError
  end.

(** [bool(plan.get("confirm_required")) or (intent in {"structural_change"})] *)
Definition confirm_needed (plan : list (string * pyval)) : result bool :=
  let intent := get_or "intent" (PStr "analytics") plan in
  if truthy (get "confirm_required" plan) then Ok true
  else if hashable intent then Ok (eq_str intent "structural_change")
  else Raise TypeError.

(** the keyword arguments of a call that unpacks [args] and adds [extra] *)
Definition kwargs_of (args : pyval) (extra : list (string * pyval))
  : result (list (string * pyval)) :=
  match args with
  | PDict kvs =>
      if existsb (fun kv => contains (fst kv) kvs) extra then Raise TypeError
      else Ok (kvs ++ extra)
  | _ => Raise TypeError
  end.

Definition call_kw (tool : string) (args : pyval) (extra : list (string * pyval))
  : M pyval :=
  let! kw := lift (kwargs_of args extra) in
  call_tool W (mkcall tool [] kw).

Definition rows_of (v : pyval) : pyval := PDict [("rows", v)].

(** the [if]/[elif] chain of [execute] *)
Definition dispatch (tool args : pyval) (idem : string) : M pyval :=
  let key := [("idempotency_key", PStr idem)] in
  if eq_str tool "create_doctype" then call_kw "create_doctype" args key
  else if eq_str tool "update_doctype" then call_kw "update_doctype" args key
  else if eq_str tool "create_workflow" then call_kw "create_workflow" args key
  else if eq_str tool "create_query_report" then call_kw "create_query_report" args key
  else if eq_str tool "create_script_report" then call_kw "create_script_report" args key
  else if eq_str tool "run_report" then call_kw "run_report" args []
  else if eq_str tool "run_sql" then
    let! rows := call_kw "run_sql" args [] in ret (rows_of rows)
  else if eq_str tool "get_sales_stats" then call_kw "get_sales_stats" args []
  else if eq_str tool "get_purchase_stats" then call_kw "get_purchase_stats" args []
  else if eq_str tool "get_inventory_snapshot" then
    let! rows := call_kw "get_inventory_snapshot" args [] in ret (rows_of rows)
  else if eq_str tool "create_task" then call_kw "create_task" args key
  else if eq_str tool "enqueue_background_job" then
    call_kw "enqueue_background_job" args []
  else ret (PDict [("error", PStr ("unknown tool " ++ py_str W tool))]).

(** [step.get("args", {}) or {}] *)
Definition step_args (step : pyval) : result pyval :=
  match step with
  | PDict kvs => Ok (py_or (get_or "args" (PDict []) kvs) (PDict []))
  | _ => Raise AttributeError
  end.

(** one round of the loop over the steps *)
Definition run_step (dry_run : bool) (idem : string) (idx : Z) (step : pyval)
  : M outcome :=
  let! tool := lift (py_get "tool" step) in
  let! args := lift (step_args step) in
  let! skip := if dry_run then lift (rbind (in_read_only tool) (fun b => Ok (negb b)))
               else ret false in
  if skip then ret (StepSkipped idx tool args)
  else
    let! res := dispatch tool args idem in
    ret (StepResult idx tool res).

Fixpoint run_steps (dry_run : bool) (idem : string) (idx : Z) (steps : list pyval)
    (results : list outcome) : M (list outcome) :=
  match steps with
  | [] => ret results
  | step :: rest =>
      let! o := run_step dry_run idem idx step in
      run_steps dry_run idem (idx + 1) rest (results ++ [o])
  end.

(** *** the human summary *)

Definition tool_of (r : outcome) : pyval :=
  match r with StepResult _ t _ | StepSkipped _ t _ => t end.

(** [r.get("result")] *)
Definition result_of (r : outcome) : pyval :=
  match r with StepResult _ _ res => res | StepSkipped _ _ _ => PNone end.

(** [float(x.get("revenue") or 0)] *)
Definition revenue_key (x : pyval) : result Q :=
  rbind (py_get "revenue" x) (fun v => py_float W (py_or v (PInt 0))).

(** [max(rows, key=...)] after its first item: the first largest wins *)
Fixpoint max_by (best : pyval) (kbest : Q) (rows : list pyval) : result pyval :=
  match rows with
  | [] => Ok best
  | x :: rest =>
      rbind (revenue_key x) (fun k =>
      if LLM.Qlt_bool kbest k then max_by x k rest else max_by best kbest rest)
  end.

Definition summary_text (period revenue : pyval) : string :=
  "Best selling month (last 12 months): " ++ py_str W period ++
  " â€¢ Revenue=" ++ py_str W revenue.

Definition summary_of_rows (rows : pyval) : result (option string) :=
  if truthy rows then
    match rows with
    | PList (PDict kv0 :: rest) =>
        if contains "period" kv0 && contains "revenue" kv0 then
          rbind (revenue_key (PDict kv0)) (fun k0 =>
          rbind (max_by (PDict kv0) k0 rest) (fun best =>
          rbind (subscript "period" best) (fun period =>
          rbind (subscript "revenue" best) (fun revenue =>
          Ok (Some (summary_text period revenue))))))
        else Ok None
    | PList _ => Ok None
    | PStr _ => Ok None
    | PDict _ => Raise KeyError
    | _ => Raise TypeError
    end
  else Ok None.

Fixpoint summarize (results : list outcome) : result (option string) :=
  match results with
  | [] => Ok None
  | r :: rest =>
      if eq_str (tool_of r) "get_sales_stats" then
        rbind (py_get "rows" (py_or (result_of r) (PDict []))) (fun rows =>
        rbind (summary_of_rows (py_or rows (PList []))) (fun s =>
        match s with
        | Some text => Ok (Some text)
        | None => summarize rest
        end))
      else summarize rest
  end.

Definition execute (command_text user : string) (dry_run : bool)
    (confirm_token : option string) : M exec_result :=
  let! corr_id := uuid4 W in
  let! idem := uuid4 W in
  LLM.new_client >>!
  let! plan := classify_and_plan command_text in
  let! steps := lift (first8 (get_or "steps" (PList []) plan)) in
  let! needed := lift (confirm_needed plan) in
  if needed && negb (token_given confirm_token) && negb dry_run then
    ret (AwaitingConfirmation corr_id plan)
  else
    let! results := run_steps dry_run idem 1 steps [] in
    let! summary := lift (summarize results) in
    ret (Completed (Some corr_id) plan results summary).

Definition auto_plan : list (string * pyval) :=
  [("intent", PStr "auto"); ("steps", PList []); ("risks", PList []);
   ("confirm_required", PBool false)].

(** the router first; the planner and the engine when it gave neither
    rows nor a text answer *)
Definition smart_execute (command_text user : string) (dry_run : bool)
    (confirm_token : option string) : M exec_result :=
  let! routed := Router.route_and_execute W command_text in
  let answered :=
    match routed with
    | PDict kvs => truthy (get "rows" kvs) || truthy (get "raw" kvs)
    | _ => false
    end in
  if answered then
    ret (Completed None auto_plan [StepResult 1 (PStr "router") routed] None)
  else execute command_text user dry_run confirm_token.

End WithWorld.
End Agent.

(* ===================================================================== *)
(** ** Concrete worlds, to run the model on *)
(* ===================================================================== *)

Module Scenario.
Import Sys Dates.

(** a clock that advances one second per reading *)
Definition ticking (n : nat) : Q := inject_Z (Z.of_nat n).

Definition uuid_of (n : nat) : string :=
  match n with
  | O => "0b7e6c1e-correlation"
  | _ => "5f0d2a9c-idempotency"
  end.

Definition no_rows : pyval := PDict [("rows", PList [])].

(** a world whose backend always answers [back], whose parser reads
    every text as [plan], and whose tools all return an empty table *)
Definition world (clock : nat → Q) (back : result reply) (plan : result pyval) : World :=
  {| today := mkdate 2024 3 15;
     time_at := clock;
     uuid4_at := uuid_of;
     backend := fun _ => back;
     registry := fun _ _ => Ok no_rows;
     rag_query := fun _ _ _ => Ok [];
     json_loads := fun _ => plan;
     py_float := fun v => match v with
                          | PInt z => Ok (inject_Z z)
                          | PFloat q => Ok q
                          | _ => Raise ValueError
                          end;
     py_str := fun v => match v with PStr s => s | _ => "?" end |}.

Definition text_reply (s : string) : result reply :=
  Ok {| content := Some s; deltas := [] |}.

(** the backend is unreachable *)
Definition unreachable : World :=
  world ticking (Raise APIConnectionError) (Raise JSONDecodeError).

(** the backend rejects the request with a status error *)
Definition rejecting : World :=
  world ticking (Raise APIStatusError) (Raise JSONDecodeError).

(** every reading of the clock is 50 s *)
Definition at_50s : World :=
  world (fun _ => 50%Q) (text_reply "{}") (Ok (PDict [])).

(** every reading of the clock is 200 s *)
Definition at_200s : World :=
  world (fun _ => 200%Q) (text_reply "{}") (Ok (PDict [])).

Definition with_window (w : list Q) : State :=
  {| trace := []; clock_reads := 0; uuids := 0; fail_window := w |}.

(** the model answers with a given plan *)
Definition planning (plan : pyval) : World :=
  world ticking (text_reply "plan") (Ok plan).

Definition step (tool : string) (args : list (string * pyval)) : pyval :=
  PDict [("tool", PStr tool); ("args", PDict args)].

Definition plan_of (intent : string) (confirm : bool) (steps : list pyval) : pyval :=
  PDict [("intent", PStr intent); ("steps", PList steps);
         ("risks", PList []); ("confirm_required", PBool confirm)].

Definition one_row : pyval :=
  PDict [("rows", PList [PDict [("label", PStr "Acme"); ("total", PInt 1200)]])].

(** the tools return one row; the backend is unreachable *)
Definition stocked : World :=
  {| today := mkdate 2024 3 15;
     time_at := ticking;
     uuid4_at := uuid_of;
     backend := fun _ => Raise APIConnectionError;
     registry := fun _ _ => Ok one_row;
     rag_query := fun _ _ _ => Ok [];
     json_loads := fun _ => Raise JSONDecodeError;
     py_float := fun v => match v with
                          | PInt z => Ok (inject_Z z)
                          | PFloat q => Ok q
                          | _ => Raise ValueError
                          end;
     py_str := fun v => match v with PStr s => s | _ => "?" end |}.

(** the items of a dict *)
Definition items (v : pyval) : list (string * pyval) :=
  match v with PDict kvs => kvs | _ => [] end.

(** a task to create, behind a confirmation *)
Definition risky_plan : pyval :=
  plan_of "tasking" true [step "create_task" [("subject", PStr "Call the supplier")]].

(** a change of structure that the model did not mark for confirmation *)
Definition structural_plan : pyval :=
  plan_of "structural_change" false
    [step "create_doctype" [("name", PStr "Warranty Claim")]].

(** one read-only and one mutating step *)
Definition mixed_plan : pyval :=
  plan_of "tasking" false
    [step "get_sales_stats" [("by", PStr "item")];
     step "create_task" [("subject", PStr "Review the best sellers")]].

(** two mutating steps *)
Definition jobs_plan : pyval :=
  plan_of "tasking" false
    [step "create_task" [("subject", PStr "Rebuild the index")];
     step "enqueue_background_job" [("method", PStr "reindex")]].

(** a model plan with items that are not steps *)
Definition ragged_plan : pyval :=
  PDict [("steps", PList [PStr "not a step";
                          PDict [("args", PDict [])];
                          PDict [("tool", PStr EmptyString)];
                          PDict [("tool", PStr "get_purchase_stats")]])].

(** nine steps for a tool that does not exist *)
Definition rockets_plan : pyval :=
  plan_of "analytics" false (replicate 9 (step "launch_rockets" [])).

End Scenario.

(* ===================================================================== *)
(** ** Vocabulary of the properties *)
(* ===================================================================== *)

Module Spec.
Import Sys LLM Agent.

(** [emits P m]: whatever [m] returns or raises, the trace only grows,
    and by events that satisfy [P]. *)
Definition emits {A} (P : event → Prop) (m : M A) : Prop :=
  ∀ st r st', m st = (r, st') →
    ∃ evs, trace st' = trace st ++ evs ∧ Forall P evs.

(** the failures of the window that are less than 90 seconds old *)
Definition recent (now : Q) (w : list Q) : list Q :=
  List.filter (fun t => Qlt_bool (now - t) 90) w.

(** the test of [_check_circuit] *)
Definition circuit_open (now : Q) (w : list Q) : bool :=
  (3 <=? length (recent now w))%nat && Qlt_bool (now - List.last (recent now w) 0%Q) 30.

(** the errors [complete] records before it re-raises them *)
Definition recorded (e : exn) : bool :=
  match e with
  | APIConnectionError | APIStatusError | RateLimitError => true
  | _ => false
  end.

(** the window after a failed attempt that read the clock at tick [c] *)
Definition record (W : World) (c : nat) (w : list Q) : list Q :=
  recent (time_at W c) w ++ [time_at W (S c)].

(** what [_call] makes of a response *)
Definition answer (streaming : bool) (resp : reply) : completion :=
  if streaming then CStream (map (fun d => default EmptyString d) (deltas resp))
  else CText (content resp).

(** a wait between attempts is between 1 and 10 seconds *)
Definition backoff_ok (e : event) : Prop :=
  match e with
  | EvSleep s => (1 <= s <= 10)%Q
  | _ => True
  end.

(** events that are not tool calls *)
Definition quiet (e : event) : Prop := is_tool_event e = false.

(** a step as normalization leaves it: exactly a tool and its arguments,
    the tool a value that counts as true *)
Definition normal_step (s : pyval) : Prop :=
  ∃ tool args, s = PDict [("tool", tool); ("args", args)] ∧ truthy tool = true.

(** a plan whose steps are a list of such steps *)
Definition well_formed (plan : list (string * pyval)) : Prop :=
  ∃ steps, dict_get "steps" plan = Some (PList steps) ∧ Forall normal_step steps.

(** two steps name the same tool *)
Definition same_tool (s s' : pyval) : Prop := py_get "tool" s = py_get "tool" s'.

(** the state in which [execute] plans: two identifiers drawn, a fresh
    client *)
Definition started (st : State) : State :=
  mkstate (trace st) (clock_reads st) (S (S (uuids st))) [].

(** only read-only tools are called *)
Definition read_only_event (e : event) : Prop :=
  match e with
  | EvTool c => tc_tool c ∈ READ_ONLY_TOOLS
  | _ => True
  end.

(** the tools whose result [execute] wraps as [{"rows": ...}] *)
Definition wraps_rows (name : string) : bool :=
  String.eqb name "run_sql" || String.eqb name "get_inventory_snapshot".

(** one step of a dry run, from state to state *)
Inductive dry_step (W : World) (idx : Z) (step : pyval)
  : State → outcome → State → Prop :=
| dry_dispatched name args kw payload st :
    py_get "tool" step = Ok (PStr name) →
    name ∈ READ_ONLY_TOOLS →
    step_args step = Ok args →
    kwargs_of args [] = Ok kw →
    registry W (trace st) (mkcall name [] kw) = Ok payload →
    dry_step W idx step st
      (StepResult idx (PStr name) (if wraps_rows name then rows_of payload else payload))
      (mkstate (trace st ++ [EvTool (mkcall name [] kw)]) (clock_reads st)
               (uuids st) (fail_window st))
| dry_skipped tool args st :
    py_get "tool" step = Ok tool →
    in_read_only tool = Ok false →
    step_args step = Ok args →
    dry_step W idx step st (StepSkipped idx tool args) st.

(** the steps of a dry run, in order, positions counted from [idx] *)
Inductive dry_steps (W : World) : Z → list pyval → State → list outcome → State → Prop :=
| dry_done idx st : dry_steps W idx [] st [] st
| dry_next idx step rest st o st1 os st2 :
    dry_step W idx step st o st1 →
    dry_steps W (idx + 1) rest st1 os st2 →
    dry_steps W idx (step :: rest) st (o :: os) st2.

(** the tools that [execute] calls with the token of the command *)
Definition KEYED_TOOLS : list string :=
  ["create_doctype"; "update_doctype"; "create_workflow"; "create_query_report";
   "create_script_report"; "create_task"].

(** the actions [route] can choose *)
Definition ROUTED_ACTIONS : list pyval :=
  [PStr "rag"; PStr "inventory_snapshot"; PStr "purchase_stats"; PStr "sales_stats";
   PStr "run_report"].

(** the router gave rows or a text answer *)
Definition answered (routed : pyval) : bool :=
  match routed with
  | PDict kvs => truthy (get "rows" kvs) || truthy (get "raw" kvs)
  | _ => false
  end.

End Spec.

(* ===================================================================== *)
(** ** More concrete worlds *)
(* ===================================================================== *)

Module Cases.
Import Sys Dates.

(** the backend is rate limited on the first request and answers the
    second *)
Definition flaky : World :=
  {| today := mkdate 2024 3 15;
     time_at := Scenario.ticking;
     uuid4_at := Scenario.uuid_of;
     backend := fun history =>
       if (net_calls history <=? 1)%nat then Raise RateLimitError
       else Scenario.text_reply "{}";
     registry := fun _ _ => Ok Scenario.no_rows;
     rag_query := fun _ _ _ => Ok [];
     json_loads := fun _ => Raise JSONDecodeError;
     py_float := fun v => match v with
                          | PInt z => Ok (inject_Z z)
                          | PFloat q => Ok q
                          | _ => Raise ValueError
                          end;
     py_str := fun v => match v with PStr s => s | _ => "?" end |}.

(** the functions that frappe_tools.py defines *)
Definition DEFINED_TOOLS : list string :=
  ["run_sql"; "get_purchase_stats"; "get_sales_stats"; "run_report";
   "run_query_report"].

(** the tools module as it is in the repository: the functions it
    defines find nothing ([run_sql] returns no row, the others an empty
    table), and the use of any other name raises [AttributeError]; the
    model answers with a given plan *)
Definition repository (plan : pyval) : World :=
  {| today := mkdate 2024 3 15;
     time_at := Scenario.ticking;
     uuid4_at := Scenario.uuid_of;
     backend := fun _ => Scenario.text_reply "plan";
     registry := fun _ c =>
       if String.eqb (tc_tool c) "run_sql" then Ok (PList [])
       else if existsb (String.eqb (tc_tool c)) DEFINED_TOOLS then Ok Scenario.no_rows
       else Raise AttributeError;
     rag_query := fun _ _ _ => Ok [];
     json_loads := fun _ => Ok plan;
     py_float := fun v => match v with
                          | PInt z => Ok (inject_Z z)
                          | PFloat q => Ok q
                          | _ => Raise ValueError
                          end;
     py_str := fun v => match v with PStr s => s | _ => "?" end |}.

(** ten steps for a read-only tool *)
Definition ten_reads : pyval :=
  Scenario.plan_of "analytics" false
    (replicate 10 (Scenario.step "run_sql" [("sql", PStr "select 1")])).


(** one task to create *)
Definition task_plan : pyval :=
  Scenario.plan_of "tasking" false
    [Scenario.step "create_task" [("subject", PStr "Rebuild the index")]].

End Cases.

(* ===================================================================== *)
(** ** More vocabulary *)
(* ===================================================================== *)

Module Terms.
Import Sys LLM Agent.

(** the position an outcome is recorded at *)
Definition step_of (o : outcome) : Z :=
  match o with StepResult i _ _ | StepSkipped i _ _ => i end.

Definition is_result (o : outcome) : Prop :=
  match o with StepResult _ _ _ => True | StepSkipped _ _ _ => False end.

(** the positions 1, 2, ..., n *)
Definition numbered_from (idx : Z) (n : nat) : list Z :=
  map (fun i => idx + Z.of_nat i) (seq 0 n).

(** a call of a token-taking tool carries the token as its
    [idempotency_key] *)
Definition carries_token (idem : string) (e : event) : Prop :=
  match e with
  | EvTool c =>
      tc_tool c ∈ Spec.KEYED_TOOLS →
      dict_get "idempotency_key" (tc_kwargs c) = Some (PStr idem)
  | _ => True
  end.

(** the tools whose arguments get the default window *)
Definition windowed (tool : pyval) : bool :=
  eq_str tool "get_sales_stats" || eq_str tool "get_purchase_stats".

End Terms.


(* ===================================================================== *)
(** ** Vocabulary of the calls and of the normalization *)
(* ===================================================================== *)

Module Calls.
Import Sys LLM Agent.

(** a call of the tool a step names, with the arguments of the step and,
    for a token-taking tool, the token *)
Definition one_call (idem : string) (tool args : pyval) (e : event) : Prop :=
  ∃ name kw,
    e = EvTool (mkcall name [] kw) ∧ tool = PStr name ∧ name ∈ Agent.KNOWN_TOOLS ∧
    Agent.kwargs_of args (if bool_decide (name ∈ Spec.KEYED_TOOLS)
                          then [("idempotency_key", PStr idem)] else []) = Ok kw.

(** the report of a step whose tool the dispatch does not know *)
Definition unknown_tool (W : World) (tool : pyval) : pyval :=
  PDict [("error", PStr ("unknown tool " ++ py_str W tool))].

(** the defaults of a step that reads statistics *)
Definition WINDOW_DEFAULTS (f t : string) : list (string * pyval) :=
  [("by", PStr "month"); ("from_date", PStr f); ("to_date", PStr t)].

(** [{**dflt, **a}[k]], when it exists *)
Definition merged (a dflt : list (string * pyval)) (k : string) : option pyval :=
  match dict_get k a with
  | Some v => Some v
  | None => dict_get k dflt
  end.

(** the one call of a fast-path command *)
Definition stats_call (by_ f t : string) : tool_call :=
  mkcall "get_sales_stats" []
    [("by", PStr by_); ("from_date", PStr f); ("to_date", PStr t)].

End Calls.

(* ===================================================================== *)
(** ** Worlds with a documentation store *)
(* ===================================================================== *)

Module Stores.
Import Sys Dates.

Definition leave_policy : hit :=
  mkhit "Leave is allocated per leave period." "hr/leave.md".

Definition leave_types : hit :=
  mkhit "A leave type can be paid or unpaid." "hr/leave.md".

Definition holidays : hit :=
  mkhit "Holiday lists belong to a company." "hr/holidays.md".

(** a store that answers [hits] (or fails), beside an unreachable backend *)
Definition shelf (hits : result (list hit)) : World :=
  {| today := mkdate 2024 3 15;
     time_at := Scenario.ticking;
     uuid4_at := Scenario.uuid_of;
     backend := fun _ => Raise APIConnectionError;
     registry := fun _ _ => Ok Scenario.no_rows;
     rag_query := fun _ _ _ => hits;
     json_loads := fun _ => Raise JSONDecodeError;
     py_float := fun v => match v with
                          | PInt z => Ok (inject_Z z)
                          | PFloat q => Ok q
                          | _ => Raise ValueError
                          end;
     py_str := fun v => match v with PStr s => s | _ => "?" end |}.

Definition stocked_shelf : World := shelf (Ok [leave_policy; leave_types; holidays]).


End Stores.

(* ===================================================================== *)
(** ** Vocabulary of the router *)
(* ===================================================================== *)

Module Routes.
Import Sys Dates Router.

(** the dimensions [_detect_dimension] can return *)
Definition DIMENSIONS : list string :=
  ["month"; "customer"; "item"; "region"; "supplier"].

(** the arguments [route] gives a statistics action *)
Definition stats_args (dim : string) (window : string * string * string)
    (top_n : option Z) : pyval :=
  PDict [("by", PStr dim); ("from_date", PStr (fst (fst window)));
         ("to_date", PStr (snd (fst window))); ("top_n", opt_int top_n)].

(** what [route] returns for a statistics action *)
Definition stats_route (action : string) (args : pyval) : list (string * pyval) :=
  [("intent", PStr "analytics"); ("action", PStr action); ("args", args)].

(** keys in decreasing order *)
Fixpoint descending (ks : list Q) : Prop :=
  match ks with
  | [] => True
  | k :: rest => Forall (fun k' => (k' <= k)%Q) rest ∧ descending rest
  end.

(** the call of a statistics tool over a window *)
Definition window_call (is_sales : bool) (dim f t : pyval) : tool_call :=
  mkcall (if is_sales then "get_sales_stats" else "get_purchase_stats") []
    [("by", dim); ("from_date", f); ("to_date", t)].

(** the tools answer a purchase query with no rows, then with two *)
Definition two_suppliers : pyval :=
  PDict [("rows", PList [PDict [("label", PStr "Bolt Co"); ("total", PInt 10)];
                         PDict [("label", PStr "Nut Co"); ("total", PInt 70)]])].

Definition late_rows : World :=
  {| today := mkdate 2024 3 15;
     time_at := Scenario.ticking;
     uuid4_at := Scenario.uuid_of;
     backend := fun _ => Raise APIConnectionError;
     registry := fun history _ =>
       match history with
       | [] => Ok Scenario.no_rows
       | _ => Ok two_suppliers
       end;
     rag_query := fun _ _ _ => Ok [];
     json_loads := fun _ => Raise JSONDecodeError;
     py_float := fun v => match v with
                          | PInt z => Ok (inject_Z z)
                          | PFloat q => Ok q
                          | _ => Raise ValueError
                          end;
     py_str := fun v => match v with PStr s => s | _ => "?" end |}.

End Routes.

(* ===================================================================== *)
(** ** frappe_tools.py *)
(* ===================================================================== *)

Module Tools.
Import Sys Text Dates.

(** What the tools ask of the site: the database and the report engine. *)
Record Site : Type := mksite {
  db_sql : string → list (string * pyval) → result pyval;
                                      (* frappe.db.sql(sql, params, as_dict=True) *)
  query_report_run : string → pyval → string → result pyval;
                                      (* frappe.desk.query_report.run *)
  session_user : option string        (* frappe.session.user, in a session *)
}.

(** the aliases of the group keys *)
Definition GROUP_SYNONYMS : list (string * string) :=
  [("months", "month"); ("mth", "month"); ("mmm", "month"); ("mon", "month");
   ("customers", "customer"); ("cust", "customer"); ("party", "customer");
   ("items", "item"); ("sku", "item"); ("product", "item");
   ("vendors", "supplier"); ("vendor", "supplier");
   ("territory", "region"); ("country", "region"); ("region", "region")].

Definition GROUP_KEYS : list string :=
  ["month"; "customer"; "item"; "supplier"; "region"].

(** [synonyms.get(by, by)] *)
Definition synonym (by_ : string) : string :=
  default by_ (snd <$> List.find (fun kv => String.eqb (fst kv) by_) GROUP_SYNONYMS).

Definition PURCHASE_JOINS : string :=
  LLM.nl +:+
  "        `tabPurchase Invoice` pi" +:+ LLM.nl +:+
  "        JOIN `tabPurchase Invoice Item` pii ON pii.parent = pi.name" +:+ LLM.nl +:+
  "        LEFT JOIN `tabAddress` addr ON addr.name = pi.supplier_address" +:+ LLM.nl +:+
  "    ".

Definition SALES_JOINS : string :=
  LLM.nl +:+
  "        `tabSales Invoice` si" +:+ LLM.nl +:+
  "        JOIN `tabSales Invoice Item` sii ON sii.parent = si.name" +:+ LLM.nl +:+
  "        LEFT JOIN `tabAddress` addr ON addr.name = si.shipping_address_name" +:+ LLM.nl +:+
  "    ".

(** the statement of a statistics tool, for a label expression, the
    summed column, the joined tables and the conditions *)
Definition stats_sql (label amount joins : string) (conds : list string) : string :=
  LLM.nl +:+
  "        SELECT" +:+ LLM.nl +:+
  "            " +:+ label +:+ " AS label," +:+ LLM.nl +:+
  "            SUM(" +:+ amount +:+ ") AS total" +:+ LLM.nl +:+
  "        FROM " +:+ joins +:+ LLM.nl +:+
  "        WHERE " +:+ QA.join " AND " conds +:+ LLM.nl +:+
  "        GROUP BY " +:+ label +:+ LLM.nl +:+
  "        ORDER BY total DESC" +:+ LLM.nl +:+
  "    ".

(** [(v or w).strip()] and the like, on a value that should be a string *)
Definition py_strip (v : pyval) : result string :=
  match v with
  | PStr s => Ok (strip s)
  | _ => Raise AttributeError
  end.

(** [r.get(fn)] for a key that may be any value; the keys of [r] are
    strings *)
Definition get_any (fn : pyval) (r : pyval) : result pyval :=
  match r with
  | PDict kvs =>
      match fn with
      | PStr s => Ok (get s kvs)
      | PList _ | PDict _ => Raise TypeError
      | _ => Ok PNone
      end
  | _ => Raise AttributeError
  end.

(** [[f(x) for x in l]] *)
Fixpoint traverse {A B} (f : A → result B) (l : list A) : result (list B) :=
  match l with
  | [] => Ok []
  | x :: rest => rbind (f x) (fun y => rbind (traverse f rest) (fun ys => Ok (y :: ys)))
  end.

Section WithSite.
Context (W : World) (site : Site).

Definition _today : date := today W.

(** [str(v)] *)
Definition to_str (v : pyval) : string :=
  match v with
  | PStr s => s
  | _ => py_str W v
  end.

Definition _normalize_dates (from_date to_date : pyval) : string * string :=
  if negb (truthy from_date) || negb (truthy to_date) then
    let end_ := _today in
    let start := minus_days end_ 365 in
    (isoformat start, isoformat end_)
  else (to_str from_date, to_str to_date).

Definition _norm_group_key (kwargs : list (string * pyval)) (dflt : string) : string :=
  let by_ := py_or (get "by" kwargs)
               (py_or (get "fieldname" kwargs)
                  (py_or (get "group_by" kwargs) (PStr dflt))) in
  let by_ := lower (strip (to_str (py_or by_ (PStr EmptyString)))) in
  let by_ := synonym by_ in
  if existsb (String.eqb by_) GROUP_KEYS then by_ else "month".

(** [frappe.db.sql(sql, params or {}, as_dict=True)] *)
Definition run_sql (sql : string) (params : option (list (string * pyval)))
  : result pyval :=
  db_sql site sql (default [] params).

(** [rows[0] if rows else None] *)
Definition first_row (rows : pyval) : result pyval :=
  if truthy rows then py_item 0 rows else Ok PNone.

Definition get_purchase_stats (by_ from_date to_date company : pyval)
    (kwargs : list (string * pyval)) : result pyval :=
  let by_ := _norm_group_key (("by", by_) :: kwargs) "month" in
  let '(from_date, to_date) := _normalize_dates from_date to_date in
  let conds := ["pi.docstatus = 1";
                "pi.posting_date BETWEEN %(from_date)s AND %(to_date)s"] in
  let params := [("from_date", PStr from_date); ("to_date", PStr to_date)] in
  let '(conds, params) :=
    if truthy company
    then (conds ++ ["pi.company = %(company)s"], dict_set "company" company params)
    else (conds, params) in
  let label :=
    if String.eqb by_ "month" then "DATE_FORMAT(pi.posting_date, '%%Y-%%m')"
    else if String.eqb by_ "supplier" then "pi.supplier"
    else if String.eqb by_ "item" then "pii.item_code"
    else if String.eqb by_ "region" then "COALESCE(addr.country, '')"
    else "DATE_FORMAT(pi.posting_date, '%%Y-%%m')" in
  let sql := stats_sql label "pii.base_net_amount" PURCHASE_JOINS conds in
  rbind (run_sql sql (Some params)) (fun rows =>
  rbind (first_row rows) (fun highest =>
  Ok (PDict [("title", PStr ("Purchases by " +:+ title by_));
             ("group_by", PStr by_);
             ("from_date", PStr from_date);
             ("to_date", PStr to_date);
             ("rows", rows);
             ("highest", highest)]))).

Definition get_sales_stats (by_ from_date to_date company : pyval)
    (kwargs : list (string * pyval)) : result pyval :=
  let by_ := _norm_group_key (("by", by_) :: kwargs) "month" in
  let '(from_date, to_date) := _normalize_dates from_date to_date in
  let conds := ["si.docstatus = 1";
                "si.posting_date BETWEEN %(from_date)s AND %(to_date)s"] in
  let params := [("from_date", PStr from_date); ("to_date", PStr to_date)] in
  let '(conds, params) :=
    if truthy company
    then (conds ++ ["si.company = %(company)s"], dict_set "company" company params)
    else (conds, params) in
  let label :=
    if String.eqb by_ "month" then "DATE_FORMAT(si.posting_date, '%%Y-%%m')"
    else if String.eqb by_ "customer" then "si.customer"
    else if String.eqb by_ "item" then "sii.item_code"
    else if String.eqb by_ "region" then "COALESCE(addr.country, '')"
    else "DATE_FORMAT(si.posting_date, '%%Y-%%m')" in
  let sql := stats_sql label "sii.base_net_amount" SALES_JOINS conds in
  rbind (run_sql sql (Some params)) (fun rows =>
  rbind (first_row rows) (fun highest =>
  Ok (PDict [("title", PStr ("Sales by " +:+ title by_));
             ("group_by", PStr by_);
             ("from_date", PStr from_date);
             ("to_date", PStr to_date);
             ("rows", rows);
             ("highest", highest)]))).

(** one round of the loop over the columns: the label and the field name *)
Definition column_of (c : pyval) : result (string * pyval) :=
  rbind (py_get "label" c) (fun l =>
  rbind (py_get "fieldname" c) (fun f =>
  rbind (py_strip (py_or l (py_or f (PStr EmptyString)))) (fun stripped =>
  let label := if String.eqb stripped EmptyString then "value" else stripped in
  Ok (label, py_or f (PStr label))))).

(** [[r.get(fn) for fn in fieldnames]] *)
Definition cells_of (fieldnames : list pyval) (r : pyval) : result pyval :=
  rbind (traverse (fun fn => get_any fn r) fieldnames) (fun cells => Ok (PList cells)).

(** [list(v.keys())] *)
Definition keys_of (v : pyval) : result (list pyval) :=
  match v with
  | PDict kvs => Ok (map (fun kv => PStr (fst kv)) kvs)
  | _ => Raise AttributeError
  end.

Definition run_report (report_name : string) (filters : pyval) : result pyval :=
  let filters := py_or filters (PDict []) in
  let user := default "Administrator" (session_user site) in
  rbind (query_report_run site report_name filters user) (fun data =>
  rbind (rbind (py_get_or "columns" (PList []) data) iterate) (fun cs =>
  rbind (traverse column_of cs) (fun named =>
  let columns := map (fun lf => PStr (fst lf)) named in
  let fieldnames := map snd named in
  rbind (rbind (py_get_or "result" (PList []) data) iterate) (fun rs =>
  rbind (traverse (cells_of fieldnames) rs) (fun rows =>
  rbind (match columns with
         | _ :: _ => Ok columns
         | [] =>
             match rows with
             | r0 :: _ => keys_of (py_or r0 (PDict []))
             | [] => Ok []
             end
         end) (fun shown =>
  Ok (PDict [("title", PStr report_name);
             ("columns", PList shown);
             ("rows", PList rows);
             ("raw", data)]))))))).

(** a statistics tool called with the keywords [kw]: the four named
    parameters, the other keywords as [kwargs] *)
Definition apply_stats
    (f : pyval → pyval → pyval → pyval → list (string * pyval) → result pyval)
    (kw : list (string * pyval)) : result pyval :=
  f (get "by" kw) (get "from_date" kw) (get "to_date" kw) (get "company" kw)
    (List.filter
       (fun kv => negb (existsb (String.eqb (fst kv))
                          ["by"; "from_date"; "to_date"; "company"])) kw).

(** the alias kept for plans that use the other name *)
Definition run_query_report (report_name : string) (filters : pyval) : result pyval :=
  run_report report_name filters.

End WithSite.

(** a site for the examples: two invoices' worth of rows, one report *)
Definition demo_rows : pyval :=
  PList [PDict [("label", PStr "2024-02"); ("total", PInt 900)];
         PDict [("label", PStr "2024-01"); ("total", PInt 400)]].

Definition demo_report : pyval :=
  PDict [("columns", PList [PDict [("label", PStr " Customer "); ("fieldname", PStr "customer")];
                            PDict [("fieldname", PStr "total")];
                            PDict [("label", PStr "  ")]]);
         ("result", PList [PDict [("customer", PStr "Acme"); ("total", PInt 1200)];
                           PDict [("customer", PStr "Zenith")]])].

Definition demo_site : Site :=
  {| db_sql := fun _ _ => Ok demo_rows;
     query_report_run := fun _ _ _ => Ok demo_report;
     session_user := None |}.

End Tools.

(* ===================================================================== *)
(** ** Vocabulary of the tools *)
(* ===================================================================== *)

Module ToolTerms.
Import Sys Tools.

Definition MONTH_OF_SALE : string := "DATE_FORMAT(si.posting_date, '%%Y-%%m')".

Definition MONTH_OF_PURCHASE : string := "DATE_FORMAT(pi.posting_date, '%%Y-%%m')".

(** the label expressions of the two statistics tools, by group key *)
Definition SALES_LABELS : list (string * string) :=
  [("month", MONTH_OF_SALE); ("customer", "si.customer"); ("item", "sii.item_code");
   ("region", "COALESCE(addr.country, '')"); ("supplier", MONTH_OF_SALE)].

Definition PURCHASE_LABELS : list (string * string) :=
  [("month", MONTH_OF_PURCHASE); ("supplier", "pi.supplier"); ("item", "pii.item_code");
   ("region", "COALESCE(addr.country, '')"); ("customer", MONTH_OF_PURCHASE)].

Definition SALES_CONDS : list string :=
  ["si.docstatus = 1"; "si.posting_date BETWEEN %(from_date)s AND %(to_date)s"].

Definition PURCHASE_CONDS : list string :=
  ["pi.docstatus = 1"; "pi.posting_date BETWEEN %(from_date)s AND %(to_date)s"].

(** the parameters of a statement *)
Definition window_params (window : string * string) (company : pyval)
  : list (string * pyval) :=
  [("from_date", PStr (fst window)); ("to_date", PStr (snd window))] ++
  (if truthy company then [("company", company)] else []).

(** a result under another title and group key *)
Definition retitled (heading by_ : string) (out : pyval) : pyval :=
  match out with
  | PDict kvs =>
      PDict (dict_set "group_by" (PStr by_)
               (dict_set "title" (PStr (heading +:+ Text.title by_)) kvs))
  | _ => out
  end.

(** the table of a report: every row has a cell per column *)
Definition aligned (columns : list pyval) (rows : list pyval) : Prop :=
  Forall (fun r => ∃ cells, r = PList cells ∧ length cells = length columns) rows.

(** a column label of a report: a string that is not empty *)
Definition labelled (c : pyval) : Prop :=
  ∃ s, c = PStr s ∧ s ≠ EmptyString.

End ToolTerms.

(* ===================================================================== *)
(** ** knowledge/ingest_docs.py: chunks *)
(* ===================================================================== *)

Module Ingest.

Definition CHUNK_SIZE : Z := 1000.
Definition CHUNK_OVERLAP : Z := 200.

(** an index of a slice, brought into the bounds of a text of length [n] *)
Definition clamp (n z : Z) : Z :=
  if z <? 0 then Z.max 0 (z + n) else Z.min z n.

(** [text[lo:hi]] *)
Definition py_slice {A} (text : list A) (lo hi : Z) : list A :=
  let n := Z.of_nat (length text) in
  let a := clamp n lo in
  let b := clamp n hi in
  take (Z.to_nat (b - a)) (drop (Z.to_nat a) text).

(** the [while] loop of [_chunk], for at most [fuel] rounds *)
Fixpoint chunk_loop (fuel : nat) (text : list ascii) (size overlap i : Z)
    (parts : list (list ascii)) : option (list (list ascii)) :=
  match fuel with
  | O => None
  | S fuel' =>
      if i <? Z.of_nat (length text) then
        chunk_loop fuel' text size overlap (i + (size - overlap))
          (parts ++ [py_slice text i (i + size)])
      else Some parts
  end.

Definition _chunk (fuel : nat) (text : list ascii) (size overlap : Z)
  : option (list (list ascii)) :=
  chunk_loop fuel text size overlap 0 [].

(** the chunks of a text from position [i] on, a window of [size]
    characters every [step] characters *)
Inductive chunked (text : list ascii) (size step : Z) : Z → list (list ascii) → Prop :=
| chunked_done i :
    Z.of_nat (length text) <= i → chunked text size step i []
| chunked_next i rest :
    0 <= i < Z.of_nat (length text) →
    chunked text size step (i + step) rest →
    chunked text size step i
      (take (Z.to_nat size) (drop (Z.to_nat i) text) :: rest).

(** neighbours in a list *)
Definition neighbours {A} (l : list A) (x y : A) : Prop :=
  ∃ k, l !! k = Some x ∧ l !! S k = Some y.

End Ingest.

(* ===================================================================== *)
(** ** agent.py: the dicts that [execute] and [smart_execute] return *)
(* ===================================================================== *)

Module Wire.
Import Sys Agent.

(** an item of [results] *)
Definition outcome_dict (o : outcome) : pyval :=
  match o with
  | StepResult idx tool res =>
      PDict [("step", PInt idx); ("tool", tool); ("result", res)]
  | StepSkipped idx tool args =>
      PDict [("step", PInt idx); ("tool", tool); ("dry_run", PBool true); ("args", args)]
  end.

Definition as_dict (r : exec_result) : pyval :=
  match r with
  | AwaitingConfirmation corr_id plan =>
      PDict [("status", PStr "awaiting_confirmation"); ("correlation_id", PStr corr_id);
             ("plan", PDict plan)]
  | Completed (Some corr_id) plan results summary =>
      PDict ([("status", PStr "completed"); ("correlation_id", PStr corr_id);
              ("plan", PDict plan); ("results", PList (map outcome_dict results))] ++
             match summary with
             | Some s => if truthy (PStr s) then [("summary", PStr s)] else []
             | None => []
             end)
  | Completed None plan results _ =>
      PDict [("status", PStr "completed"); ("plan", PDict plan);
             ("results", PList (map outcome_dict results))]
  end.

End Wire.

(* ===================================================================== *)
(** ** api.py: the result that is shown *)
(* ===================================================================== *)

Module Api.

(** [isinstance(v, dict) and isinstance(v.get("rows"), list)] *)
Definition is_table (v : pyval) : bool :=
  match v with
  | PDict kvs => isinstance_list (get "rows" kvs)
  | _ => false
  end.

(** the loop over the steps, in the order it is given them *)
Fixpoint first_table (steps : list pyval) : option pyval :=
  match steps with
  | [] => None
  | step :: rest =>
      match step with
      | PDict kvs =>
          let inner := get "result" kvs in
          if is_table inner then Some inner else first_table rest
      | _ => first_table rest
      end
  end.

(** [isinstance(v, Iterable)] *)
Definition is_iterable (v : pyval) : bool :=
  match v with
  | PList _ | PDict _ | PStr _ => true
  | _ => false
  end.

Definition _extract_best (payload : pyval) : pyval :=
  match payload with
  | PDict kvs =>
      if isinstance_list (get "rows" kvs) then payload
      else
        let res_list := get "results" kvs in
        if is_iterable res_list then
          match iterate res_list with
          | Ok items => default payload (first_table (rev items))
          | Raise _ => payload
          end
        else payload
  | _ => payload
  end.

(** the result of the last step that returned a table *)
Definition last_table (results : list Agent.outcome) : option pyval :=
  last (List.filter is_table
          (omap (fun o => match o with
                          | Agent.StepResult _ _ res => Some res
                          | Agent.StepSkipped _ _ _ => None
                          end) results)).

End Api.

(* ===================================================================== *)
(** ** install.py *)
(* ===================================================================== *)

Module Install.

(** the [Role] documents of the site, by [role_name], oldest first *)
Definition Roles : Type := list string.

(** [frappe.db.exists("Role", {"role_name": role_name})] *)
Definition role_exists (roles : Roles) (role_name : string) : bool :=
  existsb (String.eqb role_name) roles.

Definition ensure_role (role_name : string) (roles : Roles) : Roles :=
  if negb (role_exists roles role_name) then roles ++ [role_name] else roles.

Definition AGENT_ROLES : list string :=
  ["AI Agent Admin"; "AI Agent Operator"; "AI Readonly"].

Definition after_install (roles : Roles) : Roles :=
  fold_left (fun db role => ensure_role role db) AGENT_ROLES roles.

End Install.

(* ===================================================================== *)
(** ** Vocabulary of the budgets *)
(* ===================================================================== *)

Module Budgets.
Import Sys.

(** [calls_within n m]: whatever [m] returns or raises, the trace only
    grows, and by [n] tool calls at most *)
Definition calls_within {A} (n : nat) (m : M A) : Prop :=
  ∀ st r st', m st = (r, st') →
    ∃ evs, trace st' = trace st ++ evs ∧ (length (tool_calls evs) ≤ n)%nat.

(** the revenue of a row is below, or not above, a bound *)
Definition earns_less (W : World) (k : Q) (x : pyval) : Prop :=
  ∃ kx, Agent.revenue_key W x = Ok kx ∧ (kx < k)%Q.

Definition earns_at_most (W : World) (k : Q) (x : pyval) : Prop :=
  ∃ kx, Agent.revenue_key W x = Ok kx ∧ (kx <= k)%Q.

(** three months of revenue *)
Definition two_months : pyval :=
  PDict [("rows", PList [PDict [("period", PStr "2024-01"); ("revenue", PInt 400)];
                         PDict [("period", PStr "2024-02"); ("revenue", PInt 900)];
                         PDict [("period", PStr "2024-03"); ("revenue", PInt 900)]])].

End Budgets.
(* ===================================================================== *)
(** * Properties *)
(* ===================================================================== *)

(** ** The embedding on the examples of the specification *)

Module Checks.
Import Sys Dates Text.

Example isoformat_pads : isoformat (mkdate 2024 3 5) = "2024-03-05".
Proof. reflexivity. Qed.

Example minus_days_leap : minus_days (mkdate 2024 3 1) 1 = mkdate 2024 2 29.
Proof. reflexivity. Qed.

Example minus_days_year : minus_days (mkdate 2024 3 15) 365 = mkdate 2023 3 16.
Proof. reflexivity. Qed.

Example fromisoformat_back : fromisoformat "2024-02-29" = Some (mkdate 2024 2 29).
Proof. reflexivity. Qed.

Example fromisoformat_rejects : fromisoformat "2023-02-29" = None.
Proof. reflexivity. Qed.

Example window_today :
  Router._parse_date_range Scenario.unreachable "sales today vs target"
    = ("2024-03-15", "2024-03-15", "today").
Proof. reflexivity. Qed.

Example window_default :
  Router._parse_date_range Scenario.unreachable "top customers"
    = ("2023-03-16", "2024-03-15", "last 12 months").
Proof. reflexivity. Qed.

Example window_last_month :
  Router._parse_date_range Scenario.unreachable "revenue last month"
    = ("2024-02-01", "2024-02-29", "last month").
Proof. reflexivity. Qed.

Example top_n_clamped_high : Router._detect_top_n "top 250 items" = Some 200.
Proof. reflexivity. Qed.

Example top_n_clamped_low : Router._detect_top_n "top 0 items" = Some 1.
Proof. reflexivity. Qed.

Example top_n_absent : Router._detect_top_n "items" = None.
Proof. reflexivity. Qed.

Example top_n_four_digits : Router._detect_top_n "top 1234 items" = None.
Proof. reflexivity. Qed.

Example domain_vendor : Router._detect_domain "spend by vendor" = "purchase".
Proof. reflexivity. Qed.

Example dimension_supplier_sales :
  Router._detect_dimension "revenue by supplier" "sales" = "customer".
Proof. reflexivity. Qed.

Example docs_question : Router._is_docs_question "  How do I submit an invoice?" = true.
Proof. reflexivity. Qed.

Example not_docs_question : Router._is_docs_question "show sales" = false.
Proof. reflexivity. Qed.

Example dot_stops_at_newline :
  re_search Agent.best_month_re ("top" +:+ LLM.nl +:+ "sales month") = false.
Proof. reflexivity. Qed.

Example title_words : title "grand total_x y1z" = "Grand Total_X Y1Z".
Proof. reflexivity. Qed.

(** a zero-row answer is retried once over three years *)
Example widening_retry :
  tool_calls (trace (snd (Router.route_and_execute Scenario.unreachable
                            "revenue by item ytd" Sys.init))) =
    [mkcall "get_sales_stats" []
       [("by", PStr "item"); ("from_date", PStr "2024-01-01");
        ("to_date", PStr "2024-03-15")];
     mkcall "get_sales_stats" []
       [("by", PStr "item"); ("from_date", PStr "2021-03-16");
        ("to_date", PStr "2024-03-15")]].
Proof. reflexivity. Qed.

(** an unknown tool is an error payload of its step, and the rest runs *)
Example unknown_tool_payload :
  fst (Agent.execute (Scenario.planning Scenario.rockets_plan)
         "please launch the rockets" "alice" false None Sys.init) =
    Ok (Agent.Completed (Some "0b7e6c1e-correlation")
          (Scenario.items Scenario.rockets_plan)
          (map (fun i => Agent.StepResult i (PStr "launch_rockets")
                           (PDict [("error", PStr "unknown tool launch_rockets")]))
               [1; 2; 3; 4; 5; 6; 7; 8])
          None).
Proof. reflexivity. Qed.

(** a negative bound of a slice leaves out the last items *)
Example upto_negative :
  QA.upto (-1) ["hr/leave.md"; "hr/holidays.md"] = ["hr/leave.md"] ∧
  QA.upto 6 ["hr/leave.md"; "hr/holidays.md"] = ["hr/leave.md"; "hr/holidays.md"] ∧
  QA.upto 0 ["hr/leave.md"; "hr/holidays.md"] = [].
Proof. by repeat split. Qed.

(** a function the tools module lacks raises when it is used *)
Example missing_function :
  registry (Cases.repository (PDict [])) []
    (mkcall "get_inventory_snapshot" [] []) = Raise AttributeError.
Proof. reflexivity. Qed.

End Checks.

(** ** Events a computation can add to the trace *)

Module SysFacts.
Import Spec Sys.

Lemma emits_silent {A} (P : event → Prop) (m : M A) :
  (∀ st, trace (snd (m st)) = trace st) → emits P m.
Proof.
  intros Hm st r st' Hrun. exists [].
  specialize (Hm st). rewrite Hrun in Hm. simpl in Hm.
  rewrite Hm, app_nil_r. auto.
Qed.

Lemma emits_ret {A} P (a : A) : emits P (ret a).
Proof. by apply emits_silent. Qed.

Lemma emits_raise {A} P e : emits P (@raise A e).
Proof. by apply emits_silent. Qed.

Lemma emits_lift {A} P (r : result A) : emits P (lift r).
Proof. by apply emits_silent. Qed.

Lemma emits_get_trace P : emits P get_trace.
Proof. by apply emits_silent. Qed.

Lemma emits_get_window P : emits P get_window.
Proof. by apply emits_silent. Qed.

Lemma emits_set_window P w : emits P (set_window w).
Proof. by apply emits_silent. Qed.

Lemma emits_time P W : emits P (time_time W).
Proof. by apply emits_silent. Qed.

Lemma emits_uuid4 P W : emits P (uuid4 W).
Proof. by apply emits_silent. Qed.

Lemma emits_emit (P : event → Prop) e : P e → emits P (emit e).
Proof.
  intros HP st r st' [= <- <-]. exists [e]. simpl. auto.
Qed.

Lemma emits_call_tool (P : event → Prop) W c : P (EvTool c) → emits P (call_tool W c).
Proof.
  intros HP st r st' [= <- <-]. exists [EvTool c]. simpl. auto.
Qed.

Lemma emits_bind {A B} P (m : M A) (k : A → M B) :
  emits P m → (∀ a, emits P (k a)) → emits P (bind m k).
Proof.
  intros Hm Hk st r st' Hrun. unfold bind in Hrun.
  destruct (m st) as [[a|e] st1] eqn:E.
  - destruct (Hm _ _ _ E) as (evs1 & E1 & H1).
    destruct (Hk a _ _ _ Hrun) as (evs2 & E2 & H2).
    exists (evs1 ++ evs2). rewrite E2, E1, app_assoc. split; [done|].
    by apply Forall_app.
  - injection Hrun as <- <-. by apply (Hm _ _ _ E).
Qed.

Lemma emits_catch {A} P (m : M A) (h : exn → M A) :
  emits P m → (∀ e, emits P (h e)) → emits P (catch m h).
Proof.
  intros Hm Hh st r st' Hrun. unfold catch in Hrun.
  destruct (m st) as [[a|e] st1] eqn:E.
  - injection Hrun as <- <-. by apply (Hm _ _ _ E).
  - destruct (Hm _ _ _ E) as (evs1 & E1 & H1).
    destruct (Hh e _ _ _ Hrun) as (evs2 & E2 & H2).
    exists (evs1 ++ evs2). rewrite E2, E1, app_assoc. split; [done|].
    by apply Forall_app.
Qed.

Lemma emits_weaken {A} (P Q : event → Prop) (m : M A) :
  (∀ e, P e → Q e) → emits P m → emits Q m.
Proof.
  intros HPQ Hm st r st' Hrun.
  destruct (Hm _ _ _ Hrun) as (evs & -> & H).
  exists evs. split; [done|]. eapply Forall_impl; eauto.
Qed.

Create HintDb emits discriminated.
#[export] Hint Resolve emits_ret emits_raise emits_lift emits_get_trace
  emits_get_window emits_set_window emits_time emits_uuid4 : emits.

(** one layer of a computation: binds, handlers and branches *)
Ltac emits_step :=
  first
    [ apply emits_bind; [|intros ?]
    | apply emits_catch; [|intros ?]
    | solve [auto with emits]
    | match goal with
      | |- emits _ (if ?b then _ else _) => destruct b
      | |- emits _ (match ?x with _ => _ end) => destruct x
      | |- emits _ (let '(_, _) := ?x in _) => destruct x
      end ].

Ltac emits_auto := repeat emits_step.

Lemma tool_calls_app t1 t2 : tool_calls (t1 ++ t2) = tool_calls t1 ++ tool_calls t2.
Proof. unfold tool_calls. apply omap_app. Qed.

Lemma tool_calls_quiet evs :
  Forall (fun e => is_tool_event e = false) evs → tool_calls evs = [].
Proof.
  induction 1 as [|e evs He _ IH]; [done|].
  destruct e; simpl in *; try done.
Qed.

Lemma net_calls_app t1 t2 : net_calls (t1 ++ t2) = (net_calls t1 + net_calls t2)%nat.
Proof. unfold net_calls. by rewrite List.filter_app, length_app. Qed.

End SysFacts.

(** ** The completion client: circuit breaker and retries *)

Module LLMFacts.
Import Spec Sys LLM SysFacts.

Lemma Qlt_bool_iff x y : Qlt_bool x y = true ↔ (x < y)%Q.
Proof.
  unfold Qlt_bool. rewrite negb_true_iff. split.
  - intros H. apply Qnot_le_lt. intros Hle.
    apply Qle_bool_iff in Hle. congruence.
  - intros H. destruct (Qle_bool y x) eqn:E; [|done].
    apply Qle_bool_iff in E. apply Qlt_not_le in H. contradiction.
Qed.

Lemma Qlt_bool_false_iff x y : Qlt_bool x y = false ↔ (y <= x)%Q.
Proof. unfold Qlt_bool. rewrite negb_false_iff. apply Qle_bool_iff. Qed.

Lemma check_circuit_eq W st :
  _check_circuit W st =
    (if circuit_open (time_at W (clock_reads st)) (fail_window st)
     then Raise CircuitBreaker else Ok tt,
     mkstate (trace st) (S (clock_reads st)) (uuids st)
             (recent (time_at W (clock_reads st)) (fail_window st))).
Proof.
  unfold _check_circuit, circuit_open, recent, bind, time_time, get_window, set_window.
  simpl. by destruct (_ && _).
Qed.

(** one attempt, case by case *)
Lemma complete_attempt_eq W system user streaming st :
  complete_attempt W system user streaming st =
    let now := time_at W (clock_reads st) in
    let w := recent now (fail_window st) in
    let c := S (clock_reads st) in
    let t := trace st ++ [EvNet system user streaming] in
    if circuit_open now (fail_window st)
    then (Raise CircuitBreaker, mkstate (trace st) c (uuids st) w)
    else match backend W t with
         | Ok resp => (Ok (answer streaming resp), mkstate t c (uuids st) w)
         | Raise e =>
             if recorded e
             then (Raise e, mkstate t (S c) (uuids st) (w ++ [time_at W c]))
             else (Raise e, mkstate t c (uuids st) w)
         end.
Proof.
  unfold complete_attempt. unfold bind at 1. rewrite check_circuit_eq.
  simpl. destruct (circuit_open _ _); [done|].
  unfold catch, _call, bind, get_trace, emit, lift, answer. simpl.
  destruct (backend W (trace st ++ _)) as [resp|e]; simpl.
  - by destruct streaming.
  - by destruct e.
Qed.

Lemma wait_exponential_bounds n : (1 <= wait_exponential n <= 10)%Q.
Proof.
  unfold wait_exponential. split.
  - apply Qle_trans with (Qmax 0 1); [apply Q.le_max_r | apply Q.le_max_l].
  - apply Q.max_lub.
    + apply Q.max_lub; done.
    + apply Q.le_min_r.
Qed.

(** every attempt adds at most one network call and nothing else *)
Lemma complete_attempt_events W system user streaming st r st' :
  complete_attempt W system user streaming st = (r, st') →
  trace st' = trace st ∨ trace st' = trace st ++ [EvNet system user streaming].
Proof.
  rewrite complete_attempt_eq. simpl.
  destruct (circuit_open _ _); [intros [= <- <-]; by left|].
  destruct (backend W (trace st ++ _)) as [resp|e].
  - intros [= <- <-]. by right.
  - destruct (recorded e); intros [= <- <-]; by right.
Qed.

(** the attempt that ends a call: nothing or one network call was added *)
Lemma last_attempt_budget system user streaming n (t t1 : list event) :
  t1 = t ∨ t1 = t ++ [EvNet system user streaming] →
  ∃ evs, t1 = t ++ evs ∧ (net_calls evs ≤ S n)%nat ∧ Forall backoff_ok evs.
Proof.
  intros [->| ->].
  - exists []. rewrite app_nil_r. split; [done|]. split; [cbn; lia | constructor].
  - exists [EvNet system user streaming].
    split; [done|]. split; [cbn; lia | repeat constructor].
Qed.

(** the attempt budget and the waits, by induction on what remains *)
Lemma retry_from_budget W system user streaming n k st r st' :
  retry_from n k (complete_attempt W system user streaming) st = (r, st') →
  ∃ evs, trace st' = trace st ++ evs ∧ (net_calls evs ≤ S n)%nat ∧
         Forall backoff_ok evs.
Proof.
  revert k st. induction n as [|n IH]; intros k st Hrun; simpl in Hrun;
    unfold catch in Hrun;
    destruct (complete_attempt W system user streaming st) as [[a|e] st1] eqn:E;
    pose proof (complete_attempt_events _ _ _ _ _ _ _ E) as Hev.
  - injection Hrun as <- <-. eapply last_attempt_budget, Hev.
  - assert (r = Raise e ∧ st' = st1) as [-> ->].
    { destruct (retry_if e); by injection Hrun as <- <-. }
    eapply last_attempt_budget, Hev.
  - injection Hrun as <- <-. eapply last_attempt_budget, Hev.
  - destruct (retry_if e).
    + unfold bind, emit in Hrun. simpl in Hrun.
      apply IH in Hrun as (evs & Ht & Hn & Hs). simpl in Ht.
      destruct Hev as [Hev|Hev]; rewrite Hev in Ht.
      * exists (EvSleep (wait_exponential k) :: evs).
        rewrite Ht, <- app_assoc. repeat split; [unfold net_calls in *; simpl; lia |].
        constructor; [apply wait_exponential_bounds | done].
      * exists (EvNet system user streaming :: EvSleep (wait_exponential k) :: evs).
        rewrite Ht, <- !app_assoc. repeat split; [unfold net_calls in *; simpl; lia |].
        constructor; [done|]. constructor; [apply wait_exponential_bounds | done].
    + injection Hrun as <- <-. eapply last_attempt_budget, Hev.
Qed.

Lemma complete_budget W system user streaming st r st' :
  complete W system user streaming st = (r, st') →
  ∃ evs, trace st' = trace st ++ evs ∧ (net_calls evs ≤ 3)%nat ∧ Forall backoff_ok evs.
Proof. apply retry_from_budget. Qed.

(** a retryable error of an attempt came from the backend and was recorded *)
Lemma attempt_retryable W system user streaming st e st1 :
  complete_attempt W system user streaming st = (Raise e, st1) →
  retry_if e = true →
  backend W (trace st ++ [EvNet system user streaming]) = Raise e ∧
  st1 = mkstate (trace st ++ [EvNet system user streaming]) (2 + clock_reads st)
                (uuids st) (record W (clock_reads st) (fail_window st)).
Proof.
  rewrite complete_attempt_eq. simpl. intros Hrun Hretry.
  destruct (circuit_open _ _).
  { injection Hrun as <- _. discriminate. }
  destruct (backend W (trace st ++ _)) as [resp|e0]; [discriminate|].
  assert (e0 = e) as ->.
  { by destruct (recorded e0); injection Hrun as <- _. }
  assert (recorded e = true) as Hrec by (by destruct e).
  rewrite Hrec in Hrun. by injection Hrun as <-.
Qed.

Section Retry.
Context {A : Type} (body : M A).

Lemma retry_from_unfold n k :
  retry_from (S n) k body =
    catch body (fun e =>
      if retry_if e
      then emit (EvSleep (wait_exponential k)) >>! retry_from n (S k) body
      else raise e).
Proof. reflexivity. Qed.

Lemma retry_from_last k st e st' :
  retry_from 0 k body st = (Raise e, st') → body st = (Raise e, st').
Proof.
  simpl. unfold catch. destruct (body st) as [[a|e0] st1]; [done|].
  by destruct (retry_if e0).
Qed.

Lemma retry_from_next n k st e st' :
  retry_from (S n) k body st = (Raise e, st') →
  retry_if e = true →
  ∃ e1 st1, body st = (Raise e1, st1) ∧ retry_if e1 = true ∧
    retry_from n (S k) body
      (mkstate (trace st1 ++ [EvSleep (wait_exponential k)]) (clock_reads st1)
               (uuids st1) (fail_window st1)) = (Raise e, st').
Proof.
  simpl. unfold catch. intros Hrun Hretry.
  destruct (body st) as [[a|e1] st1]; [done|].
  destruct (retry_if e1) eqn:E1.
  - exists e1, st1. by repeat split.
  - injection Hrun as -> _. congruence.
Qed.

(** an error that is not one to retry ends the call at once *)
Lemma retry_from_stops n k st e st1 :
  body st = (Raise e, st1) → retry_if e = false →
  retry_from n k body st = (Raise e, st1).
Proof.
  intros Hbody Hno. destruct n; simpl; unfold catch; by rewrite Hbody, Hno.
Qed.

End Retry.

Example wait_1 : wait_exponential 1 = 1%Q.
Proof. reflexivity. Qed.

Example wait_2 : wait_exponential 2 = 2%Q.
Proof. reflexivity. Qed.

(** a call that raises an error of the retried kind made three attempts,
    slept between them and recorded each of the three failures *)
Lemma complete_exhausted W system user streaming st e st' :
  complete W system user streaming st = (Raise e, st') →
  retry_if e = true →
  trace st' = trace st ++
    [EvNet system user streaming; EvSleep (wait_exponential 1);
     EvNet system user streaming; EvSleep (wait_exponential 2);
     EvNet system user streaming] ∧
  fail_window st' =
    record W (4 + clock_reads st)
      (record W (2 + clock_reads st) (record W (clock_reads st) (fail_window st))).
Proof.
  unfold complete, retry, max_attempts. simpl Nat.sub. intros Hrun Hretry.
  apply retry_from_next in Hrun as (e1 & st1 & H1 & R1 & Hrun); [|done].
  apply retry_from_next in Hrun as (e2 & st2 & H2 & R2 & Hrun); [|done].
  apply retry_from_last in Hrun.
  apply attempt_retryable in H1 as [_ ->]; [|done]. simpl in H2.
  apply attempt_retryable in H2 as [_ ->]; [|done]. simpl in Hrun.
  apply attempt_retryable in Hrun as [_ ->]; [|done]. simpl.
  by rewrite <- !app_assoc.
Qed.

(** a closed circuit and a first error that is not retried: one attempt *)
Lemma complete_not_retried W system user streaming st e :
  circuit_open (time_at W (clock_reads st)) (fail_window st) = false →
  backend W (trace st ++ [EvNet system user streaming]) = Raise e →
  retry_if e = false →
  ∃ st', complete W system user streaming st = (Raise e, st') ∧
    trace st' = trace st ++ [EvNet system user streaming] ∧
    fail_window st' =
      if recorded e then record W (clock_reads st) (fail_window st)
      else recent (time_at W (clock_reads st)) (fail_window st).
Proof.
  intros Hclosed Hback Hno.
  pose proof (complete_attempt_eq W system user streaming st) as Hatt.
  simpl in Hatt. rewrite Hclosed, Hback in Hatt.
  destruct (recorded e) eqn:Hrec; eexists;
    (split; [by apply retry_from_stops|done]).
Qed.

(** C6, as stated, fails: with failures recorded at 0 s, 1 s and 2 s and a
    call at 50 s, three failures lie in the trailing 90 seconds and the
    last two are one second apart, yet the call goes to the backend. *)
Lemma circuit_burst_counterexample :
  let st := Scenario.with_window [0; 1; 2]%Q in
  let now := time_at Scenario.at_50s (clock_reads st) in
  length (recent now (fail_window st)) = 3%nat ∧
  (2 - 1 < 30)%Q ∧
  fst (complete Scenario.at_50s "sys" "hi" false st) = Ok (CText (Some "{}")) ∧
  trace (snd (complete Scenario.at_50s "sys" "hi" false st)) = [EvNet "sys" "hi" false].
Proof. repeat split. Qed.

(** C6 (amended): when at least three recorded failures are less than 90
    seconds old and the most recent of them is less than 30 seconds old at
    the time of the call, [complete] raises [CircuitBreaker] without any
    network call; when every recorded failure is at least 90 seconds old,
    the call goes to the backend. *)
Theorem circuit_breaker_window W system user streaming st :
  let now := time_at W (clock_reads st) in
  ((3 ≤ length (recent now (fail_window st)))%nat →
   (now - List.last (recent now (fail_window st)) 0 < 30)%Q →
   ∃ st', complete W system user streaming st = (Raise CircuitBreaker, st') ∧
          trace st' = trace st)
  ∧
  (Forall (fun t => (90 <= now - t)%Q) (fail_window st) →
   ∃ r st' evs, complete W system user streaming st = (r, st') ∧
                trace st' = trace st ++ EvNet system user streaming :: evs).
Proof.
  intros now. split.
  - intros Hlen Hlast.
    assert (circuit_open now (fail_window st) = true) as Hopen.
    { unfold circuit_open. apply andb_true_iff. split.
      - by apply Nat.leb_le.
      - by apply Qlt_bool_iff. }
    pose proof (complete_attempt_eq W system user streaming st) as Hatt.
    simpl in Hatt. fold now in Hatt. rewrite Hopen in Hatt.
    eexists. split; [by apply retry_from_stops|done].
  - intros Hold.
    assert (recent now (fail_window st) = []) as Hnone.
    { unfold recent. induction Hold as [|t w Ht _ IH]; [done|].
      simpl. apply Qlt_bool_false_iff in Ht. by rewrite Ht. }
    assert (circuit_open now (fail_window st) = false) as Hclosed.
    { unfold circuit_open. by rewrite Hnone. }
    pose proof (complete_attempt_eq W system user streaming st) as Hatt.
    simpl in Hatt. fold now in Hatt. rewrite Hclosed in Hatt.
    destruct (complete W system user streaming st) as [r st'] eqn:Hrun.
    exists r, st'. unfold complete, retry, max_attempts in Hrun.
    simpl Nat.sub in Hrun. rewrite retry_from_unfold in Hrun.
    unfold catch at 1 in Hrun.
    destruct (complete_attempt W system user streaming st) as [[a|e] st1].
    + injection Hrun as <- <-. exists [].
      destruct (backend W (trace st ++ _)); [by injection Hatt as _ ->|].
      by destruct (recorded _).
    + assert (trace st1 = trace st ++ [EvNet system user streaming]) as Ht1.
      { destruct (backend W (trace st ++ _)); [by injection Hatt as _ ->|].
        by destruct (recorded _); injection Hatt as _ ->. }
      destruct (retry_if e).
      * unfold bind at 1, emit in Hrun. simpl in Hrun.
        apply (retry_from_budget W system user streaming 1 2) in Hrun
          as (evs & Ht & _). simpl in Ht.
        exists (EvSleep (wait_exponential 1) :: evs).
        by rewrite Ht, Ht1, <- !app_assoc.
      * injection Hrun as <- <-. by exists [].
Qed.

Lemma circuit_breaker_window_witness :
  (∃ st', complete Scenario.at_50s "sys" "hi" false (Scenario.with_window [30; 40; 45]%Q)
            = (Raise CircuitBreaker, st') ∧ trace st' = []) ∧
  (∃ r st' evs, complete Scenario.at_200s "sys" "hi" false (Scenario.with_window [30; 40; 45]%Q)
            = (r, st') ∧ trace st' = [] ++ EvNet "sys" "hi" false :: evs).
Proof.
  split.
  - apply (proj1 (circuit_breaker_window Scenario.at_50s "sys" "hi" false
                    (Scenario.with_window [30; 40; 45]%Q))).
    + vm_compute. lia.
    + reflexivity.
  - apply (proj2 (circuit_breaker_window Scenario.at_200s "sys" "hi" false
                    (Scenario.with_window [30; 40; 45]%Q))).
    repeat constructor; vm_compute; discriminate.
Defined.

(** C7, as stated, fails: a call that exhausts its three attempts against
    an unreachable backend leaves three failures in the window, one per
    attempt, not one. *)
Lemma one_failure_per_call_counterexample :
  let run := complete Scenario.unreachable "sys" "hi" false Sys.init in
  fst run = Raise APIConnectionError ∧
  net_calls (trace (snd run)) = 3%nat ∧
  fail_window Sys.init = [] ∧
  fail_window (snd run) = [1; 3; 5]%Q ∧
  length (fail_window (snd run)) ≠ 1%nat.
Proof. repeat split. vm_compute. discriminate. Qed.

(** C7 (amended): [complete] makes at most three attempts and every wait
    between attempts is between 1 and 10 seconds; only connectivity and
    rate-limit errors are retried: a call that ends with one of them made
    three attempts, with a wait after the first and after the second, and
    recorded a failure in the window on each of the three attempts; with
    the circuit closed, a first error of another kind ends the call after
    that single attempt (status errors are recorded, others are not). *)
Theorem complete_retry_policy W system user streaming st r st' :
  complete W system user streaming st = (r, st') →
  (∃ evs, trace st' = trace st ++ evs ∧ (net_calls evs ≤ 3)%nat ∧
          Forall backoff_ok evs) ∧
  (∀ e, r = Raise e → retry_if e = true →
     trace st' = trace st ++
       [EvNet system user streaming; EvSleep (wait_exponential 1);
        EvNet system user streaming; EvSleep (wait_exponential 2);
        EvNet system user streaming] ∧
     fail_window st' =
       record W (4 + clock_reads st)
         (record W (2 + clock_reads st) (record W (clock_reads st) (fail_window st)))) ∧
  (∀ e, circuit_open (time_at W (clock_reads st)) (fail_window st) = false →
     backend W (trace st ++ [EvNet system user streaming]) = Raise e →
     retry_if e = false →
     r = Raise e ∧
     trace st' = trace st ++ [EvNet system user streaming] ∧
     fail_window st' =
       if recorded e then record W (clock_reads st) (fail_window st)
       else recent (time_at W (clock_reads st)) (fail_window st)).
Proof.
  intros Hrun. split; [by eapply complete_budget|]. split.
  - intros e -> Hretry. by apply (complete_exhausted W system user streaming st e).
  - intros e Hclosed Hback Hno.
    destruct (complete_not_retried W system user streaming st e Hclosed Hback Hno)
      as (st1 & Hrun1 & Ht & Hw).
    rewrite Hrun in Hrun1. by injection Hrun1 as -> ->.
Qed.

Lemma complete_retry_policy_witness :
  let run := complete Scenario.unreachable "sys" "hi" false Sys.init in
  fst run = Raise APIConnectionError ∧
  trace (snd run) = [EvNet "sys" "hi" false; EvSleep 1; EvNet "sys" "hi" false;
                     EvSleep 2; EvNet "sys" "hi" false] ∧
  fail_window (snd run) = [1; 3; 5]%Q.
Proof.
  intros run. split; [reflexivity|].
  destruct (complete_retry_policy Scenario.unreachable "sys" "hi" false Sys.init
              (fst run) (snd run) (surjective_pairing run)) as (_ & Hexhausted & _).
  apply (Hexhausted APIConnectionError); reflexivity.
Defined.

End LLMFacts.

(** ** The planner *)

Module PlannerFacts.
Import Spec Sys SysFacts Agent.

Lemma dict_get_set_eq k v kvs : dict_get k (dict_set k v kvs) = Some v.
Proof.
  induction kvs as [|[k' v'] rest IH]; simpl.
  - by rewrite String.eqb_refl.
  - destruct (String.eqb k' k) eqn:E; simpl.
    + by rewrite String.eqb_refl.
    + by rewrite E.
Qed.

Lemma dict_get_set_ne k k' v kvs :
  k ≠ k' → dict_get k' (dict_set k v kvs) = dict_get k' kvs.
Proof.
  intros Hne. induction kvs as [|[k0 v0] rest IH]; simpl.
  - destruct (String.eqb k k') eqn:E; [|done].
    apply String.eqb_eq in E. congruence.
  - destruct (String.eqb k0 k) eqn:E; simpl.
    + apply String.eqb_eq in E. subst k0.
      destruct (String.eqb k k') eqn:E'; [|done].
      apply String.eqb_eq in E'. congruence.
    + destruct (String.eqb k0 k'); [done | apply IH].
Qed.

Lemma complete_attempt_quiet W system user streaming :
  emits quiet (LLM.complete_attempt W system user streaming).
Proof.
  unfold LLM.complete_attempt, LLM._check_circuit, LLM._call, LLM._record_fail.
  emits_auto; by apply emits_emit.
Qed.

Lemma complete_quiet W system user streaming :
  emits quiet (LLM.complete W system user streaming).
Proof.
  unfold LLM.complete, LLM.retry.
  set (n := (LLM.max_attempts - 1)%nat). clearbody n. generalize 1%nat.
  induction n as [|n IH]; intros k; simpl.
  - apply emits_catch; [apply complete_attempt_quiet|].
    intros e. destruct (LLM.retry_if e); apply emits_raise.
  - apply emits_catch; [apply complete_attempt_quiet|].
    intros e. destruct (LLM.retry_if e); [|apply emits_raise].
    apply emits_bind; [by apply emits_emit | intros _; apply IH].
Qed.

Lemma classify_and_plan_quiet W command : emits quiet (classify_and_plan W command).
Proof.
  unfold classify_and_plan. destruct (_fastpath W command); [apply emits_ret|].
  apply emits_bind; [apply complete_quiet|]. intros raw. emits_auto.
Qed.

Lemma normalize_step_shape f t s s' :
  keep_step s = true → normalize_step f t s = Ok s' →
  normal_step s' ∧ same_tool s s'.
Proof.
  destruct s as [| | | | | |kvs]; try done. simpl. intros Hkeep.
  unfold normalize_step. simpl.
  destruct (copy_args (get "args" kvs)) as [args|]; [simpl|done].
  destruct (if eq_str (get "tool" kvs) "get_sales_stats" then _ else _)
    as [args1|]; [simpl|done].
  destruct (if eq_str (get "tool" kvs) "get_purchase_stats" then _ else _)
    as [args2|]; [simpl|done].
  intros [= <-]. split; [by eexists _, _|done].
Qed.

Lemma normalize_loop_shape f t steps : ∀ norm out,
  Forall (fun s => keep_step s = true) steps →
  normalize_loop f t steps norm = Ok out →
  ∃ added, out = norm ++ added ∧ Forall normal_step added ∧
           Forall2 same_tool steps added.
Proof.
  induction steps as [|s rest IH]; intros norm out Hkeep; simpl.
  - intros [= <-]. exists []. by rewrite app_nil_r.
  - inversion Hkeep as [|? ? Hs Hrest]; subst.
    destruct (normalize_step f t s) as [s'|] eqn:Es; [simpl|done].
    intros Hloop. apply IH in Hloop as (added & -> & Hn & Hsame); [|done].
    apply normalize_step_shape in Es as [Hs' Hst]; [|done].
    exists (s' :: added). rewrite <- app_assoc. by repeat constructor.
Qed.

Lemma filter_keeps items : Forall (fun s => keep_step s = true) (List.filter keep_step items).
Proof.
  apply List.Forall_forall. intros s Hs. by apply List.filter_In in Hs as [_ ?].
Qed.

(** a model plan that parses: its steps are the normalized steps of the
    items that are objects with a truthy tool, the others are dropped *)
Lemma parse_plan_shape W raw plan :
  parse_plan W raw = Ok plan →
  ∃ text kvs items steps,
    raw = LLM.CText (Some text) ∧
    json_loads W text = Ok (PDict kvs) ∧
    iterate (get "steps" kvs) = Ok items ∧
    dict_get "steps" plan = Some (PList steps) ∧
    Forall normal_step steps ∧
    Forall2 same_tool (List.filter keep_step items) steps.
Proof.
  unfold parse_plan.
  destruct raw as [[text|]|]; try done.
  destruct (json_loads W text) as [[| | | | | |kvs]|] eqn:Eload; try done. simpl.
  unfold contains, get_or, get.
  destruct (dict_get "steps" kvs) as [v|] eqn:Ev; [simpl|done].
  destruct (iterate v) as [items|] eqn:Eit; [simpl|done].
  rewrite dict_get_set_eq. simpl. unfold _normalize_steps.
  destruct (_last_n_month_range W 12) as [f t].
  destruct (normalize_loop f t (List.filter keep_step items) []) as [norm|] eqn:En;
    [simpl|done].
  intros [= <-].
  apply normalize_loop_shape in En as (added & -> & Hn & Hsame);
    [|apply filter_keeps].
  exists text, kvs, items, added. rewrite dict_get_set_eq.
  unfold get. rewrite Ev. by repeat split.
Qed.

Lemma stats_step_normal tool by_ f t :
  tool ≠ EmptyString → normal_step (stats_step tool by_ f t).
Proof.
  intros Hne. eexists _, _. split; [done|]. simpl.
  destruct tool; [done|]. reflexivity.
Qed.

Lemma fallback_well_formed W : well_formed (fallback_plan W).
Proof.
  unfold fallback_plan. destruct (_last_n_month_range W 12) as [f t].
  eexists. split; [done|]. constructor; [|done]. by apply stats_step_normal.
Qed.

Lemma fastpath_well_formed W command plan :
  _fastpath W command = Some plan → well_formed plan.
Proof.
  unfold _fastpath. destruct (_last_n_month_range W 12) as [f t].
  repeat case_match; intros [= <-];
    (eexists; split; [done|]; constructor; [|done]; by apply stats_step_normal).
Qed.

(** where the plan of a command comes from *)
Lemma classify_and_plan_cases W command st plan st' :
  classify_and_plan W command st = (Ok plan, st') →
  (_fastpath W command = Some plan ∧ st' = st) ∨
  (_fastpath W command = None ∧
   ∃ raw, LLM.complete W LLM.PLANNER_SYSTEM command false st = (Ok raw, st') ∧
          (parse_plan W raw = Ok plan ∨
           (∃ e, parse_plan W raw = Raise e) ∧ plan = fallback_plan W)).
Proof.
  unfold classify_and_plan.
  destruct (_fastpath W command) as [fast|]; [intros [= <- <-]; by left|].
  intros Hrun. right. split; [done|].
  unfold bind in Hrun.
  destruct (LLM.complete W LLM.PLANNER_SYSTEM command false st) as [[raw|e] st1];
    [|done].
  exists raw. unfold catch, lift in Hrun.
  destruct (parse_plan W raw) as [p|e] eqn:Ep; injection Hrun as <- <-.
  - split; [done|]. by left.
  - split; [done|]. right. split; [by exists e|done].
Qed.

Lemma classify_and_plan_well_formed W command st plan st' :
  classify_and_plan W command st = (Ok plan, st') → well_formed plan.
Proof.
  intros Hrun.
  apply classify_and_plan_cases in Hrun as [[Hfast _]|(_ & raw & _ & [Hp|[_ ->]])].
  - by eapply fastpath_well_formed.
  - apply parse_plan_shape in Hp as (? & ? & ? & steps & _ & _ & _ & ? & ? & _).
    by exists steps.
  - apply fallback_well_formed.
Qed.

(** when the completion client answers, the planner returns a plan:
    the parsed one, or the fallback for any failure of the parsing *)
Lemma planner_parse_failures_fall_back W command st raw st1 :
  _fastpath W command = None →
  LLM.complete W LLM.PLANNER_SYSTEM command false st = (Ok raw, st1) →
  classify_and_plan W command st =
    (Ok (match parse_plan W raw with Ok plan => plan | Raise _ => fallback_plan W end),
     st1).
Proof.
  intros Hfast Hraw. unfold classify_and_plan, bind, catch, lift.
  rewrite Hfast, Hraw. by destruct (parse_plan W raw).
Qed.

(** C2, at the failing input: the backend is unreachable, the command is
    not a fast-path phrasing, and [classify_and_plan] raises the
    connection error of the third attempt instead of returning the
    fallback plan. *)
Lemma planner_backend_failure_propagates :
  let run := classify_and_plan Scenario.unreachable
               "create a workflow for leave approval" Sys.init in
  _fastpath Scenario.unreachable "create a workflow for leave approval" = None ∧
  fst run = Raise APIConnectionError ∧
  net_calls (trace (snd run)) = 3%nat.
Proof. by vm_compute. Qed.

(** the first day of the month eleven months before the month of [d] *)
Lemma add_months_back d :
  let start := _add_months (Dates.replace_day d 1) (- (12 - 1)) in
  Dates.day start = 1 ∧ 1 <= Dates.month start <= 12 ∧
  12 * Dates.year start + Dates.month start
    = 12 * Dates.year d + Dates.month d - 11.
Proof.
  unfold _add_months, Dates.replace_day.
  cbn [Dates.year Dates.month Dates.day].
  Z.div_mod_to_equations. lia.
Qed.

(** C9, as stated, fails: "top customers" is a fast-path phrasing and
    its plan groups by customer, not by month. *)
Lemma fastpath_top_customers_counterexample :
  ∃ plan,
    _fastpath Scenario.unreachable "top customers" = Some plan ∧
    get "steps" plan =
      PList [stats_step "get_sales_stats" "customer" "2023-04-01" "2024-03-15"] ∧
    get "steps" plan ≠
      PList [stats_step "get_sales_stats" "month" "2023-04-01" "2024-03-15"].
Proof. eexists. split; [by vm_compute|]. split; [done|discriminate]. Qed.

(** C9 (amended): the fast path maps each of its phrasings to one
    grouping, in the order of the code: a command that matches the
    best-selling-month pattern or contains "best selling month" is
    grouped by month; otherwise one that contains "top customers" by
    customer; otherwise one that contains "top items" or "best sellers"
    by item; any other command has no fast-path plan.  In the three
    cases the plan has exactly one [get_sales_stats] step with that
    grouping, from the first day of the month eleven months back to
    today, with [confirm_required] false, and the planner returns it
    without any effect, so without a call of the completion client. *)
Theorem fastpath_plan W command :
  let lc := Text.strip (Text.lower command) in
  let start := _add_months (Dates.replace_day (today W) 1) (- (12 - 1)) in
  let grouped by_ :=
    ∃ plan,
      _fastpath W command = Some plan ∧
      get "steps" plan =
        PList [stats_step "get_sales_stats" by_ (Dates.isoformat start)
                 (Dates.isoformat (today W))] ∧
      get "confirm_required" plan = PBool false ∧
      ∀ st, classify_and_plan W command st = (Ok plan, st) in
  (Dates.day start = 1 ∧ 1 <= Dates.month start <= 12 ∧
   12 * Dates.year start + Dates.month start
     = 12 * Dates.year (today W) + Dates.month (today W) - 11) ∧
  if Text.re_search best_month_re lc || Text.contains_str "best selling month" lc
  then grouped "month"
  else if Text.contains_str "top customers" lc then grouped "customer"
  else if Text.contains_str "top items" lc || Text.contains_str "best sellers" lc
  then grouped "item"
  else _fastpath W command = None.
Proof.
  intros lc start grouped. split; [apply add_months_back|].
  assert (Hplan : ∀ plan, _fastpath W command = Some plan →
            ∀ st, classify_and_plan W command st = (Ok plan, st)).
  { intros plan Hfast st. unfold classify_and_plan. by rewrite Hfast. }
  unfold grouped, _fastpath, _last_n_month_range in *. fold lc start in Hplan |- *.
  destruct (Text.re_search _ _ || Text.contains_str "best selling month" _).
  { eexists. split; [done|]. split; [done|]. split; [done|]. by apply Hplan. }
  destruct (Text.contains_str "top customers" _).
  { eexists. split; [done|]. split; [done|]. split; [done|]. by apply Hplan. }
  destruct (_ || _); [|done].
  eexists. split; [done|]. split; [done|]. split; [done|]. by apply Hplan.
Qed.

(** "Top sales by month" matches the pattern and is grouped by month *)
Lemma fastpath_plan_witness :
  ∃ plan, _fastpath Scenario.unreachable "Top sales by month" = Some plan ∧
    get "steps" plan =
      PList [stats_step "get_sales_stats" "month" "2023-04-01" "2024-03-15"] ∧
    get "confirm_required" plan = PBool false ∧
    ∀ st, classify_and_plan Scenario.unreachable "Top sales by month" st
            = (Ok plan, st).
Proof.
  exact (proj2 (fastpath_plan Scenario.unreachable "Top sales by month")).
Defined.

End PlannerFacts.

(** ** The execution engine *)

Module EngineFacts.
Import Spec Sys SysFacts Agent PlannerFacts.

(** [execute], phase by phase *)
Lemma execute_unfold W command user dry_run token st :
  execute W command user dry_run token st =
    match classify_and_plan W command (started st) with
    | (Raise e, st1) => (Raise e, st1)
    | (Ok plan, st1) =>
        match first8 (get_or "steps" (PList []) plan) with
        | Raise e => (Raise e, st1)
        | Ok steps =>
            match confirm_needed plan with
            | Raise e => (Raise e, st1)
            | Ok needed =>
                if needed && negb (token_given token) && negb dry_run
                then (Ok (AwaitingConfirmation (uuid4_at W (uuids st)) plan), st1)
                else
                  match run_steps W dry_run (uuid4_at W (S (uuids st))) 1 steps [] st1 with
                  | (Raise e, st2) => (Raise e, st2)
                  | (Ok results, st2) =>
                      match summarize W results with
                      | Raise e => (Raise e, st2)
                      | Ok summary =>
                          (Ok (Completed (Some (uuid4_at W (uuids st))) plan results
                                 summary), st2)
                      end
                  end
            end
        end
    end.
Proof.
  unfold execute, bind, uuid4, LLM.new_client, set_window, lift, ret, started. simpl.
  destruct (classify_and_plan W command _) as [[plan|e] st1]; [|done].
  destruct (first8 _) as [steps|e]; [|done].
  destruct (confirm_needed plan) as [needed|e]; [|done].
  destruct (needed && negb (token_given token) && negb dry_run); [done|].
  destruct (run_steps W dry_run _ 1 steps [] st1) as [[results|e] st2]; [|done].
  by destruct (summarize W results).
Qed.

Lemma first8_well_formed plan :
  well_formed plan →
  ∃ steps, dict_get "steps" plan = Some (PList steps) ∧ Forall normal_step steps ∧
           first8 (get_or "steps" (PList []) plan) = Ok (take 8 steps).
Proof.
  intros (steps & Hsteps & Hnormal). exists steps.
  unfold get_or. by rewrite Hsteps.
Qed.

(** the confirmation gate: a plan that needs confirmation, no token and
    no dry run end the command before the loop over the steps *)
Lemma execute_gate W command user token st plan st1 :
  classify_and_plan W command (started st) = (Ok plan, st1) →
  confirm_needed plan = Ok true →
  token_given token = false →
  execute W command user false token st
    = (Ok (AwaitingConfirmation (uuid4_at W (uuids st)) plan), st1) ∧
  tool_calls (trace st1) = tool_calls (trace st).
Proof.
  intros Hplan Hneeded Htoken. rewrite execute_unfold, Hplan.
  pose proof (classify_and_plan_well_formed _ _ _ _ _ Hplan) as Hwf.
  apply first8_well_formed in Hwf as (steps & _ & _ & ->).
  rewrite Hneeded, Htoken. split; [done|].
  destruct (classify_and_plan_quiet W command _ _ _ Hplan) as (evs & -> & Hquiet).
  simpl. by rewrite tool_calls_app, (tool_calls_quiet evs), app_nil_r.
Qed.

Lemma confirm_needed_cases plan :
  truthy (get "confirm_required" plan) = true ∨
  get_or "intent" (PStr "analytics") plan = PStr "structural_change" →
  confirm_needed plan = Ok true.
Proof.
  unfold confirm_needed. intros [->| ->]; [done|].
  by destruct (truthy _).
Qed.

(** C1: when the plan of a command requires confirmation
    ([confirm_required] counts as true, or the intent is
    [structural_change]), no confirmation token is given and [dry_run] is
    false, [execute] returns [awaiting_confirmation] with the correlation
    identifier and the plan, and no tool has been called. *)
Theorem unconfirmed_plan_awaits W command user token st plan st1 :
  classify_and_plan W command (started st) = (Ok plan, st1) →
  truthy (get "confirm_required" plan) = true ∨
    get_or "intent" (PStr "analytics") plan = PStr "structural_change" →
  token_given token = false →
  execute W command user false token st
    = (Ok (AwaitingConfirmation (uuid4_at W (uuids st)) plan), st1) ∧
  tool_calls (trace st1) = tool_calls (trace st).
Proof.
  intros Hplan Hconfirm Htoken.
  apply execute_gate; [done | by apply confirm_needed_cases | done].
Qed.

Lemma unconfirmed_plan_awaits_witness :
  ∃ plan st1,
    execute (Scenario.planning Scenario.risky_plan) "create a task to call the supplier"
      "alice" false (Some EmptyString) Sys.init
      = (Ok (AwaitingConfirmation "0b7e6c1e-correlation" plan), st1) ∧
    tool_calls (trace st1) = [].
Proof.
  eexists _, _.
  apply (unconfirmed_plan_awaits (Scenario.planning Scenario.risky_plan)
           "create a task to call the supplier" "alice" (Some EmptyString) Sys.init).
  - vm_compute. reflexivity.
  - left. reflexivity.
  - reflexivity.
Defined.

(** C4, as stated, fails: the model marked a change of structure as
    needing no confirmation, and the plan that [execute] hands back,
    awaiting confirmation, still says so: its [confirm_required] is not
    forced to true. *)
Lemma structural_flag_stays_false_counterexample :
  let W := Scenario.planning Scenario.structural_plan in
  let run := execute W "add a warranty claim doctype" "alice" false None Sys.init in
  ∃ plan,
    fst run = Ok (AwaitingConfirmation "0b7e6c1e-correlation" plan) ∧
    get "intent" plan = PStr "structural_change" ∧
    get "confirm_required" plan = PBool false ∧
    get "confirm_required" plan ≠ PBool true.
Proof.
  intros W run. eexists. split; [by vm_compute|].
  split; [reflexivity|]. split; [reflexivity|discriminate].
Qed.

(** C4 (amended): a plan whose intent is [structural_change] needs
    confirmation whatever its [confirm_required] says: the check of
    [execute] is true for it and stays true for any value the field
    could have, so without a token and outside a dry run the command
    stops at [awaiting_confirmation] before any tool call.  The plan
    itself is returned as the planner gave it; the field is not
    rewritten. *)
Theorem structural_change_is_gated plan :
  get_or "intent" (PStr "analytics") plan = PStr "structural_change" →
  confirm_needed plan = Ok true ∧
  (∀ upstream, confirm_needed (dict_set "confirm_required" upstream plan) = Ok true) ∧
  ∀ W command user token st st1,
    classify_and_plan W command (started st) = (Ok plan, st1) →
    token_given token = false →
    execute W command user false token st
      = (Ok (AwaitingConfirmation (uuid4_at W (uuids st)) plan), st1) ∧
    tool_calls (trace st1) = tool_calls (trace st).
Proof.
  intros Hintent.
  assert (confirm_needed plan = Ok true) as Hneeded.
  { apply confirm_needed_cases. by right. }
  split; [done|]. split.
  - intros upstream. apply confirm_needed_cases. right.
    unfold get_or in *. by rewrite dict_get_set_ne.
  - intros W command user token st st1 Hplan Htoken. by apply execute_gate.
Qed.

Lemma structural_change_is_gated_witness :
  let plan := Scenario.items Scenario.structural_plan in
  get "confirm_required" plan = PBool false ∧
  confirm_needed plan = Ok true ∧
  ∃ st1,
    execute (Scenario.planning Scenario.structural_plan) "add a warranty claim doctype"
      "alice" false None Sys.init
      = (Ok (AwaitingConfirmation "0b7e6c1e-correlation" plan), st1) ∧
    tool_calls (trace st1) = [].
Proof.
  intros plan.
  destruct (structural_change_is_gated plan eq_refl) as (Hneeded & _ & Hgate).
  split; [reflexivity|]. split; [exact Hneeded|].
  eexists.
  apply (Hgate (Scenario.planning Scenario.structural_plan)
           "add a warranty claim doctype" "alice" None Sys.init).
  - vm_compute. reflexivity.
  - reflexivity.
Defined.

(** *** dry run *)

Lemma quiet_read_only e : quiet e → read_only_event e.
Proof. by destruct e. Qed.

Lemma call_kw_emits (P : event → Prop) W name args extra :
  (∀ kw, P (EvTool (mkcall name [] kw))) → emits P (call_kw W name args extra).
Proof.
  intros HP. unfold call_kw. apply emits_bind; [apply emits_lift|].
  intros kw. by apply emits_call_tool.
Qed.

Lemma in_read_only_true tool :
  in_read_only tool = Ok true → ∃ name, tool = PStr name ∧ name ∈ READ_ONLY_TOOLS.
Proof.
  destruct tool as [| | | |name| |]; try done. simpl. intros [= Hin].
  exists name. split; [done|]. by apply bool_decide_eq_true in Hin.
Qed.

(** the read-only names, one by one *)
Lemma read_only_names name :
  name ∈ READ_ONLY_TOOLS →
  name = "get_sales_stats" ∨ name = "get_purchase_stats" ∨
  name = "get_inventory_snapshot" ∨ name = "run_sql" ∨ name = "run_report".
Proof.
  unfold READ_ONLY_TOOLS. rewrite !elem_of_union, !elem_of_singleton. tauto.
Qed.

(** a read-only tool is called with the arguments of the step alone *)
Lemma dispatch_read_only W name args idem st :
  name ∈ READ_ONLY_TOOLS →
  dispatch W (PStr name) args idem st =
    match kwargs_of args [] with
    | Raise e => (Raise e, st)
    | Ok kw =>
        (rbind (registry W (trace st) (mkcall name [] kw))
           (fun payload => Ok (if wraps_rows name then rows_of payload else payload)),
         mkstate (trace st ++ [EvTool (mkcall name [] kw)]) (clock_reads st)
                 (uuids st) (fail_window st))
    end.
Proof.
  intros Hname. apply read_only_names in Hname.
  destruct Hname as [->|[->|[->|[->| ->]]]];
    unfold dispatch, call_kw, call_tool, bind, lift, ret; simpl;
    destruct (kwargs_of args []) as [kw|e]; try done;
    by destruct (registry W (trace st) _).
Qed.

Lemma run_step_dry W idem idx step st o st' :
  run_step W true idem idx step st = (Ok o, st') → dry_step W idx step st o st'.
Proof.
  unfold run_step, bind, lift, ret.
  destruct (py_get "tool" step) as [tool|] eqn:Etool; [|done].
  destruct (step_args step) as [args|] eqn:Eargs; [|done].
  destruct (in_read_only tool) as [[|]|] eqn:Ero; simpl; [| |done].
  - apply in_read_only_true in Ero as (name & -> & Hname).
    rewrite dispatch_read_only by done.
    destruct (kwargs_of args []) as [kw|] eqn:Ekw; [|done].
    destruct (registry W (trace st) _) as [payload|] eqn:Ereg; [|done].
    simpl. intros [= <- <-]. by eapply dry_dispatched.
  - intros [= <- <-]. by eapply dry_skipped.
Qed.

Lemma run_steps_dry W idem steps : ∀ idx acc st results st',
  run_steps W true idem idx steps acc st = (Ok results, st') →
  ∃ outs, results = acc ++ outs ∧ dry_steps W idx steps st outs st'.
Proof.
  induction steps as [|step rest IH]; intros idx acc st results st'; simpl.
  - intros [= <- <-]. exists []. rewrite app_nil_r. split; [done|constructor].
  - unfold bind at 1.
    destruct (run_step W true idem idx step st) as [[o|] st1] eqn:Estep; [|done].
    intros Hrest. apply IH in Hrest as (outs & -> & Hsteps).
    exists (o :: outs). rewrite <- app_assoc. split; [done|].
    econstructor; [by eapply run_step_dry|done].
Qed.

Lemma silent_step (P : event → Prop) (st : State) :
  ∃ evs, trace st = trace st ++ evs ∧ Forall P evs.
Proof. exists []. by rewrite app_nil_r. Qed.

Lemma run_step_dry_read_only W idem idx step :
  emits read_only_event (run_step W true idem idx step).
Proof.
  intros st r st'. unfold run_step, bind, lift, ret.
  destruct (py_get "tool" step) as [tool|];
    [|intros [= <- <-]; apply silent_step].
  destruct (step_args step) as [args|];
    [|intros [= <- <-]; apply silent_step].
  destruct (in_read_only tool) as [[|]|] eqn:Ero; simpl;
    [| intros [= <- <-]; apply silent_step ..].
  apply in_read_only_true in Ero as (name & -> & Hname).
  rewrite dispatch_read_only by done.
  destruct (kwargs_of args []) as [kw|]; [|intros [= <- <-]; apply silent_step].
  intros Hrun. exists [EvTool (mkcall name [] kw)].
  split; [|by constructor].
  by destruct (registry W (trace st) _); injection Hrun as <- <-.
Qed.

Lemma run_steps_dry_read_only W idem steps : ∀ idx acc,
  emits read_only_event (run_steps W true idem idx steps acc).
Proof.
  induction steps as [|step rest IH]; intros idx acc; simpl.
  - apply emits_ret.
  - apply emits_bind; [apply run_step_dry_read_only|]. intros o. apply IH.
Qed.

Lemma execute_dry_read_only W command user token :
  emits read_only_event (execute W command user true token).
Proof.
  unfold execute.
  do 2 (apply emits_bind; [apply emits_uuid4|]; intros ?).
  apply emits_bind; [apply emits_set_window|]. intros _.
  apply emits_bind.
  { eapply emits_weaken; [apply quiet_read_only|apply classify_and_plan_quiet]. }
  intros plan. do 2 (apply emits_bind; [apply emits_lift|]; intros ?).
  rewrite andb_false_r.
  apply emits_bind; [apply run_steps_dry_read_only|]. intros results.
  emits_auto.
Qed.

(** C3, as stated, fails: a plan of ten steps for the read-only
    [run_sql], run dry.  The first eight steps are dispatched and
    recorded; the ninth and the tenth are neither. *)
Lemma ninth_read_is_not_run_counterexample :
  let W := Cases.repository Cases.ten_reads in
  let run := execute W "check the ten ledgers" "alice" true None Sys.init in
  ∃ plan results,
    fst run = Ok (Completed (Some "0b7e6c1e-correlation") plan results None) ∧
    get "steps" plan =
      PList (replicate 10 (Scenario.step "run_sql" [("sql", PStr "select 1")])) ∧
    "run_sql" ∈ READ_ONLY_TOOLS ∧
    map Terms.step_of results = [1; 2; 3; 4; 5; 6; 7; 8] ∧
    tool_calls (trace (snd run)) =
      replicate 8 (mkcall "run_sql" [] [("sql", PStr "select 1")]).
Proof.
  intros W run. eexists _, _. split; [by vm_compute|].
  split; [reflexivity|]. split; [|split; reflexivity].
  apply (bool_decide_unpack _). by vm_compute.
Qed.

(** C3 (amended): under [dry_run], whatever the command, [execute] calls
    read-only tools only; when it returns, it has completed (the gate is
    not applied to a dry run) and its outcomes are those of the first
    eight steps of the plan, one each and in order: such a step whose
    tool is in [READ_ONLY_TOOLS] was dispatched and the payload of the
    tool is its outcome, and any other such step is recorded as skipped,
    with its arguments, without a call.  A step after the eighth has no
    outcome and no call. *)
Theorem dry_run_reads_and_skips W command user token st :
  emits read_only_event (execute W command user true token) ∧
  ∀ r st', execute W command user true token st = (Ok r, st') →
    ∃ plan steps st1 results summary,
      classify_and_plan W command (started st) = (Ok plan, st1) ∧
      dict_get "steps" plan = Some (PList steps) ∧
      r = Completed (Some (uuid4_at W (uuids st))) plan results summary ∧
      dry_steps W 1 (take 8 steps) st1 results st'.
Proof.
  split; [apply execute_dry_read_only|].
  intros r st'. rewrite execute_unfold.
  destruct (classify_and_plan W command (started st)) as [[plan|] st1] eqn:Hplan;
    [|done].
  pose proof (classify_and_plan_well_formed _ _ _ _ _ Hplan) as Hwf.
  apply first8_well_formed in Hwf as (steps & Hsteps & _ & ->).
  destruct (confirm_needed plan) as [needed|]; [|done].
  rewrite andb_false_r.
  destruct (run_steps W true _ 1 (take 8 steps) [] st1) as [[results|] st2] eqn:Hrun;
    [|done].
  destruct (summarize W results) as [summary|]; [|done].
  intros [= <- <-].
  apply run_steps_dry in Hrun as (outs & -> & Hdry).
  by exists plan, steps, st1, outs, summary.
Qed.

Lemma dry_run_reads_and_skips_witness :
  let W := Scenario.planning Scenario.mixed_plan in
  let run := execute W "summarise item sales and open a review task" "alice" true
               None Sys.init in
  (∃ plan summary,
     fst run = Ok (Completed (Some "0b7e6c1e-correlation") plan
       [StepResult 1 (PStr "get_sales_stats") Scenario.no_rows;
        StepSkipped 2 (PStr "create_task")
          (PDict [("subject", PStr "Review the best sellers")])]
       summary)) ∧
  ∃ plan steps st1 results summary,
    classify_and_plan W "summarise item sales and open a review task"
      (started Sys.init) = (Ok plan, st1) ∧
    dict_get "steps" plan = Some (PList steps) ∧
    fst run = Ok (Completed (Some (uuid4_at W (uuids Sys.init))) plan results summary) ∧
    dry_steps W 1 (take 8 steps) st1 results (snd run).
Proof.
  intros W run. split; [by eexists _, _|].
  destruct (proj2 (dry_run_reads_and_skips W
                     "summarise item sales and open a review task" "alice" None
                     Sys.init)
              (Completed (Some "0b7e6c1e-correlation")
                 (dict_set "steps"
                    (PList [Scenario.step "get_sales_stats"
                              [("by", PStr "item"); ("from_date", PStr "2023-04-01");
                               ("to_date", PStr "2024-03-15")];
                            Scenario.step "create_task"
                              [("subject", PStr "Review the best sellers")]])
                    (Scenario.items Scenario.mixed_plan))
                 [StepResult 1 (PStr "get_sales_stats") Scenario.no_rows;
                  StepSkipped 2 (PStr "create_task")
                    (PDict [("subject", PStr "Review the best sellers")])]
                 None)
              (snd run) eq_refl)
    as (plan & steps & st1 & results & summary & H1 & H2 & H3 & H4).
  exists plan, steps, st1, results, summary. repeat split; try done.
  by rewrite <- H3.
Defined.

(** *** the idempotency token *)

Lemma dispatch_keyed W name args idem st :
  name ∈ KEYED_TOOLS →
  dispatch W (PStr name) args idem st =
    match kwargs_of args [("idempotency_key", PStr idem)] with
    | Raise e => (Raise e, st)
    | Ok kw =>
        (registry W (trace st) (mkcall name [] kw),
         mkstate (trace st ++ [EvTool (mkcall name [] kw)]) (clock_reads st)
                 (uuids st) (fail_window st))
    end.
Proof.
  unfold KEYED_TOOLS. rewrite !elem_of_cons, elem_of_nil.
  intros [->|[->|[->|[->|[->|[->|[]]]]]]];
    unfold dispatch, call_kw, call_tool, bind, lift; simpl;
    by destruct (kwargs_of args _).
Qed.

(** the branch of [enqueue_background_job] passes the arguments alone *)
Lemma dispatch_enqueue W args idem st :
  dispatch W (PStr "enqueue_background_job") args idem st =
    match kwargs_of args [] with
    | Raise e => (Raise e, st)
    | Ok kw =>
        (registry W (trace st) (mkcall "enqueue_background_job" [] kw),
         mkstate (trace st ++ [EvTool (mkcall "enqueue_background_job" [] kw)])
                 (clock_reads st) (uuids st) (fail_window st))
    end.
Proof.
  unfold dispatch, call_kw, call_tool, bind, lift; simpl.
  by destruct (kwargs_of args _).
Qed.




End EngineFacts.

(** ** The router *)

Module RouterFacts.
Import Spec Sys SysFacts Agent PlannerFacts EngineFacts.

Lemma answer_question_quiet W question top_k :
  emits quiet (QA.answer_question W question top_k).
Proof.
  unfold QA.answer_question.
  apply emits_bind; [apply emits_get_trace|]. intros history.
  apply emits_bind; [by apply emits_emit|]. intros _.
  apply emits_bind; [apply emits_lift|]. intros [|h0 hits]; [apply emits_ret|].
  apply emits_bind; [apply emits_set_window|]. intros _.
  apply emits_bind; [|intros ?; apply emits_ret].
  apply emits_catch; [|intros ?; apply emits_ret].
  apply emits_bind; [apply complete_quiet|]. intros ?. apply emits_ret.
Qed.

Lemma ask_read_only W question : emits read_only_event (Router.ask W question).
Proof.
  unfold Router.ask. destruct question; try apply emits_raise.
  eapply emits_weaken; [apply quiet_read_only|apply answer_question_quiet].
Qed.

Lemma getter_read_only (is_sales : bool) :
  (if is_sales then "get_sales_stats" else "get_purchase_stats") ∈ READ_ONLY_TOOLS.
Proof.
  unfold READ_ONLY_TOOLS. rewrite !elem_of_union, !elem_of_singleton.
  destruct is_sales; tauto.
Qed.

Lemma stats_branch_read_only W r is_sales :
  emits read_only_event (Router.stats_branch W r is_sales).
Proof.
  unfold Router.stats_branch.
  pose proof (getter_read_only is_sales) as Hgetter.
  emits_auto; by apply emits_call_tool.
Qed.

Lemma report_branch_read_only W r : emits read_only_event (Router.report_branch W r).
Proof.
  unfold Router.report_branch.
  apply emits_bind; [apply emits_lift|]. intros name.
  apply emits_bind.
  { apply emits_call_tool. simpl. unfold READ_ONLY_TOOLS.
    rewrite !elem_of_union, !elem_of_singleton. tauto. }
  intros rep. emits_auto.
Qed.

Lemma execute_routed_read_only W r : emits read_only_event (Router.execute_routed W r).
Proof.
  unfold Router.execute_routed.
  destruct (eq_str (get "action" r) "rag").
  { apply emits_bind; [apply emits_lift|]. intros q.
    apply emits_bind; [apply ask_read_only|]. intros ans. apply emits_lift. }
  destruct (eq_str (get "action" r) "inventory_snapshot").
  { apply emits_bind; [apply emits_lift|]. intros wh.
    apply emits_bind; [|intros snap; emits_auto].
    apply emits_call_tool. simpl. unfold READ_ONLY_TOOLS.
    rewrite !elem_of_union, !elem_of_singleton. tauto. }
  destruct (_ || _); [apply stats_branch_read_only|].
  destruct (eq_str (get "action" r) "run_report"); [apply report_branch_read_only|].
  apply emits_bind; [apply ask_read_only|]. intros ans. apply emits_lift.
Qed.

Lemma route_and_execute_read_only W query :
  emits read_only_event (Router.route_and_execute W query).
Proof.
  unfold Router.route_and_execute.
  apply emits_bind; [apply execute_routed_read_only|]. intros out. emits_auto.
Qed.

Lemma route_action W query : get "action" (Router.route W query) ∈ ROUTED_ACTIONS.
Proof.
  unfold Router.route, ROUTED_ACTIONS.
  destruct (Router._is_docs_question _); [set_solver|].
  destruct (Router._parse_date_range W _) as [[from_date to_date] label].
  destruct (Text.re_search _ _); [set_solver|].
  destruct (String.eqb _ "inventory"); [set_solver|].
  destruct (String.eqb _ "purchase"); set_solver.
Qed.

(** C10: [route] chooses one of five actions, documentation lookup,
    inventory snapshot, purchase statistics, sales statistics or a report
    run; [route_and_execute] therefore calls read-only tools only, and so
    does [smart_execute] whenever the router answers and the planner and
    the engine, with their confirmation and dry-run rules, are skipped. *)
Theorem router_is_read_only W query :
  get "action" (Router.route W query) ∈ ROUTED_ACTIONS ∧
  emits read_only_event (Router.route_and_execute W query) ∧
  ∀ user dry_run token st routed st1,
    Router.route_and_execute W query st = (Ok routed, st1) →
    answered routed = true →
    smart_execute W query user dry_run token st
      = (Ok (Completed None auto_plan [StepResult 1 (PStr "router") routed] None), st1) ∧
    ∃ evs, trace st1 = trace st ++ evs ∧ Forall read_only_event evs.
Proof.
  split; [apply route_action|]. split; [apply route_and_execute_read_only|].
  intros user dry_run token st routed st1 Hrouted Hanswered. split.
  - unfold smart_execute, bind. rewrite Hrouted.
    unfold answered in Hanswered. by rewrite Hanswered.
  - by eapply route_and_execute_read_only.
Qed.

Lemma router_is_read_only_witness :
  let run := smart_execute Scenario.stocked "top 5 customers ytd" "alice" false None
               Sys.init in
  (∃ routed, fst run = Ok (Completed None auto_plan
                             [StepResult 1 (PStr "router") routed] None)) ∧
  tool_calls (trace (snd run)) =
    [mkcall "get_sales_stats" []
       [("by", PStr "customer"); ("from_date", PStr "2024-01-01");
        ("to_date", PStr "2024-03-15")]].
Proof.
  intros run.
  destruct (Router.route_and_execute Scenario.stocked "top 5 customers ytd" Sys.init)
    as [[routed|e] st1] eqn:Hrouted; [|by vm_compute in Hrouted].
  destruct (proj2 (proj2 (router_is_read_only Scenario.stocked "top 5 customers ytd"))
              "alice" false None Sys.init routed st1 Hrouted) as [Hrun _].
  { vm_compute in Hrouted. by injection Hrouted as <- _. }
  subst run. rewrite Hrun. split; [by eexists|].
  vm_compute in Hrouted. by injection Hrouted as _ <-.
Defined.

End RouterFacts.

(** ** The circuit breaker and the retries, further *)

Module BreakerFacts.
Import Spec Sys LLM SysFacts LLMFacts.

(** with the circuit closed, an attempt makes its request *)
Lemma closed_attempt_trace W system user streaming st x st1 :
  circuit_open (time_at W (clock_reads st)) (fail_window st) = false →
  complete_attempt W system user streaming st = (x, st1) →
  trace st1 = trace st ++ [EvNet system user streaming].
Proof.
  intros Hclosed. rewrite complete_attempt_eq. simpl. rewrite Hclosed.
  destruct (backend W _); [by intros [= _ <-]|].
  by destruct (recorded _); intros [= _ <-].
Qed.

(** with the circuit closed, the first thing a call does is a request *)
Lemma closed_circuit_requests W system user streaming st :
  circuit_open (time_at W (clock_reads st)) (fail_window st) = false →
  ∃ r st' evs, complete W system user streaming st = (r, st') ∧
               trace st' = trace st ++ EvNet system user streaming :: evs.
Proof.
  intros Hclosed.
  destruct (complete W system user streaming st) as [r st'] eqn:Hrun.
  exists r, st'. unfold complete, retry, max_attempts in Hrun.
  simpl Nat.sub in Hrun. rewrite retry_from_unfold in Hrun.
  unfold catch at 1 in Hrun.
  destruct (complete_attempt W system user streaming st) as [[a|e] st1] eqn:Hatt;
    apply closed_attempt_trace in Hatt; try done.
  - injection Hrun as <- <-. by exists [].
  - destruct (retry_if e).
    + unfold bind at 1, emit in Hrun. simpl in Hrun.
      apply (retry_from_budget W system user streaming 1 2) in Hrun
        as (evs & Ht & _). simpl in Ht.
      exists (EvSleep (wait_exponential 1) :: evs).
      by rewrite Ht, Hatt, <- !app_assoc.
    + injection Hrun as <- <-. by exists [].
Qed.

(** X1: The breaker rejects calls for less than 30 seconds after the most
    recent failure: a call goes to the backend as soon as fewer than three
    failures are less than 90 seconds old or the last of them is at least
    30 seconds old. *)
Theorem circuit_cools_down W system user streaming st :
  let now := time_at W (clock_reads st) in
  let w := recent now (fail_window st) in
  (length w < 3)%nat ∨ (30 <= now - List.last w 0)%Q →
  ∃ r st' evs, complete W system user streaming st = (r, st') ∧
               trace st' = trace st ++ EvNet system user streaming :: evs.
Proof.
  intros now w Hclosed. apply closed_circuit_requests.
  unfold circuit_open. fold now. fold w. apply andb_false_iff.
  destruct Hclosed as [Hfew|Hold].
  - left. apply Nat.leb_gt. lia.
  - right. by apply Qlt_bool_false_iff.
Qed.

Lemma circuit_cools_down_witness :
  ∃ r st' evs,
    complete Scenario.at_50s "sys" "hi" false (Scenario.with_window [5; 10; 20]%Q)
      = (r, st') ∧
    trace st' = [] ++ EvNet "sys" "hi" false :: evs.
Proof.
  apply (circuit_cools_down Scenario.at_50s "sys" "hi" false
           (Scenario.with_window [5; 10; 20]%Q)).
  right. vm_compute. discriminate.
Defined.

(** X2: A rejected call is not a failure: while the circuit is open,
    [complete] reads the clock once, drops the failures that are 90
    seconds old or more and records nothing. *)
Theorem rejection_is_not_recorded W system user streaming st :
  circuit_open (time_at W (clock_reads st)) (fail_window st) = true →
  complete W system user streaming st =
    (Raise CircuitBreaker,
     mkstate (trace st) (S (clock_reads st)) (uuids st)
             (recent (time_at W (clock_reads st)) (fail_window st))).
Proof.
  intros Hopen.
  pose proof (complete_attempt_eq W system user streaming st) as Hatt.
  simpl in Hatt. rewrite Hopen in Hatt. by apply retry_from_stops.
Qed.

Lemma rejection_is_not_recorded_witness :
  complete Scenario.at_50s "sys" "hi" false (Scenario.with_window [-45; 30; 40; 45]%Q)
    = (Raise CircuitBreaker,
       mkstate [] 1 0 [30; 40; 45]%Q).
Proof.
  apply (rejection_is_not_recorded Scenario.at_50s "sys" "hi" false
           (Scenario.with_window [-45; 30; 40; 45]%Q)).
  reflexivity.
Defined.

Section RetrySteps.
Context {A : Type} (body : M A).

Lemma retry_from_ok n k st a st1 :
  body st = (Ok a, st1) → retry_from n k body st = (Ok a, st1).
Proof. intros Hbody. destruct n; simpl; unfold catch; by rewrite Hbody. Qed.

Lemma retry_from_again n k st e st1 :
  body st = (Raise e, st1) → retry_if e = true →
  retry_from (S n) k body st =
    retry_from n (S k) body
      (mkstate (trace st1 ++ [EvSleep (wait_exponential k)]) (clock_reads st1)
               (uuids st1) (fail_window st1)).
Proof.
  intros Hbody Hretry. rewrite retry_from_unfold. unfold catch.
  by rewrite Hbody, Hretry.
Qed.

End RetrySteps.

(** X3: A transient error is recovered: when the first request fails with a
    connectivity or rate-limit error and the second is answered, the
    circuit being closed at both attempts, [complete] returns the answer
    after one wait, and the one failure stays in the window. *)
Theorem complete_recovers W system user streaming st e resp :
  let c := clock_reads st in
  let t1 := trace st ++ [EvNet system user streaming] in
  let w1 := record W c (fail_window st) in
  let t2 := t1 ++ [EvSleep (wait_exponential 1)] ++ [EvNet system user streaming] in
  circuit_open (time_at W c) (fail_window st) = false →
  backend W t1 = Raise e →
  retry_if e = true →
  circuit_open (time_at W (2 + c)) w1 = false →
  backend W t2 = Ok resp →
  complete W system user streaming st =
    (Ok (answer streaming resp),
     mkstate t2 (3 + c) (uuids st) (recent (time_at W (2 + c)) w1)).
Proof.
  intros c t1 w1 t2 Hclosed1 Hfail Hretry Hclosed2 Hok.
  assert (recorded e = true) as Hrec by (by destruct e).
  subst c t1 w1 t2. unfold record in *. simpl in *.
  pose proof (complete_attempt_eq W system user streaming st) as Hatt1.
  simpl in Hatt1. rewrite Hclosed1, Hfail, Hrec in Hatt1.
  unfold complete, retry, max_attempts. simpl Nat.sub.
  rewrite (retry_from_again _ _ _ _ _ _ Hatt1 Hretry).
  apply retry_from_ok. rewrite complete_attempt_eq. simpl.
  rewrite Hclosed2, <- app_assoc. simpl. by rewrite Hok.
Qed.

Lemma complete_recovers_witness :
  ∃ st', complete Cases.flaky "sys" "hi" false Sys.init
           = (Ok (CText (Some "{}")), st') ∧
         net_calls (trace st') = 2%nat ∧ fail_window st' = [1%Q].
Proof.
  eexists. split.
  - apply (complete_recovers Cases.flaky "sys" "hi" false Sys.init RateLimitError
             {| content := Some "{}"; deltas := [] |}); reflexivity.
  - split; reflexivity.
Defined.

(** what one attempt does to the window and to the clock *)
Lemma attempt_window_bound W system user streaming st r st1 :
  complete_attempt W system user streaming st = (r, st1) →
  (length (fail_window st1) ≤ S (length (fail_window st)))%nat ∧
  (clock_reads st1 ≤ 2 + clock_reads st)%nat.
Proof.
  rewrite complete_attempt_eq. simpl.
  pose proof (List.filter_length_le
                (fun t => Qlt_bool (time_at W (clock_reads st) - t) 90)
                (fail_window st)) as Hle.
  fold (recent (time_at W (clock_reads st)) (fail_window st)) in Hle.
  destruct (circuit_open _ _); [intros [= _ <-]; simpl; lia|].
  destruct (backend W _); [intros [= _ <-]; simpl; lia|].
  destruct (recorded _); intros [= _ <-]; simpl; rewrite ?length_app; simpl; lia.
Qed.

Lemma retry_window_bound W system user streaming n : ∀ k st r st',
  retry_from n k (complete_attempt W system user streaming) st = (r, st') →
  (length (fail_window st') ≤ S n + length (fail_window st))%nat ∧
  (clock_reads st' ≤ 2 * S n + clock_reads st)%nat.
Proof.
  induction n as [|n IH]; intros k st r st' Hrun.
  - simpl in Hrun. unfold catch in Hrun.
    destruct (complete_attempt W system user streaming st) as [[a|e] st1] eqn:E;
      apply attempt_window_bound in E.
    + injection Hrun as _ <-. lia.
    + destruct (retry_if e); injection Hrun as _ <-; lia.
  - rewrite retry_from_unfold in Hrun. unfold catch in Hrun.
    destruct (complete_attempt W system user streaming st) as [[a|e] st1] eqn:E;
      apply attempt_window_bound in E.
    + injection Hrun as _ <-. lia.
    + destruct (retry_if e); [|injection Hrun as _ <-; lia].
      unfold bind at 1, emit in Hrun. simpl in Hrun.
      apply IH in Hrun. simpl in Hrun. lia.
Qed.

(** X4: One call of [complete] records at most three failures and reads the
    clock at most six times, whatever the backend does. *)
Theorem complete_window_bound W system user streaming st r st' :
  complete W system user streaming st = (r, st') →
  (length (fail_window st') ≤ 3 + length (fail_window st))%nat ∧
  (clock_reads st' ≤ 6 + clock_reads st)%nat.
Proof. intros Hrun. by apply retry_window_bound in Hrun. Qed.

Lemma complete_window_bound_witness :
  let run := complete Scenario.unreachable "sys" "hi" false Sys.init in
  (length (fail_window (snd run)) ≤ 3 + length (fail_window Sys.init))%nat ∧
  (clock_reads (snd run) ≤ 6 + clock_reads Sys.init)%nat.
Proof.
  intros run.
  exact (complete_window_bound Scenario.unreachable "sys" "hi" false Sys.init
           (fst run) (snd run) (surjective_pairing run)).
Defined.

End BreakerFacts.

(** ** The engine, further *)

Module EngineMore.
Import Spec Terms Sys SysFacts Agent PlannerFacts EngineFacts.

(** X5: [execute] stops at [awaiting_confirmation] only behind the
    confirmation check: then this is no dry run, no token was given, the
    plan needs confirmation, and nothing was called. *)
Theorem awaiting_only_when_unconfirmed W command user dry_run token st cid plan st' :
  execute W command user dry_run token st = (Ok (AwaitingConfirmation cid plan), st') →
  dry_run = false ∧ token_given token = false ∧ confirm_needed plan = Ok true ∧
  cid = uuid4_at W (uuids st) ∧
  classify_and_plan W command (started st) = (Ok plan, st') ∧
  tool_calls (trace st') = tool_calls (trace st).
Proof.
  rewrite execute_unfold.
  destruct (classify_and_plan W command (started st)) as [[p|] st1] eqn:Hplan; [|done].
  destruct (first8 _) as [steps|]; [|done].
  destruct (confirm_needed p) as [needed|] eqn:Hneeded; [|done].
  destruct (needed && negb (token_given token) && negb dry_run) eqn:Hgate.
  - intros [= <- <- <-].
    apply andb_true_iff in Hgate as [Hgate Hdry].
    apply andb_true_iff in Hgate as [-> Htoken].
    apply negb_true_iff in Hdry, Htoken. repeat split; try done.
    destruct (classify_and_plan_quiet W command _ _ _ Hplan) as (evs & -> & Hquiet).
    simpl. by rewrite tool_calls_app, (tool_calls_quiet evs), app_nil_r.
  - destruct (run_steps W dry_run _ 1 steps [] st1) as [[results|] st2]; [|done].
    by destruct (summarize W results).
Qed.

Lemma awaiting_only_when_unconfirmed_witness :
  let run := execute (Scenario.planning Scenario.risky_plan)
               "create a task to call the supplier" "alice" false None Sys.init in
  token_given None = false ∧
  confirm_needed (Scenario.items Scenario.risky_plan) = Ok true ∧
  tool_calls (trace (snd run)) = [].
Proof.
  intros run.
  destruct (awaiting_only_when_unconfirmed (Scenario.planning Scenario.risky_plan)
              "create a task to call the supplier" "alice" false None Sys.init
              "0b7e6c1e-correlation" (Scenario.items Scenario.risky_plan) (snd run)
              eq_refl) as (_ & Htoken & Hneeded & _ & _ & Hcalls).
  by repeat split.
Defined.

(** *** one outcome per step *)

Lemma run_step_outcome W dry_run idem idx step st o st' :
  run_step W dry_run idem idx step st = (Ok o, st') →
  step_of o = idx ∧ py_get "tool" step = Ok (tool_of o) ∧
  (dry_run = false → is_result o).
Proof.
  unfold run_step, bind, lift, ret.
  destruct (py_get "tool" step) as [tool|]; [|done].
  destruct (step_args step) as [args|]; [|done].
  destruct (if dry_run then _ else _) as [[[|]|] st1] eqn:Hskip; [| |done].
  - intros [= <- <-]. repeat split. intros ->. by injection Hskip.
  - destruct (dispatch W tool args idem st1) as [[res|] st2]; [|done].
    by intros [= <- <-].
Qed.

Lemma run_steps_outcomes W dry_run idem steps : ∀ idx acc st results st',
  run_steps W dry_run idem idx steps acc st = (Ok results, st') →
  ∃ outs, results = acc ++ outs ∧
    map step_of outs = numbered_from idx (length steps) ∧
    Forall2 (fun s o => py_get "tool" s = Ok (tool_of o)) steps outs ∧
    (dry_run = false → Forall is_result outs).
Proof.
  induction steps as [|step rest IH]; intros idx acc st results st'; simpl.
  - intros [= <- <-]. exists []. rewrite app_nil_r. by repeat split.
  - unfold bind at 1.
    destruct (run_step W dry_run idem idx step st) as [[o|] st1] eqn:Hstep; [|done].
    intros Hrest. apply IH in Hrest as (outs & -> & Hpos & Htools & Hres).
    apply run_step_outcome in Hstep as (Hidx & Htool & Hresult).
    exists (o :: outs). rewrite <- app_assoc. split; [done|]. split; [|split].
    + unfold numbered_from in *. simpl. rewrite Hidx, Hpos, <- seq_shift, map_map.
      f_equal; [lia|]. apply map_ext. intros i. lia.
    + by constructor.
    + intros Hdry. constructor; auto.
Qed.

(** X6: When [execute] completes, it has recorded one outcome for each of
    the steps it went through, the first eight of the plan at most, at the
    positions 1, 2, ... in order and under the tool of the step; outside a
    dry run no step is skipped. *)
Theorem execute_outcomes W command user dry_run token st cid plan results summary st' :
  execute W command user dry_run token st
    = (Ok (Completed cid plan results summary), st') →
  ∃ steps,
    dict_get "steps" plan = Some (PList steps) ∧
    length results = Nat.min 8 (length steps) ∧
    map step_of results = numbered_from 1 (length results) ∧
    Forall2 (fun s o => py_get "tool" s = Ok (tool_of o)) (take 8 steps) results ∧
    (dry_run = false → Forall is_result results).
Proof.
  rewrite execute_unfold.
  destruct (classify_and_plan W command (started st)) as [[p|] st1] eqn:Hplan; [|done].
  pose proof (classify_and_plan_well_formed _ _ _ _ _ Hplan) as Hwf.
  apply first8_well_formed in Hwf as (steps & Hsteps & _ & ->).
  destruct (confirm_needed p) as [needed|]; [|done].
  destruct (needed && _ && _); [done|].
  destruct (run_steps W dry_run _ 1 (take 8 steps) [] st1) as [[rs|] st2] eqn:Hrun;
    [|done].
  destruct (summarize W rs); [|done]. intros [= <- <- <- <- <-].
  apply run_steps_outcomes in Hrun as (outs & -> & Hpos & Htools & Hres).
  exists steps. simpl.
  assert (length outs = length (take 8 steps)) as Hlen.
  { by rewrite <- (Forall2_length _ _ _ Htools). }
  rewrite Hlen, length_take. repeat split; try done.
  by rewrite <- length_take.
Qed.

Lemma execute_outcomes_witness :
  let plan := Scenario.items Scenario.rockets_plan in
  let run := execute (Scenario.planning Scenario.rockets_plan)
               "please launch the rockets" "alice" false None Sys.init in
  ∃ results,
    fst run = Ok (Completed (Some "0b7e6c1e-correlation") plan results None) ∧
    length results = 8%nat ∧
    map step_of results = [1; 2; 3; 4; 5; 6; 7; 8].
Proof.
  intros plan run.
  set (results := map (fun i => StepResult i (PStr "launch_rockets")
                          (PDict [("error", PStr "unknown tool launch_rockets")]))
                      [1; 2; 3; 4; 5; 6; 7; 8]).
  destruct (execute_outcomes (Scenario.planning Scenario.rockets_plan)
              "please launch the rockets" "alice" false None Sys.init
              (Some "0b7e6c1e-correlation") plan results None (snd run) eq_refl)
    as (steps & Hsteps & Hlen & Hpos & _).
  exists results. split; [reflexivity|]. split; [reflexivity|]. exact Hpos.
Defined.

End EngineMore.

(* ===================================================================== *)
(** ** agent.py: the calls of a command *)
(* ===================================================================== *)

Module EngineCalls.
Import Spec Terms Calls Sys SysFacts Agent PlannerFacts EngineFacts.


Lemma eq_str_true v s : eq_str v s = true → v = PStr s.
Proof.
  destruct v as [| | | |s'| |]; try done. simpl.
  by intros ->%String.eqb_eq.
Qed.

Lemma known_names name :
  name ∈ KNOWN_TOOLS →
  name ∈ KEYED_TOOLS ∨ name ∈ READ_ONLY_TOOLS ∨ name = "enqueue_background_job".
Proof.
  unfold KNOWN_TOOLS, READ_ONLY_TOOLS, KEYED_TOOLS.
  rewrite !elem_of_union, !elem_of_singleton, !elem_of_cons, elem_of_nil. tauto.
Qed.

Lemma known_tools_list name :
  name ∈ ["create_doctype"; "update_doctype"; "create_workflow";
          "create_query_report"; "create_script_report"; "run_report"; "run_sql";
          "get_sales_stats"; "get_purchase_stats"; "get_inventory_snapshot";
          "create_task"; "enqueue_background_job"] →
  name ∈ KNOWN_TOOLS.
Proof.
  unfold KNOWN_TOOLS.
  rewrite !elem_of_cons, elem_of_nil, !elem_of_union, !elem_of_singleton. tauto.
Qed.

Lemma read_only_not_keyed name : name ∈ READ_ONLY_TOOLS → name ∉ KEYED_TOOLS.
Proof.
  intros Hro%read_only_names.
  destruct Hro as [->|[->|[->|[->| ->]]]];
    apply (bool_decide_unpack _); by vm_compute.
Qed.

Lemma enqueue_not_keyed : "enqueue_background_job" ∉ KEYED_TOOLS.
Proof. apply (bool_decide_unpack _). by vm_compute. Qed.

Lemma dispatch_unknown W tool args idem st :
  (∀ name, tool = PStr name → name ∉ KNOWN_TOOLS) →
  dispatch W tool args idem st = (Ok (unknown_tool W tool), st).
Proof.
  intros Hun. unfold dispatch.
  repeat match goal with
  | |- context [eq_str tool ?n] =>
      let H := fresh in
      destruct (eq_str tool n) eqn:H;
      [ apply eq_str_true in H; exfalso; apply (Hun _ H);
        apply known_tools_list, (bool_decide_unpack _); by vm_compute |]
  end.
  done.
Qed.

(** the dispatch calls one function, the one the step names, or none *)
Lemma dispatch_calls W tool args idem st r st' :
  dispatch W tool args idem st = (r, st') →
  trace st' = trace st ∨
  ∃ e, trace st' = trace st ++ [e] ∧ one_call idem tool args e.
Proof.
  assert ((∃ name, tool = PStr name ∧ name ∈ KNOWN_TOOLS) ∨
          (∀ name, tool = PStr name → name ∉ KNOWN_TOOLS)) as [(name & -> & Hk)|Hun].
  { destruct tool as [| | | |name| |];
      try (right; intros name' Hname; discriminate Hname).
    destruct (decide (name ∈ KNOWN_TOOLS)) as [Hin|Hout]; [left; eauto|right].
    intros name' [= <-]. exact Hout. }
  2: { rewrite dispatch_unknown by done. intros [= <- <-]. by left. }
  destruct (known_names _ Hk) as [Hkeyed|[Hro| ->]].
  - rewrite dispatch_keyed by done.
    destruct (kwargs_of args _) as [kw|] eqn:Ekw; intros [= <- <-]; [|by left].
    right. eexists. split; [reflexivity|]. exists name, kw.
    rewrite bool_decide_eq_true_2 by exact Hkeyed.
    split; [reflexivity|]. split; [reflexivity|]. split; [exact Hk|exact Ekw].
  - rewrite dispatch_read_only by done.
    destruct (kwargs_of args _) as [kw|] eqn:Ekw; intros [= <- <-]; [|by left].
    right. eexists. split; [reflexivity|]. exists name, kw.
    rewrite bool_decide_eq_false_2 by (by apply read_only_not_keyed).
    split; [reflexivity|]. split; [reflexivity|]. split; [exact Hk|exact Ekw].
  - rewrite dispatch_enqueue.
    destruct (kwargs_of args _) as [kw|] eqn:Ekw; intros [= <- <-]; [|by left].
    right. eexists. split; [reflexivity|]. exists "enqueue_background_job", kw.
    rewrite bool_decide_eq_false_2 by exact enqueue_not_keyed.
    split; [reflexivity|]. split; [reflexivity|]. split; [exact Hk|exact Ekw].
Qed.

Lemma run_step_calls W dry_run idem idx step st r st' :
  run_step W dry_run idem idx step st = (r, st') →
  trace st' = trace st ∨
  ∃ e tool args, trace st' = trace st ++ [e] ∧ one_call idem tool args e ∧
                 py_get "tool" step = Ok tool ∧ step_args step = Ok args.
Proof.
  unfold run_step, bind, lift, ret.
  destruct (py_get "tool" step) as [tool|]; [|intros [= <- <-]; by left].
  destruct (step_args step) as [args|]; [|intros [= <- <-]; by left].
  destruct (if dry_run then _ else _) as [skip st1] eqn:Hskip.
  assert (st1 = st) as ->.
  { destruct dry_run; [|by simplify_eq].
    destruct (in_read_only tool); by simplify_eq. }
  destruct skip as [[|]|]; try (intros [= <- <-]; by left).
  destruct (dispatch W tool args idem st) as [[res|] st2] eqn:Hd;
    intros [= <- <-]; apply dispatch_calls in Hd as [->|(ev & -> & Hone)];
    eauto 10.
Qed.

Lemma run_steps_calls W dry_run idem steps : ∀ idx acc st r st',
  run_steps W dry_run idem idx steps acc st = (r, st') →
  ∃ evs, trace st' = trace st ++ evs ∧ (length evs ≤ length steps)%nat ∧
         Forall (fun e => ∃ tool args, one_call idem tool args e) evs.
Proof.
  induction steps as [|step rest IH]; intros idx acc st r st'; simpl.
  - intros [= <- <-]. exists []. by rewrite app_nil_r.
  - unfold bind at 1.
    destruct (run_step W dry_run idem idx step st) as [[o|] st1] eqn:Hstep.
    + intros Hrest. apply IH in Hrest as (evs & Ht & Hlen & Hall).
      apply run_step_calls in Hstep as [Hst|(e & tool & args & Hst & Hone & _)];
        rewrite Hst in Ht.
      * exists evs. repeat split; [done | lia | done].
      * exists (e :: evs). rewrite <- app_assoc in Ht.
        repeat split; [done | simpl; lia |]. constructor; eauto.
    + intros [= <- <-].
      apply run_step_calls in Hstep as [->|(ev & tool & args & -> & Hone & _)].
      * exists []. rewrite app_nil_r. repeat split; [simpl; lia | done].
      * exists [ev]. repeat split; [simpl; lia |]. constructor; eauto.
Qed.

(** where a command spends its events: planning, then the steps *)
Lemma execute_trace W command user dry_run token st r st' :
  execute W command user dry_run token st = (r, st') →
  ∃ quiet_evs evs,
    trace st' = trace st ++ quiet_evs ++ evs ∧
    Forall quiet quiet_evs ∧ (length evs ≤ 8)%nat ∧
    Forall (fun e => ∃ tool args,
              one_call (uuid4_at W (S (uuids st))) tool args e) evs.
Proof.
  rewrite execute_unfold.
  destruct (classify_and_plan W command (started st)) as [[p|] st1] eqn:Hplan;
    destruct (classify_and_plan_quiet W command _ _ _ Hplan) as (qs & Hq & Hquiet);
    simpl in Hq.
  2: { intros [= <- <-]. exists qs, []. rewrite app_nil_r.
       repeat split; [done | done | simpl; lia | done]. }
  pose proof (classify_and_plan_well_formed _ _ _ _ _ Hplan) as Hwf.
  apply first8_well_formed in Hwf as (steps & Hsteps & _ & ->).
  assert (∃ quiet_evs evs, trace st1 = trace st ++ quiet_evs ++ evs ∧
            Forall quiet quiet_evs ∧ (length evs ≤ 8)%nat ∧
            Forall (fun e => ∃ tool args,
                      one_call (uuid4_at W (S (uuids st))) tool args e) evs) as Hnone.
  { exists qs, []. rewrite app_nil_r. repeat split; [done | done | simpl; lia | done]. }
  destruct (confirm_needed p) as [needed|]; [|by intros [= <- <-]].
  destruct (needed && _ && _); [by intros [= <- <-]|].
  destruct (run_steps W dry_run _ 1 (take 8 steps) [] st1) as [[rs|] st2] eqn:Hrun;
    apply run_steps_calls in Hrun as (evs & Ht & Hlen & Hall);
    rewrite length_take in Hlen;
    (assert (trace st2 = trace st ++ qs ++ evs) as Ht2
      by (by rewrite Ht, Hq, <- app_assoc)).
  - destruct (summarize W rs); intros [= <- <-];
      exists qs, evs; repeat split; try done; lia.
  - intros [= <- <-]. exists qs, evs. repeat split; try done. lia.
Qed.

Lemma dict_get_app_new k v kvs :
  contains k kvs = false → dict_get k (kvs ++ [(k, v)]) = Some v.
Proof.
  unfold contains. induction kvs as [|[k' v'] rest IH]; simpl.
  - by rewrite String.eqb_refl.
  - destruct (String.eqb k' k); [done|apply IH].
Qed.

(** X7: Every tool call [execute] makes names a tool of its dispatch
    chain, and every call of a creating or updating tool
    ([create_doctype], [update_doctype], [create_workflow],
    [create_query_report], [create_script_report], [create_task])
    carries as [idempotency_key] the one token of the command, the
    second identifier [execute] draws. *)
Theorem keyed_calls_carry_the_token W command user dry_run token st r st' :
  execute W command user dry_run token st = (r, st') →
  ∃ evs, trace st' = trace st ++ evs ∧
    Forall (carries_token (uuid4_at W (S (uuids st)))) evs ∧
    Forall (fun e => match e with
                     | EvTool c => tc_tool c ∈ KNOWN_TOOLS
                     | _ => True
                     end) evs.
Proof.
  intros Hrun.
  apply execute_trace in Hrun as (qs & evs & -> & Hquiet & _ & Hall).
  exists (qs ++ evs). split; [done|]. split; apply Forall_app; split.
  - eapply Forall_impl; [done|]. by intros [].
  - eapply Forall_impl; [done|]. simpl.
    intros e (tool & args & name & kw & -> & -> & Hknown & Hkw). simpl.
    intros Hkeyed. rewrite bool_decide_eq_true_2 in Hkw by done.
    destruct args as [| | | | | |kvs]; try discriminate Hkw. simpl in Hkw.
    destruct (contains "idempotency_key" kvs) eqn:Ec; [done|].
    injection Hkw as <-. by apply dict_get_app_new.
  - eapply Forall_impl; [done|]. by intros [].
  - eapply Forall_impl; [done|]. simpl.
    by intros e (tool & args & name & kw & -> & -> & Hknown & Hkw).
Qed.

Lemma keyed_calls_carry_the_token_witness :
  let run := execute (Scenario.planning Scenario.jobs_plan)
               "rebuild the search index in the background" "alice" false None
               Sys.init in
  ∃ evs, trace (snd run) = trace Sys.init ++ evs ∧
    Forall (carries_token "5f0d2a9c-idempotency") evs.
Proof.
  intros run.
  destruct (keyed_calls_carry_the_token (Scenario.planning Scenario.jobs_plan)
              "rebuild the search index in the background" "alice" false None
              Sys.init (fst run) (snd run) (surjective_pairing run))
    as (evs & Ht & Hall & _).
  by exists evs.
Defined.

End EngineCalls.

(* ===================================================================== *)
(** ** agent.py: the steps of a plan, from the planner to the engine *)
(* ===================================================================== *)

Module EngineSteps.
Import Spec Terms Calls Sys SysFacts Agent PlannerFacts EngineFacts EngineMore EngineCalls.

(** C5, as stated, fails: a model plan of nine steps for a tool that
    does not exist keeps its nine steps through normalization, and their
    tool is not one the engine knows. *)
Lemma unknown_tool_survives_counterexample :
  let W := Scenario.planning Scenario.rockets_plan in
  ∃ plan st',
    classify_and_plan W "please launch the rockets" Sys.init = (Ok plan, st') ∧
    get "steps" plan = PList (replicate 9 (Scenario.step "launch_rockets" [])) ∧
    ¬ (length (replicate 9 (Scenario.step "launch_rockets" [])) ≤ 8)%nat ∧
    "launch_rockets" ∉ KNOWN_TOOLS.
Proof.
  intros W. eexists _, _. split; [by vm_compute|]. split; [done|].
  split; [simpl; lia|]. unfold KNOWN_TOOLS.
  rewrite !not_elem_of_union, !not_elem_of_singleton. by repeat split.
Qed.

(** the calls of the loop, each for one of the steps *)
Lemma run_steps_calls_of W dry_run idem steps : ∀ idx acc st r st',
  run_steps W dry_run idem idx steps acc st = (r, st') →
  ∃ evs, trace st' = trace st ++ evs ∧ (length evs ≤ length steps)%nat ∧
    Forall (fun e => ∃ step tool args,
              step ∈ steps ∧ py_get "tool" step = Ok tool ∧
              step_args step = Ok args ∧ one_call idem tool args e) evs.
Proof.
  induction steps as [|step rest IH]; intros idx acc st r st'; simpl.
  - intros [= <- <-]. exists []. by rewrite app_nil_r.
  - unfold bind at 1.
    destruct (run_step W dry_run idem idx step st) as [[o|] st1] eqn:Hstep.
    + intros Hrest. apply IH in Hrest as (evs & Ht & Hlen & Hall).
      assert (Forall (fun e => ∃ step0 tool args,
                step0 ∈ step :: rest ∧ py_get "tool" step0 = Ok tool ∧
                step_args step0 = Ok args ∧ one_call idem tool args e) evs) as Hall'.
      { eapply Forall_impl; [exact Hall|]. simpl.
        intros e (s0 & tool & args & Hin & ?). exists s0, tool, args.
        split; [by right|done]. }
      apply run_step_calls in Hstep as [Hst|(e & tool & args & Hst & Hone & Htool & Hargs)];
        rewrite Hst in Ht.
      * exists evs. repeat split; [done | lia | done].
      * exists (e :: evs). rewrite <- app_assoc in Ht.
        repeat split; [done | simpl; lia |]. constructor; [|done].
        exists step, tool, args. split; [by left|done].
    + intros [= <- <-].
      apply run_step_calls in Hstep
        as [->|(ev & tool & args & -> & Hone & Htool & Hargs)].
      * exists []. rewrite app_nil_r. repeat split; [simpl; lia | done].
      * exists [ev]. repeat split; [simpl; lia |]. constructor; [|done].
        exists step, tool, args. split; [by left|done].
Qed.

(** C5 (amended): the steps of the plan of a command are a list of
    objects [{tool, args}] whose tool counts as true (for a string: is
    not empty).  The plan is a fast-path plan, or the completion client
    has answered and the plan is the fallback or the parsed answer; for
    a parsed answer the steps are the normalized items that were
    objects with such a tool, in order, so that an item without a tool
    is dropped.  [execute] goes through the first eight steps at most:
    whatever it returns or raises, each of its tool calls, eight at
    most, is the call for one of these eight steps, and when it
    completes its outcomes are theirs, one each; so a dropped item, or a
    step after the eighth, never reaches the engine.  Neither the number
    of steps of the plan itself nor the name of the tool is checked. *)
Theorem normalized_plan_steps W command st plan st1 :
  classify_and_plan W command (started st) = (Ok plan, st1) →
  ∃ steps,
    dict_get "steps" plan = Some (PList steps) ∧
    Forall normal_step steps ∧
    (_fastpath W command = Some plan ∨
     ∃ raw,
       LLM.complete W LLM.PLANNER_SYSTEM command false (started st) = (Ok raw, st1) ∧
       (plan = fallback_plan W ∨
        ∃ text kvs items,
          raw = LLM.CText (Some text) ∧
          json_loads W text = Ok (PDict kvs) ∧
          iterate (get "steps" kvs) = Ok items ∧
          Forall2 same_tool (List.filter keep_step items) steps)) ∧
    ∀ user dry_run token r st',
      execute W command user dry_run token st = (r, st') →
      ∃ evs,
        trace st' = trace st1 ++ evs ∧
        (length evs ≤ 8)%nat ∧
        Forall (fun e => ∃ step tool args,
                  step ∈ take 8 steps ∧ py_get "tool" step = Ok tool ∧
                  step_args step = Ok args ∧
                  one_call (uuid4_at W (S (uuids st))) tool args e) evs ∧
        ∀ cid p results summary,
          r = Ok (Completed cid p results summary) →
          p = plan ∧
          Forall2 (fun s o => py_get "tool" s = Ok (tool_of o)) (take 8 steps) results.
Proof.
  intros Hplan.
  pose proof (classify_and_plan_well_formed _ _ _ _ _ Hplan) as Hwf.
  apply first8_well_formed in Hwf as (steps & Hsteps & Hnormal & Hfirst).
  exists steps. split; [exact Hsteps|]. split; [exact Hnormal|]. split.
  { pose proof Hplan as Hcases.
    apply classify_and_plan_cases in Hcases
      as [[Hfast _]|(_ & raw & Hraw & [Hp|[_ ->]])].
    - by left.
    - right. exists raw. split; [exact Hraw|]. right.
      apply parse_plan_shape in Hp
        as (text & kvs & items & steps' & -> & Hload & Hit & Hsteps' & _ & Hsame).
      rewrite Hsteps in Hsteps'. injection Hsteps' as <-.
      by exists text, kvs, items.
    - right. exists raw. split; [exact Hraw|]. by left. }
  intros user dry_run token r st'. rewrite execute_unfold, Hplan, Hfirst.
  assert (Hnone : ∃ evs, trace st1 = trace st1 ++ evs ∧ (length evs ≤ 8)%nat ∧
            Forall (fun e => ∃ step tool args,
                      step ∈ take 8 steps ∧ py_get "tool" step = Ok tool ∧
                      step_args step = Ok args ∧
                      one_call (uuid4_at W (S (uuids st))) tool args e) evs).
  { exists []. rewrite app_nil_r. repeat split; [simpl; lia|done]. }
  destruct (confirm_needed plan) as [needed|].
  2: { intros [= <- <-]. destruct Hnone as (evs & ? & ? & ?).
       exists evs. by repeat split. }
  destruct (needed && _ && _).
  { intros [= <- <-]. destruct Hnone as (evs & ? & ? & ?).
    exists evs. by repeat split. }
  destruct (run_steps W dry_run _ 1 (take 8 steps) [] st1) as [[rs|] st2] eqn:Hrun;
    pose proof Hrun as Hcalls;
    apply run_steps_calls_of in Hcalls as (evs & Ht & Hlen & Hall);
    rewrite length_take in Hlen.
  - apply run_steps_outcomes in Hrun as (outs & -> & _ & Htools & _).
    destruct (summarize W _); intros [= <- <-]; exists evs;
      (split; [exact Ht|]); (split; [lia|]); (split; [exact Hall|]);
      intros cid p results summary; [|done].
    by intros [= <- <- <- <-].
  - intros [= <- <-]. exists evs. repeat split; [done | lia | done | done..].
Qed.

Lemma normalized_plan_steps_witness :
  let W := Scenario.planning Scenario.ragged_plan in
  let plan := [("steps", PList [Scenario.step "get_purchase_stats"
                                  [("by", PStr "month");
                                   ("from_date", PStr "2023-04-01");
                                   ("to_date", PStr "2024-03-15")]])] in
  let run := execute W "what did we buy" "alice" false None Sys.init in
  fst (classify_and_plan W "what did we buy" (started Sys.init)) = Ok plan ∧
  ∃ steps evs,
    dict_get "steps" plan = Some (PList steps) ∧
    Forall normal_step steps ∧
    trace (snd run) =
      trace (snd (classify_and_plan W "what did we buy" (started Sys.init))) ++ evs ∧
    (length evs ≤ 8)%nat.
Proof.
  intros W plan run. split; [reflexivity|].
  destruct (normalized_plan_steps W "what did we buy" Sys.init plan
              (snd (classify_and_plan W "what did we buy" (started Sys.init)))
              eq_refl)
    as (steps & Hsteps & Hnormal & _ & Hrun).
  destruct (Hrun "alice" false None (fst run) (snd run) (surjective_pairing run))
    as (evs & Ht & Hlen & _).
  exists steps, evs.
  split; [exact Hsteps|]. split; [exact Hnormal|]. split; [exact Ht|exact Hlen].
Defined.

End EngineSteps.

(* ===================================================================== *)
(** ** agent.py: dates, normalization and the fast paths, further *)
(* ===================================================================== *)

Module PlannerMore.
Import Spec Terms Calls Sys SysFacts Agent PlannerFacts EngineFacts EngineCalls.

(** X8: [_add_months] builds its result with [date(y, m, min(d.day, 28))],
    which raises unless the year [y] is one of 1..9999.  Where it
    returns, from a date [d] and for an offset forwards or backwards,
    the result is a date, as many months away as asked, and its day is
    the day of [d], 28 at most; and a second shift that returns gives
    what one shift by the sum gives. *)
Theorem add_months_exact d months :
  let r := _add_months d months in
  Dates.is_date d →
  1 <= Dates.year r <= 9999 →
  Dates.is_date r ∧
  12 * Dates.year r + Dates.month r = 12 * Dates.year d + Dates.month d + months ∧
  Dates.day r = Z.min (Dates.day d) 28 ∧
  ∀ more, 1 <= Dates.year (_add_months r more) <= 9999 →
          _add_months r more = _add_months d (months + more).
Proof.
  unfold _add_months, Dates.is_date, Dates.valid_ym.
  cbn [Dates.year Dates.month Dates.day].
  intros (_ & Hday & _) Hyear.
  split; [split; [split; [done|]|split; [lia|]]|split; [|split; [done|]]].
  - Z.div_mod_to_equations. lia.
  - unfold Dates.days_in_month. repeat case_match; lia.
  - Z.div_mod_to_equations. lia.
  - intros more _. f_equal; [| |lia]; Z.div_mod_to_equations; lia.
Qed.

Lemma add_months_exact_witness :
  _add_months (Dates.mkdate 2024 3 31) (-1) = Dates.mkdate 2024 2 28 ∧
  Dates.is_date (_add_months (Dates.mkdate 2024 3 31) (-1)) ∧
  _add_months (_add_months (Dates.mkdate 2024 3 31) (-1)) (-11)
    = _add_months (Dates.mkdate 2024 3 31) (-12).
Proof.
  assert (Hd : Dates.is_date (Dates.mkdate 2024 3 31)).
  { repeat split; by vm_compute. }
  assert (Hy : 1 <= Dates.year (_add_months (Dates.mkdate 2024 3 31) (-1)) <= 9999).
  { split; by vm_compute. }
  destruct (add_months_exact (Dates.mkdate 2024 3 31) (-1) Hd Hy) as (Hr & _ & _ & Hsum).
  split; [reflexivity|]. split; [exact Hr|].
  apply (Hsum (-11)). split; by vm_compute.
Defined.

Lemma setdefault_get k0 v a k :
  dict_get k (setdefault k0 v a) =
    match dict_get k a with
    | Some x => Some x
    | None => if String.eqb k0 k then Some v else None
    end.
Proof.
  unfold setdefault, contains.
  destruct (dict_get k0 a) as [x0|] eqn:E0.
  - destruct (dict_get k a) eqn:E; [done|].
    destruct (String.eqb k0 k) eqn:Ek; [|done].
    apply String.eqb_eq in Ek. congruence.
  - destruct (String.eqb k0 k) eqn:Ek.
    + apply String.eqb_eq in Ek. subst k. by rewrite dict_get_set_eq, E0.
    + rewrite dict_get_set_ne; [by destruct (dict_get k a)|].
      intros ->. by rewrite String.eqb_refl in Ek.
Qed.

Lemma window_defaults_get f t a args' :
  window_defaults f t a = Ok args' →
  ∃ kvs kvs', a = PDict kvs ∧ args' = PDict kvs' ∧
    ∀ k, dict_get k kvs' = merged kvs (WINDOW_DEFAULTS f t) k.
Proof.
  destruct a as [| | | | | |kvs]; try done.
  unfold window_defaults. simpl. intros [= <-].
  eexists _, _. split; [done|]. split; [done|]. intros k.
  rewrite !setdefault_get. unfold merged, WINDOW_DEFAULTS. cbn [dict_get].
  destruct (dict_get k kvs); [done|].
  destruct (String.eqb "by" k); [done|].
  destruct (String.eqb "from_date" k); [done|].
  by destruct (String.eqb "to_date" k).
Qed.

Lemma window_defaults_fixed f t f' t' a args' :
  window_defaults f t a = Ok args' → window_defaults f' t' args' = Ok args'.
Proof.
  destruct a as [| | | | | |kvs]; try done.
  unfold window_defaults. simpl. intros [= <-].
  set (a3 := setdefault "to_date" (PStr t) _). simpl.
  assert (∀ k, k ∈ ["by"; "from_date"; "to_date"] → contains k a3 = true) as Hin.
  { intros k Hk. unfold contains, a3. rewrite !setdefault_get.
    destruct (dict_get k kvs); [done|].
    rewrite !elem_of_cons, elem_of_nil in Hk.
    by destruct Hk as [->|[->|[->|[]]]]. }
  unfold setdefault at 3. rewrite Hin by (rewrite !elem_of_cons; tauto).
  unfold setdefault at 2. rewrite Hin by (rewrite !elem_of_cons; tauto).
  unfold setdefault at 1. rewrite Hin by (rewrite !elem_of_cons; tauto).
  done.
Qed.

(** the arguments the normalization starts from: [s.get("args") or {}] *)
Lemma copy_args_value a args : copy_args a = Ok args → args = py_or a (PDict []).
Proof. unfold copy_args. by destruct (py_or a (PDict [])); intros [= <-]. Qed.

(** X9: Normalization only adds what the model left out.  The normalized
    step names the tool of the item; for [get_sales_stats] and
    [get_purchase_stats] its arguments are those of the model, each with
    the value the model gave, completed by [by = "month"] and the default
    window for the keys the model did not give; for any other tool they
    are the arguments of the model, unchanged. *)
Theorem normalization_fills_defaults f t kvs s' :
  normalize_step f t (PDict kvs) = Ok s' →
  ∃ args', s' = PDict [("tool", get "tool" kvs); ("args", args')] ∧
    if windowed (get "tool" kvs) then
      ∃ a a', py_or (get "args" kvs) (PDict []) = PDict a ∧ args' = PDict a' ∧
        ∀ k, dict_get k a' = merged a (WINDOW_DEFAULTS f t) k
    else args' = py_or (get "args" kvs) (PDict []).
Proof.
  unfold normalize_step, windowed. simpl.
  destruct (copy_args (get "args" kvs)) as [args|] eqn:Ecopy; [simpl|done].
  apply copy_args_value in Ecopy. rewrite <- Ecopy.
  destruct (eq_str (get "tool" kvs) "get_sales_stats") eqn:Es.
  - assert (eq_str (get "tool" kvs) "get_purchase_stats" = false) as ->.
    { apply eq_str_true in Es. by rewrite Es. }
    destruct (window_defaults f t args) as [args1|] eqn:Ew; [simpl|done].
    intros [= <-]. eexists. split; [done|]. simpl.
    apply window_defaults_get in Ew as (a & a' & -> & -> & Hget). eauto.
  - simpl. destruct (eq_str (get "tool" kvs) "get_purchase_stats").
    + destruct (window_defaults f t args) as [args1|] eqn:Ew; [simpl|done].
      intros [= <-]. eexists. split; [done|].
      apply window_defaults_get in Ew as (a & a' & -> & -> & Hget). eauto.
    + intros [= <-]. eauto.
Qed.

Lemma normalization_fills_defaults_witness :
  ∃ args',
    PDict [("tool", PStr "get_purchase_stats");
           ("args", PDict [("by", PStr "supplier"); ("from_date", PStr "2024-01-01");
                           ("to_date", PStr "2024-03-15")])]
      = PDict [("tool", PStr "get_purchase_stats"); ("args", args')].
Proof.
  destruct (normalization_fills_defaults "2024-01-01" "2024-03-15"
              [("tool", PStr "get_purchase_stats");
               ("args", PDict [("by", PStr "supplier")])] _ eq_refl)
    as (args' & Hs & _).
  by exists args'.
Defined.

Lemma py_or_fixed a : py_or (py_or a (PDict [])) (PDict []) = py_or a (PDict []).
Proof. unfold py_or. destruct (truthy a) eqn:E; [by rewrite E|done]. Qed.

Lemma normalize_step_pair f t tool args :
  normalize_step f t (PDict [("tool", tool); ("args", args)]) =
    rbind (copy_args args) (fun args =>
    rbind (if eq_str tool "get_sales_stats" then window_defaults f t args else Ok args)
      (fun args =>
    rbind (if eq_str tool "get_purchase_stats" then window_defaults f t args else Ok args)
      (fun args => Ok (PDict [("tool", tool); ("args", args)])))).
Proof. reflexivity. Qed.

Lemma setdefault_truthy k v kvs : truthy (PDict (setdefault k v kvs)) = true.
Proof.
  unfold setdefault, contains. destruct kvs as [|[k' v'] rest]; [done|]. simpl.
  destruct (String.eqb k' k); [done|]. by destruct (dict_get k rest).
Qed.

Lemma copy_args_window f t args args1 :
  window_defaults f t args = Ok args1 → copy_args args1 = Ok args1.
Proof.
  destruct args as [| | | | | |a]; try done.
  unfold window_defaults. simpl. intros [= <-].
  unfold copy_args, py_or. by rewrite setdefault_truthy.
Qed.

Lemma normalize_step_fixed f t f' t' s s' :
  normalize_step f t s = Ok s' → normalize_step f' t' s' = Ok s'.
Proof.
  destruct s as [| | | | | |kvs]; try done.
  unfold normalize_step at 1. cbn [py_get rbind].
  generalize (get "tool" kvs) as tool. generalize (get "args" kvs) as a0.
  intros a0 tool.
  destruct (copy_args a0) as [args|] eqn:Ecopy; [cbn [rbind]|done].
  assert (copy_args args = Ok args) as Hargs.
  { pose proof (copy_args_value _ _ Ecopy) as ->. unfold copy_args in *.
    rewrite py_or_fixed. by destruct (py_or _ _). }
  destruct (eq_str tool "get_sales_stats") eqn:Es.
  - assert (eq_str tool "get_purchase_stats" = false) as Ep.
    { apply eq_str_true in Es. by rewrite Es. }
    rewrite Ep.
    destruct (window_defaults f t args) as [args1|] eqn:Ew; [cbn [rbind]|done].
    intros [= <-]. rewrite normalize_step_pair, Es, Ep.
    rewrite (copy_args_window _ _ _ _ Ew). cbn [rbind].
    by rewrite (window_defaults_fixed _ _ f' t' _ _ Ew).
  - cbn [rbind]. destruct (eq_str tool "get_purchase_stats") eqn:Ep.
    + destruct (window_defaults f t args) as [args1|] eqn:Ew; [cbn [rbind]|done].
      intros [= <-]. rewrite normalize_step_pair, Es, Ep.
      rewrite (copy_args_window _ _ _ _ Ew). cbn [rbind].
      by rewrite (window_defaults_fixed _ _ f' t' _ _ Ew).
    + intros [= <-]. by rewrite normalize_step_pair, Es, Ep, Hargs.
Qed.

Lemma normalize_loop_steps f t steps : ∀ acc r,
  normalize_loop f t steps acc = Ok r →
  ∃ norm, r = acc ++ norm ∧ Forall2 (fun s s' => normalize_step f t s = Ok s') steps norm.
Proof.
  induction steps as [|s rest IH]; intros acc r; simpl.
  - intros [= <-]. exists []. by rewrite app_nil_r.
  - destruct (normalize_step f t s) as [s'|] eqn:Es; [simpl|done].
    intros (norm & -> & Hall)%IH. exists (s' :: norm).
    rewrite <- app_assoc. split; [done|]. by constructor.
Qed.

Lemma normalize_loop_fixed f t norm : ∀ acc,
  Forall (fun s => normalize_step f t s = Ok s) norm →
  normalize_loop f t norm acc = Ok (acc ++ norm).
Proof.
  induction norm as [|s rest IH]; intros acc Hall; simpl.
  - by rewrite app_nil_r.
  - inversion Hall as [|? ? Hs Hrest]; subst. rewrite Hs. simpl.
    rewrite IH by done. by rewrite <- app_assoc.
Qed.

(** X10: Normalization is idempotent, and does not depend on the day it runs
    again: steps that [_normalize_steps] returned are returned unchanged
    by [_normalize_steps], in any world. *)
Theorem normalization_is_idempotent W W' steps norm :
  _normalize_steps W steps = Ok norm → _normalize_steps W' norm = Ok norm.
Proof.
  unfold _normalize_steps.
  destruct (_last_n_month_range W 12) as [f t].
  destruct (_last_n_month_range W' 12) as [f' t'].
  intros (norm' & -> & Hall)%normalize_loop_steps. simpl.
  apply (normalize_loop_fixed f' t' norm' []).
  induction Hall as [|s s' ? ? Hs _ IH]; constructor; [|done].
  by eapply normalize_step_fixed.
Qed.

Lemma normalization_is_idempotent_witness :
  _normalize_steps Scenario.at_50s
    [PDict [("tool", PStr "get_purchase_stats");
            ("args", PDict [("by", PStr "supplier"); ("from_date", PStr "2023-04-01");
                            ("to_date", PStr "2024-03-15")])]]
  = Ok [PDict [("tool", PStr "get_purchase_stats");
               ("args", PDict [("by", PStr "supplier"); ("from_date", PStr "2023-04-01");
                               ("to_date", PStr "2024-03-15")])]].
Proof.
  exact (normalization_is_idempotent Scenario.unreachable Scenario.at_50s
           [PDict [("tool", PStr "get_purchase_stats");
                   ("args", PDict [("by", PStr "supplier")])]] _ eq_refl).
Defined.

(** the plan of a fast path *)
Lemma fastpath_shape W command plan :
  _fastpath W command = Some plan →
  ∃ by_ risks,
    by_ ∈ ["month"; "customer"; "item"] ∧
    plan = [("intent", PStr "analytics");
            ("steps", PList [stats_step "get_sales_stats" by_
                               (fst (_last_n_month_range W 12))
                               (snd (_last_n_month_range W 12))]);
            ("confirm_required", PBool false);
            ("risks", risks)].
Proof.
  unfold _fastpath. destruct (_last_n_month_range W 12) as [f t]. simpl.
  repeat case_match; intros [= <-]; eexists _, _; (split; [|done]);
    rewrite !elem_of_cons; tauto.
Qed.

Lemma run_steps_one W dry_run idem idx step st :
  run_steps W dry_run idem idx [step] [] st =
    match run_step W dry_run idem idx step st with
    | (Ok o, st1) => (Ok [o], st1)
    | (Raise e, st1) => (Raise e, st1)
    end.
Proof.
  simpl. unfold bind, ret. by destruct (run_step _ _ _ _ _ _) as [[o|] st1].
Qed.

(** X11: A command of a fast path runs without the model and without a
    confirmation, dry run or not, token or not: [execute] makes exactly
    one call, [get_sales_stats] by month, customer or item over the
    default window, and when it completes reports exactly that step,
    with what the call returned. *)
Theorem fastpath_command_runs_one_read W command user dry_run token st plan :
  _fastpath W command = Some plan →
  ∃ by_ r st',
    by_ ∈ ["month"; "customer"; "item"] ∧
    let c := stats_call by_ (fst (_last_n_month_range W 12))
                            (snd (_last_n_month_range W 12)) in
    execute W command user dry_run token st = (r, st') ∧
    trace st' = trace st ++ [EvTool c] ∧
    match r with
    | Ok (Completed cid p [StepResult 1 (PStr "get_sales_stats") payload] _) =>
        cid = Some (uuid4_at W (uuids st)) ∧ p = plan ∧
        registry W (trace st) c = Ok payload
    | Ok _ => False
    | Raise _ => True
    end.
Proof.
  intros Hfast.
  destruct (fastpath_shape _ _ _ Hfast) as (by_ & risks & Hby & ->).
  exists by_. rewrite execute_unfold.
  unfold classify_and_plan. rewrite Hfast. unfold ret.
  set (f := fst _). set (t := snd _).
  cbn [get_or dict_get String.eqb Ascii.eqb Bool.eqb default first8 take].
  assert (confirm_needed
            [("intent", PStr "analytics");
             ("steps", PList [stats_step "get_sales_stats" by_ f t]);
             ("confirm_required", PBool false); ("risks", risks)] = Ok false) as ->
    by done.
  simpl andb. cbv iota.
  assert (run_step W dry_run (uuid4_at W (S (uuids st))) 1
            (stats_step "get_sales_stats" by_ f t) (started st)
          = (rbind (registry W (trace st) (stats_call by_ f t))
               (fun payload => Ok (StepResult 1 (PStr "get_sales_stats") payload)),
             mkstate (trace st ++ [EvTool (stats_call by_ f t)]) (clock_reads st)
                     (S (S (uuids st))) [])) as Hstep.
  { assert (in_read_only (PStr "get_sales_stats") = Ok true) as Hro
      by (by vm_compute).
    unfold run_step, bind, lift, ret. cbn [py_get stats_step].
    change (get "tool" _) with (PStr "get_sales_stats").
    rewrite Hro.
    change (step_args _) with
      (Ok (PDict [("by", PStr by_); ("from_date", PStr f); ("to_date", PStr t)])).
    destruct dry_run; cbn [rbind negb];
      unfold dispatch, call_kw, call_tool, bind, lift, ret; simpl;
      by destruct (registry W (trace st) _). }
  change (first8 _) with (Ok [stats_step "get_sales_stats" by_ f t]). cbv iota.
  rewrite run_steps_one, Hstep.
  destruct (registry W (trace st) (stats_call by_ f t)) as [payload|] eqn:Ereg;
    cbn [rbind].
  - destruct (summarize W [StepResult 1 (PStr "get_sales_stats") payload]);
      eexists _, _; (split; [done|]); cbv zeta; by repeat split.
  - eexists _, _. split; [done|]. cbv zeta. by repeat split.
Qed.

Lemma fastpath_command_runs_one_read_witness :
  ∃ by_ r st',
    execute Scenario.unreachable "Top customers this year?" "alice" true None Sys.init
      = (r, st') ∧
    trace st' = [EvTool (stats_call by_ "2023-04-01" "2024-03-15")].
Proof.
  destruct (fastpath_command_runs_one_read Scenario.unreachable
              "Top customers this year?" "alice" true None Sys.init _ eq_refl)
    as (by_ & r & st' & _ & Hrun & Ht & _).
  by exists by_, r, st'.
Defined.

End PlannerMore.

(* ===================================================================== *)
(** ** knowledge/qa.py: answers from the documentation store *)
(* ===================================================================== *)

Module QAFacts.
Import Spec Sys SysFacts LLM LLMFacts QA.

(** the loop over the hits, from any list of sources found so far *)
Lemma collect_sources_spec hits : ∀ acc,
  NoDup acc →
  NoDup (collect_sources hits acc) ∧
  (∀ s, s ∈ collect_sources hits acc ↔
        s ∈ acc ∨ (s ≠ EmptyString ∧ ∃ h, h ∈ hits ∧ hit_source h = s)) ∧
  (length (collect_sources hits acc) ≤ length acc + length hits)%nat.
Proof.
  induction hits as [|h rest IH]; intros acc Hnd; simpl.
  - split; [done|]. split; [|lia]. intros s. split; [tauto|].
    intros [?|(_ & h & Hh & _)]; [done|]. by apply elem_of_nil in Hh.
  - set (src := hit_source h).
    destruct (negb (String.eqb src EmptyString)) eqn:Ene; simpl.
    + apply negb_true_iff, String.eqb_neq in Ene.
      destruct (existsb (String.eqb src) acc) eqn:Eex; simpl.
      * apply existsb_exists in Eex as (s0 & Hin & Hs0).
        apply String.eqb_eq in Hs0. subst s0. apply list_elem_of_In in Hin.
        destruct (IH acc Hnd) as (H1 & H2 & H3). split; [done|]. split; [|lia].
        intros s. rewrite H2. split.
        -- intros [?|(Hs & h' & Hh' & Hsrc)]; [tauto|].
           right. split; [done|]. exists h'. split; [by right|done].
        -- intros [?|(Hs & h' & Hh' & Hsrc)]; [tauto|].
           apply elem_of_cons in Hh' as [->|Hh']; [left; by subst|].
           right. eauto.
      * assert (src ∉ acc) as Hout.
        { intros Hin. apply list_elem_of_In in Hin.
          assert (existsb (String.eqb src) acc = true) as Habs; [|congruence].
          apply existsb_exists. exists src. split; [done|apply String.eqb_refl]. }
        assert (NoDup (acc ++ [src])) as Hnd'.
        { apply NoDup_app. split; [done|]. split; [|apply NoDup_singleton].
          intros x Hx ->%list_elem_of_singleton. done. }
        destruct (IH _ Hnd') as (H1 & H2 & H3). split; [done|].
        rewrite length_app in H3. simpl in H3. split; [|lia].
        intros s. rewrite H2, elem_of_app, list_elem_of_singleton. split.
        -- intros [[?| ->]|(Hs & h' & Hh' & Hsrc)]; [tauto| |].
           ++ right. split; [done|]. exists h. split; [by left|done].
           ++ right. split; [done|]. exists h'. split; [by right|done].
        -- intros [?|(Hs & h' & Hh' & Hsrc)]; [tauto|].
           apply elem_of_cons in Hh' as [->|Hh']; [left; right; by subst|].
           right. eauto.
    + apply negb_false_iff, String.eqb_eq in Ene.
      destruct (IH acc Hnd) as (H1 & H2 & H3). split; [done|]. split; [|lia].
      intros s. rewrite H2. split.
      * intros [?|(Hs & h' & Hh' & Hsrc)]; [tauto|].
        right. split; [done|]. exists h'. split; [by right|done].
      * intros [?|(Hs & h' & Hh' & Hsrc)]; [tauto|].
        apply elem_of_cons in Hh' as [->|Hh']; [|right; eauto].
        exfalso. apply Hs. by rewrite <- Hsrc.
Qed.

(** X12: The sources of an answer are the sources of the hits, each once and
    none empty, and there are no more of them than hits. *)
Theorem sources_are_distinct hits :
  let sources := collect_sources hits [] in
  NoDup sources ∧
  (∀ s, s ∈ sources ↔ s ≠ EmptyString ∧ ∃ h, h ∈ hits ∧ hit_source h = s) ∧
  (length sources ≤ length hits)%nat.
Proof.
  destruct (collect_sources_spec hits [] (NoDup_nil_2)) as (H1 & H2 & H3).
  split; [done|]. split; [|simpl in H3; lia].
  intros s. rewrite H2. split; [|tauto].
  intros [Hin|?]; [|done]. by apply elem_of_nil in Hin.
Qed.

(** a body that always fails is not rescued by retrying *)
Lemma retry_from_fails {A} (body : M A) :
  (∀ st, ∃ e st', body st = (Raise e, st')) →
  ∀ remaining attempt_number st,
    ∃ e st', retry_from remaining attempt_number body st = (Raise e, st').
Proof.
  intros Hbody. induction remaining as [|r IH]; intros n st.
  - simpl. unfold catch. destruct (Hbody st) as (e & st' & ->).
    destruct (retry_if e); unfold raise; eauto.
  - simpl. unfold catch. destruct (Hbody st) as (e & st' & ->).
    destruct (retry_if e); [|unfold raise; eauto].
    unfold bind, emit. apply IH.
Qed.

Lemma complete_fails W system user streaming :
  (∀ history, ∃ e, backend W history = Raise e) →
  ∀ st, ∃ e st', complete W system user streaming st = (Raise e, st').
Proof.
  intros Hdown. unfold complete, retry. apply retry_from_fails.
  intros st. rewrite complete_attempt_eq. cbv zeta.
  destruct (circuit_open _ _); [eauto|].
  destruct (Hdown (trace st ++ [EvNet system user streaming])) as (e & ->).
  destruct (recorded e); eauto.
Qed.



(** X14: Once the completion client is made, a backend that is down,
    whatever the error, does not stop the answer to a question with
    hits: the answer is the first 600 characters of the best hit, and
    the sources are [sources[:top_k]], for a negative [top_k] too. *)
Theorem answer_falls_back_to_best_snippet W question top_k st h0 rest :
  rag_query W (trace st) question top_k = Ok (h0 :: rest) →
  (∀ history, ∃ e, backend W history = Raise e) →
  ∃ st',
    answer_question W question top_k st =
      (Ok (PDict [("answer", PStr (String.substring 0 600 (hit_text h0)));
                  ("sources", PList (map PStr (upto top_k
                                        (collect_sources (h0 :: rest) []))))]), st').
Proof.
  intros Hhits Hdown.
  unfold answer_question, bind, get_trace, emit, lift. simpl. rewrite Hhits.
  unfold catch, LLM.new_client, set_window, ret. simpl.
  match goal with |- context [complete W ?s ?u ?b ?st0] =>
    destruct (complete_fails W s u b Hdown st0) as (e & st1 & ->)
  end.
  eauto.
Qed.

Lemma answer_falls_back_to_best_snippet_witness :
  ∃ st',
    answer_question Stores.stocked_shelf "How do I allocate leave?" 6 Sys.init =
      (Ok (PDict [("answer", PStr "Leave is allocated per leave period.");
                  ("sources", PList [PStr "hr/leave.md"; PStr "hr/holidays.md"])]), st').
Proof.
  apply (answer_falls_back_to_best_snippet Stores.stocked_shelf
           "How do I allocate leave?" 6 Sys.init Stores.leave_policy
           [Stores.leave_types; Stores.holidays] eq_refl).
  intros history. by exists APIConnectionError.
Defined.

End QAFacts.

(* ===================================================================== *)
(** ** router.py: what is routed, and how statistics are fetched *)
(* ===================================================================== *)

Module RouterMore.
Import Spec Routes Sys SysFacts Router LLMFacts.

Lemma detect_dimension_cases text domain :
  _detect_dimension text domain ∈ DIMENSIONS ∧
  (_detect_dimension text domain = "supplier" → domain = "purchase").
Proof.
  unfold _detect_dimension, _SYNONYMS_DIM, DIMENSIONS.
  cbn [detect_dimension_loop].
  repeat match goal with
  | |- context [_match_any ?t ?ws] => destruct (_match_any t ws)
  end;
  cbn [String.eqb Ascii.eqb Bool.eqb andb negb];
  try (split; [rewrite !elem_of_cons; tauto | discriminate]);
  (destruct (String.eqb domain "purchase") eqn:Ep;
   [apply String.eqb_eq in Ep; subst domain|]);
  cbn [String.eqb Ascii.eqb Bool.eqb andb negb];
  try (split; [rewrite !elem_of_cons; tauto | done]);
  (destruct (String.eqb domain "sales") eqn:Es);
  (split; [rewrite !elem_of_cons; tauto | discriminate]).
Qed.

Lemma detect_top_n_bounds text n : _detect_top_n text = Some n → 1 <= n <= 200.
Proof.
  unfold _detect_top_n. destruct (first_group _ _ _ _); [|done].
  intros [= <-]. lia.
Qed.

(** what [route] returns when it chooses statistics *)
Lemma route_statistics W query action :
  get "action" (route W query) = PStr action →
  action ∈ ["sales_stats"; "purchase_stats"] →
  ∃ dim top_n,
    route W query =
      stats_route action
        (stats_args dim (_parse_date_range W (Text.strip query)) top_n) ∧
    dim ∈ DIMENSIONS ∧
    (action = "sales_stats" → dim ≠ "supplier") ∧
    (∀ n, top_n = Some n → 1 <= n <= 200).
Proof.
  unfold route. set (q := Text.strip query).
  destruct (_is_docs_question q).
  { intros [= <-]. rewrite !elem_of_cons, elem_of_nil. intros H.
    decompose [or] H; (discriminate || contradiction). }
  destruct (_parse_date_range W q) as [[from_date to_date] label] eqn:Ew.
  destruct (Text.re_search _ (Text.lower q)).
  { intros [= <-]. rewrite !elem_of_cons, elem_of_nil. intros H.
    decompose [or] H; (discriminate || contradiction). }
  destruct (String.eqb (_detect_domain q) "inventory").
  { intros [= <-]. rewrite !elem_of_cons, elem_of_nil. intros H.
    decompose [or] H; (discriminate || contradiction). }
  destruct (detect_dimension_cases q (_detect_domain q)) as [Hdim Hsup].
  destruct (String.eqb (_detect_domain q) "purchase") eqn:Ep;
    intros [= <-] _; exists (_detect_dimension q (_detect_domain q)), (_detect_top_n q);
    (split; [reflexivity|]); (split; [exact Hdim|]);
    (split; [|apply detect_top_n_bounds]).
  - discriminate.
  - intros _ Habs. apply Hsup in Habs. rewrite Habs in Ep. discriminate.
Qed.

(** X15: When [route] chooses statistics, the arguments are the dimension,
    the window of [_parse_date_range] and the number of [_detect_top_n]:
    the dimension is one of month, customer, item, region and supplier,
    and supplier only for purchases; the number, when there is one, is
    between 1 and 200. *)
Theorem routed_statistics W query action :
  get "action" (route W query) = PStr action →
  action ∈ ["sales_stats"; "purchase_stats"] →
  ∃ dim top_n,
    route W query =
      stats_route action
        (stats_args dim (_parse_date_range W (Text.strip query)) top_n) ∧
    dim ∈ DIMENSIONS ∧
    (action = "sales_stats" → dim ≠ "supplier") ∧
    (∀ n, top_n = Some n → 1 <= n <= 200).
Proof. apply route_statistics. Qed.

Lemma routed_statistics_witness :
  ∃ dim top_n,
    route Scenario.stocked "top 5 customers ytd" =
      stats_route "sales_stats"
        (stats_args dim
           (_parse_date_range Scenario.stocked (Text.strip "top 5 customers ytd"))
           top_n) ∧
    dim ∈ DIMENSIONS.
Proof.
  destruct (routed_statistics Scenario.stocked "top 5 customers ytd" "sales_stats"
              eq_refl) as (dim & top_n & Hr & Hdim & _).
  { apply (bool_decide_unpack _). by vm_compute. }
  exists dim, top_n. split; [exact Hr|exact Hdim].
Defined.

(** *** the statistics branch *)

(** X16: The statistics branch asks the tool for the dimension and the window
    only ([top_n] is not passed on).  An answer with rows is not asked
    again; an answer that is no dict ends the branch with an error
    after the first call; and for an answer without rows and a
    [to_date] that reads YYYY-MM-DD, of the year 4 or later (three
    years before it there is a date), the tool is asked a second time,
    for the 1095 days up to [to_date]. *)
Theorem statistics_calls W action dim f t top is_sales st r st' :
  stats_branch W
    (stats_route action
       (PDict [("by", dim); ("from_date", f); ("to_date", PStr t); ("top_n", top)]))
    is_sales st = (r, st') →
  let first := window_call is_sales dim f (PStr t) in
  match registry W (trace st) first with
  | Ok (PDict data) =>
      if truthy (get_or "rows" (PList []) data)
      then trace st' = trace st ++ [EvTool first]
      else
        ∀ t_dt, Dates.fromisoformat t = Some t_dt → 4 <= Dates.year t_dt →
          trace st' = trace st ++
            [EvTool first;
             EvTool (window_call is_sales dim
                       (PStr (Dates.isoformat (Dates.minus_days t_dt (365 * 3))))
                       (PStr t))]
  | _ => (∃ e, r = Raise e) ∧ trace st' = trace st ++ [EvTool first]
  end.
Proof.
  unfold stats_branch, stats_route, window_call.
  set (getter := if is_sales then "get_sales_stats" else "get_purchase_stats").
  unfold bind at 1. unfold lift at 1.
  change (rbind (subscript "args" _) py_copy) with
    (Ok (PDict [("by", dim); ("from_date", f); ("to_date", PStr t); ("top_n", top)])).
  cbv iota beta.
  unfold bind at 1. unfold lift at 1.
  change (subscript "by" _) with (Ok dim). cbv iota beta.
  change (dict_remove "top_n" (dict_remove "by" _)) with
    [("from_date", f); ("to_date", PStr t)].
  change (get "top_n" (dict_remove "by" _)) with top.
  unfold bind at 1. unfold lift at 1.
  change (stats_kwargs dim _) with
    (Ok [("by", dim); ("from_date", f); ("to_date", PStr t)]).
  cbv iota beta.
  unfold bind at 1. unfold call_tool at 1. cbn [trace clock_reads uuids fail_window].
  destruct (registry W (trace st) _) as [data|e]; [|intros [= <- <-]; eauto].
  unfold bind at 1. unfold lift at 1.
  destruct data as [| | | | | |data]; try (intros [= <- <-]; eauto; fail).
  cbn [py_get_or]. cbv iota beta.
  unfold bind at 1.
  destruct (truthy (get_or "rows" (PList []) data)) eqn:Erows.
  - unfold ret at 1. cbv iota beta.
    destruct (_ && _); [destruct (top_rows _ _ _)|];
      (destruct dim; unfold ret, raise; by intros [= <- <-]).
  - unfold bind at 1. unfold lift at 1.
    change (subscript "from_date" _) with (Ok f). cbv iota beta.
    unfold bind at 1. unfold lift at 1.
    change (subscript "to_date" _) with (Ok (PStr t)). cbv iota beta.
    unfold bind at 1. unfold lift at 1.
    intros Hrun t_dt Ht _. revert Hrun. rewrite Ht.
    cbv iota beta.
    unfold bind at 1. unfold call_tool at 1. cbn [trace clock_reads uuids fail_window].
    rewrite <- app_assoc. cbn [app].
    destruct (registry W _ _) as [data2|e]; [|by intros [= <- <-]].
    unfold bind at 1. unfold lift at 1.
    destruct (py_get_or "rows" (PList []) data2) as [rows2|]; [|by intros [= <- <-]].
    unfold ret at 1. cbv iota beta.
    destruct data2; try (unfold raise; by intros [= <- <-]).
    destruct (_ && _); [destruct (top_rows _ _ _)|];
      (destruct dim; unfold ret, raise; by intros [= <- <-]).
Qed.

Lemma statistics_calls_witness :
  let run := stats_branch Routes.late_rows
               (stats_route "purchase_stats"
                  (PDict [("by", PStr "supplier"); ("from_date", PStr "2024-01-01");
                          ("to_date", PStr "2024-03-15"); ("top_n", PInt 1)]))
               false Sys.init in
  trace (snd run) =
    [EvTool (window_call false (PStr "supplier") (PStr "2024-01-01") (PStr "2024-03-15"));
     EvTool (window_call false (PStr "supplier") (PStr "2021-03-16") (PStr "2024-03-15"))].
Proof.
  intros run.
  refine (statistics_calls Routes.late_rows "purchase_stats" (PStr "supplier")
            (PStr "2024-01-01") "2024-03-15" (PInt 1) false Sys.init
            (fst run) (snd run) (surjective_pairing run)
            (Dates.mkdate 2024 3 15) eq_refl _).
  by vm_compute.
Defined.

(** *** the top-N step *)

Lemma insert_desc_perm k x l : map snd (insert_desc k x l) ≡ₚ x :: map snd l.
Proof.
  induction l as [|[k' y] rest IH]; simpl; [done|].
  destruct (LLM.Qlt_bool k' k); simpl; [done|].
  rewrite IH. apply Permutation_swap.
Qed.

Lemma insert_desc_keys (P : Q → Prop) k x l :
  Forall P (map fst (insert_desc k x l)) ↔ P k ∧ Forall P (map fst l).
Proof.
  induction l as [|[k' y] rest IH]; simpl.
  - by rewrite Forall_cons.
  - destruct (LLM.Qlt_bool k' k); simpl.
    + by rewrite !Forall_cons.
    + rewrite !Forall_cons, IH. tauto.
Qed.

Lemma insert_desc_descending k x l :
  descending (map fst l) → descending (map fst (insert_desc k x l)).
Proof.
  induction l as [|[k' y] rest IH]; simpl; [done|].
  intros [Hhead Hrest].
  destruct (LLM.Qlt_bool k' k) eqn:E; simpl.
  - apply Qlt_bool_iff in E. split; [|done].
    constructor; [by apply Qlt_le_weak|].
    eapply Forall_impl; [exact Hhead|]. simpl. intros k'' Hle.
    eapply Qle_trans; [exact Hle|by apply Qlt_le_weak].
  - apply Qlt_bool_false_iff in E. split; [|by apply IH].
    by apply insert_desc_keys.
Qed.

Lemma insert_desc_keyed W k x l :
  total_key W x = Ok k →
  Forall (fun kx => total_key W (snd kx) = Ok (fst kx)) l →
  Forall (fun kx => total_key W (snd kx) = Ok (fst kx)) (insert_desc k x l).
Proof.
  intros Hk. induction l as [|[k' y] rest IH]; simpl.
  - by repeat constructor.
  - intros Hall. destruct (LLM.Qlt_bool k' k); [by constructor|].
    inversion Hall; subst. constructor; [done|by apply IH].
Qed.

(** [sorted(rows, key=..., reverse=True)] sorts *)
Lemma sort_desc_sorts W rows : ∀ acc out,
  sort_desc W rows acc = Ok out →
  descending (map fst acc) →
  Forall (fun kx => total_key W (snd kx) = Ok (fst kx)) acc →
  ∃ sorted,
    out = map snd sorted ∧ out ≡ₚ rows ++ map snd acc ∧
    descending (map fst sorted) ∧
    Forall (fun kx => total_key W (snd kx) = Ok (fst kx)) sorted.
Proof.
  induction rows as [|r rest IH]; intros acc out; simpl.
  - intros [= <-] Hdesc Hkeys. by exists acc.
  - destruct (total_key W r) as [k|] eqn:Ek; [simpl|done].
    intros Hsort Hdesc Hkeys.
    destruct (IH _ _ Hsort (insert_desc_descending k r acc Hdesc)
                (insert_desc_keyed W k r acc Ek Hkeys))
      as (sorted & -> & Hperm & Hd & Hk).
    exists sorted. split; [done|]. split; [|done].
    rewrite Hperm, insert_desc_perm. by rewrite Permutation_middle.
Qed.

Lemma descending_app l1 l2 :
  descending (l1 ++ l2) →
  descending l1 ∧ Forall (fun k => Forall (fun k' => (k' <= k)%Q) l2) l1.
Proof.
  induction l1 as [|k rest IH]; simpl; [done|].
  intros [Hhead Hrest]. apply Forall_app in Hhead as [H1 H2].
  destruct (IH Hrest) as [Hd Hcross]. by repeat split; [| |constructor].
Qed.

(** X17: The top-N step keeps the rows with the largest totals: the rows it
    returns, in decreasing order of [float(total or 0)], are
    [min(N, len(rows))] of the rows, and no row it leaves out has a
    larger total than a row it keeps. *)
Theorem top_rows_are_the_largest W rows n out :
  top_rows W (PList rows) (PInt n) = Ok out →
  0 <= n →
  ∃ kept left_out,
    out = map snd kept ∧
    map snd kept ++ map snd left_out ≡ₚ rows ∧
    length out = Nat.min (Z.to_nat n) (length rows) ∧
    Forall (fun kx => total_key W (snd kx) = Ok (fst kx)) (kept ++ left_out) ∧
    descending (map fst kept) ∧
    Forall (fun k => Forall (fun k' => (k' <= k)%Q) (map fst left_out)) (map fst kept).
Proof.
  unfold top_rows. simpl.
  destruct (sort_desc W rows []) as [sorted|] eqn:Hsort; [simpl|done].
  intros [= <-] Hn.
  destruct (sort_desc_sorts W rows [] sorted Hsort) as (s & -> & Hperm & Hd & Hk);
    [done|done|].
  simpl in Hperm. rewrite app_nil_r in Hperm.
  assert ((0 <=? n) = true) as -> by lia.
  exists (take (Z.to_nat n) s), (drop (Z.to_nat n) s).
  rewrite <- (take_drop (Z.to_nat n) s) in Hd at 1.
  rewrite map_app in Hd. apply descending_app in Hd as [Hd Hcross].
  rewrite <- map_app, !take_drop, List.firstn_map.
  split; [done|]. split; [done|]. split; [|done].
  rewrite length_map, length_take, <- (Permutation_length Hperm), length_map. done.
Qed.

Lemma top_rows_are_the_largest_witness :
  ∃ kept left_out : list (Q * pyval),
    [PDict [("label", PStr "Nut Co"); ("total", PInt 70)]] = map snd kept ∧
    map snd kept ++ map snd left_out ≡ₚ
      [PDict [("label", PStr "Bolt Co"); ("total", PInt 10)];
       PDict [("label", PStr "Nut Co"); ("total", PInt 70)]].
Proof.
  destruct (top_rows_are_the_largest Scenario.stocked
              [PDict [("label", PStr "Bolt Co"); ("total", PInt 10)];
               PDict [("label", PStr "Nut Co"); ("total", PInt 70)]] 1 _ eq_refl)
    as (kept & left_out & Hout & Hperm & _); [lia|].
  exists kept, left_out. split; [exact Hout|exact Hperm].
Defined.

End RouterMore.

(* ===================================================================== *)
(** ** frappe_tools.py: group keys, statements and report tables *)
(* ===================================================================== *)

Module ToolsFacts.
Import Sys Tools ToolTerms.

Lemma norm_group_key_cases W kwargs dflt :
  _norm_group_key W kwargs dflt ∈ GROUP_KEYS.
Proof.
  unfold _norm_group_key.
  destruct (existsb _ GROUP_KEYS) eqn:E.
  - apply existsb_exists in E as (k & Hin & Hk).
    apply String.eqb_eq in Hk. rewrite Hk. by apply list_elem_of_In.
  - apply (bool_decide_unpack _). by vm_compute.
Qed.

(** X18: [_norm_group_key] returns one of the five group keys whatever it is
    given, and a group key given as [by] is returned as it is: its
    results are its fixed points, so that normalizing twice, as the
    router and the tools do in turn, changes nothing. *)
Theorem norm_group_key_is_a_normal_form W kwargs dflt :
  let by_ := _norm_group_key W kwargs dflt in
  by_ ∈ GROUP_KEYS ∧
  ∀ W' others dflt', _norm_group_key W' (("by", PStr by_) :: others) dflt' = by_.
Proof.
  intros by_. pose proof (norm_group_key_cases W kwargs dflt) as Hin.
  fold by_ in Hin. split; [exact Hin|]. intros W' others dflt'.
  unfold GROUP_KEYS in Hin. rewrite !elem_of_cons, elem_of_nil in Hin.
  destruct Hin as [->|[->|[->|[->|[->|[]]]]]]; reflexivity.
Qed.

Lemma label_of_key by_ :
  by_ ∈ GROUP_KEYS →
  ∃ ls lp, (by_, ls) ∈ SALES_LABELS ∧ (by_, lp) ∈ PURCHASE_LABELS ∧
    ls = (if String.eqb by_ "month" then "DATE_FORMAT(si.posting_date, '%%Y-%%m')"
          else if String.eqb by_ "customer" then "si.customer"
          else if String.eqb by_ "item" then "sii.item_code"
          else if String.eqb by_ "region" then "COALESCE(addr.country, '')"
          else "DATE_FORMAT(si.posting_date, '%%Y-%%m')") ∧
    lp = (if String.eqb by_ "month" then "DATE_FORMAT(pi.posting_date, '%%Y-%%m')"
          else if String.eqb by_ "supplier" then "pi.supplier"
          else if String.eqb by_ "item" then "pii.item_code"
          else if String.eqb by_ "region" then "COALESCE(addr.country, '')"
          else "DATE_FORMAT(pi.posting_date, '%%Y-%%m')").
Proof.
  unfold GROUP_KEYS. rewrite !elem_of_cons, elem_of_nil.
  intros [->|[->|[->|[->|[->|[]]]]]]; eexists _, _;
    (split; [|split; [|split; reflexivity]]);
    apply (bool_decide_unpack _); by vm_compute.
Qed.

(** X19: The statistics tools build their statement from fixed text only.
    Whatever the arguments, the one use of the site is one query whose
    text is [stats_sql] of a label expression of the tool, chosen by the
    normalized group key, and of the two conditions of the tool, with
    the condition on the company when one is given; the dates and the
    company, which come from the caller, are passed as parameters of
    the query and never become part of its text. *)
Theorem statements_are_fixed_text W by_ from_date to_date company kwargs :
  let key := _norm_group_key W (("by", by_) :: kwargs) "month" in
  let params := window_params (_normalize_dates W from_date to_date) company in
  ∃ sales_label purchase_label finish_sales finish_purchases,
    (key, sales_label) ∈ SALES_LABELS ∧
    (key, purchase_label) ∈ PURCHASE_LABELS ∧
    ∀ site,
      get_sales_stats W site by_ from_date to_date company kwargs =
        rbind (db_sql site
                 (stats_sql sales_label "sii.base_net_amount" SALES_JOINS
                    (SALES_CONDS ++
                     if truthy company then ["si.company = %(company)s"] else []))
                 params) finish_sales ∧
      get_purchase_stats W site by_ from_date to_date company kwargs =
        rbind (db_sql site
                 (stats_sql purchase_label "pii.base_net_amount" PURCHASE_JOINS
                    (PURCHASE_CONDS ++
                     if truthy company then ["pi.company = %(company)s"] else []))
                 params) finish_purchases.
Proof.
  intros key params.
  destruct (label_of_key key (norm_group_key_cases _ _ _)) as (ls & lp & Hs & Hp & -> & ->).
  unfold params, window_params, get_sales_stats, get_purchase_stats, run_sql.
  fold key. destruct (_normalize_dates W from_date to_date) as [f t].
  destruct (truthy company); eexists _, _, _, _;
    (split; [exact Hs|]); (split; [exact Hp|]); intros site; split; reflexivity.
Qed.

Lemma dict_set_fresh k v kvs : contains k kvs = false → dict_set k v kvs = kvs ++ [(k, v)].
Proof.
  unfold contains. induction kvs as [|[k' v'] rest IH]; simpl; [done|].
  destruct (String.eqb k' k); [done|]. intros H. by rewrite IH.
Qed.

(** X20: A group key that the other tool knows is accepted and reported, but
    not used: sales by supplier and purchases by customer run the
    statement of the grouping by month, and return its rows under the
    title and the group key that were asked for. *)
Theorem foreign_group_key_reports_months W site by_ from_date to_date company kwargs :
  let key := _norm_group_key W (("by", by_) :: kwargs) "month" in
  (key = "supplier" →
   get_sales_stats W site by_ from_date to_date company kwargs =
     rbind (get_sales_stats W site (PStr "month") from_date to_date company [])
       (fun out => Ok (retitled "Sales by " "supplier" out))) ∧
  (key = "customer" →
   get_purchase_stats W site by_ from_date to_date company kwargs =
     rbind (get_purchase_stats W site (PStr "month") from_date to_date company [])
       (fun out => Ok (retitled "Purchases by " "customer" out))).
Proof.
  intros key. split; intros Hkey.
  - unfold get_sales_stats. fold key. rewrite Hkey.
    change (_norm_group_key W [("by", PStr "month")] "month") with "month".
    destruct (_normalize_dates W from_date to_date) as [f t].
    destruct (truthy company); cbv iota beta;
      (destruct (run_sql site _ _) as [rows|]; [cbn [rbind]|done]);
      by destruct (first_row rows).
  - unfold get_purchase_stats. fold key. rewrite Hkey.
    change (_norm_group_key W [("by", PStr "month")] "month") with "month".
    destruct (_normalize_dates W from_date to_date) as [f t].
    destruct (truthy company); cbv iota beta;
      (destruct (run_sql site _ _) as [rows|]; [cbn [rbind]|done]);
      by destruct (first_row rows).
Qed.

Lemma foreign_group_key_reports_months_witness :
  get_sales_stats Scenario.at_50s demo_site (PStr " Vendors ") PNone PNone PNone [] =
    rbind (get_sales_stats Scenario.at_50s demo_site (PStr "month") PNone PNone PNone [])
      (fun out => Ok (retitled "Sales by " "supplier" out)).
Proof.
  exact (proj1 (foreign_group_key_reports_months Scenario.at_50s demo_site
                  (PStr " Vendors ") PNone PNone PNone []) eq_refl).
Defined.

(** *** the report runner *)

Lemma traverse_length {A B} (f : A → result B) l out :
  traverse f l = Ok out → length out = length l.
Proof.
  revert out. induction l as [|x rest IH]; intros out; simpl.
  - by intros [= <-].
  - destruct (f x) as [y|]; [simpl|done].
    destruct (traverse f rest) as [ys|]; [simpl|done].
    intros [= <-]. simpl. by rewrite (IH ys).
Qed.

Lemma traverse_Forall {A B} (P : B → Prop) (f : A → result B) l out :
  (∀ x y, f x = Ok y → P y) → traverse f l = Ok out → Forall P out.
Proof.
  intros Hf. revert out. induction l as [|x rest IH]; intros out; simpl.
  - by intros [= <-].
  - destruct (f x) as [y|] eqn:Ex; [simpl|done].
    destruct (traverse f rest) as [ys|]; [simpl|done].
    intros [= <-]. constructor; [by eapply Hf|by apply IH].
Qed.

Lemma column_of_labelled c l fn : column_of c = Ok (l, fn) → l ≠ EmptyString.
Proof.
  unfold column_of.
  destruct (py_get "label" c) as [lab|]; [simpl|done].
  destruct (py_get "fieldname" c) as [f|]; [simpl|done].
  destruct (py_strip _) as [stripped|]; [simpl|done].
  destruct (String.eqb stripped EmptyString) eqn:E; intros [= <- _]; [done|].
  by apply String.eqb_neq.
Qed.

(** X21: [run_report] returns a table that is aligned: when it returns, the
    result has the name of the report as title, one non-empty label per
    column of the report ([value] for a column without a label and a
    field name), one row per row of the report, in order, and in every
    row one cell per column; the payload of the report engine is kept as
    [raw]. *)
Theorem run_report_table_is_aligned site report_name filters out :
  run_report site report_name filters = Ok out →
  ∃ data cs rs columns rows,
    query_report_run site report_name (py_or filters (PDict []))
      (default "Administrator" (session_user site)) = Ok data ∧
    rbind (py_get_or "columns" (PList []) data) iterate = Ok cs ∧
    rbind (py_get_or "result" (PList []) data) iterate = Ok rs ∧
    out = PDict [("title", PStr report_name); ("columns", PList columns);
                 ("rows", PList rows); ("raw", data)] ∧
    length columns = length cs ∧ Forall labelled columns ∧
    length rows = length rs ∧ aligned columns rows.
Proof.
  unfold run_report.
  destruct (query_report_run site _ _ _) as [data|] eqn:Hdata; [simpl|done].
  destruct (rbind (py_get_or "columns" _ data) iterate) as [cs|] eqn:Hcs; [simpl|done].
  destruct (traverse column_of cs) as [named|] eqn:Hnamed; [simpl|done].
  destruct (rbind (py_get_or "result" _ data) iterate) as [rs|] eqn:Hrs; [simpl|done].
  destruct (traverse (cells_of _) rs) as [rows|] eqn:Hrows; [simpl|done].
  assert (length rows = length rs) as Hlen by (by eapply traverse_length).
  assert (aligned (map (fun lf => PStr (fst lf)) named) rows) as Haligned.
  { eapply traverse_Forall; [|exact Hrows]. unfold cells_of. intros r y.
    destruct (traverse _ (map snd named)) as [cells|] eqn:Hcells; [simpl|done].
    intros [= <-]. exists cells. split; [done|].
    apply traverse_length in Hcells. by rewrite Hcells, !length_map. }
  assert (Forall labelled (map (fun lf => PStr (fst lf)) named)) as Hlab.
  { apply Forall_map.
    eapply traverse_Forall with (P := fun lf => labelled (PStr (fst lf)));
      [|exact Hnamed].
    intros c [l fn] Hc. exists l. split; [done|]. by eapply column_of_labelled. }
  pose proof (traverse_length _ _ _ Hnamed) as Hcols.
  unfold aligned in *.
  destruct named as [|lf named']; simpl.
  - destruct rows as [|r0 rows']; simpl.
    + intros [= <-]. exists data, cs, rs, [], []. by repeat split.
    + inversion Haligned as [|? ? (cells & -> & Hcells) Hrest]; subst.
      destruct cells; [simpl|done].
      intros [= <-]. exists data, cs, rs, [], (PList [] :: rows').
      by repeat split.
  - intros [= <-]. eexists data, cs, rs, _, rows.
    repeat split; try done. simpl. by rewrite length_map.
Qed.

Lemma run_report_table_is_aligned_witness :
  ∃ columns rows,
    run_report demo_site "Sales Register" PNone =
      Ok (PDict [("title", PStr "Sales Register"); ("columns", PList columns);
                 ("rows", PList rows); ("raw", demo_report)]) ∧
    aligned columns rows.
Proof.
  destruct (run_report_table_is_aligned demo_site "Sales Register"
              PNone _ eq_refl)
    as (data & cs & rs & columns & rows & Hrun & _ & _ & Hout & _ & _ & _ & Hal).
  injection Hrun as <-. exists columns, rows. split; [|exact Hal].
  by rewrite <- Hout.
Defined.

End ToolsFacts.

(* ===================================================================== *)
(** ** knowledge/ingest_docs.py: what the chunks of a text are *)
(* ===================================================================== *)

Module IngestFacts.
Import Ingest.

Lemma py_slice_window {A} (text : list A) i size :
  0 <= i < Z.of_nat (length text) → 0 < size →
  py_slice text i (i + size) = take (Z.to_nat size) (drop (Z.to_nat i) text).
Proof.
  intros Hi Hsize. unfold py_slice, clamp.
  assert ((i <? 0) = false) as -> by lia.
  assert ((i + size <? 0) = false) as -> by lia.
  rewrite (Z.min_l i) by lia.
  destruct (Z.le_gt_cases (i + size) (Z.of_nat (length text))) as [Hle|Hgt].
  - rewrite Z.min_l by lia. f_equal. lia.
  - rewrite Z.min_r by lia.
    rewrite !take_ge; [done| |]; rewrite length_drop; lia.
Qed.

Section Chunks.
Context (text : list ascii) (size overlap : Z).
Hypothesis Hoverlap : 0 <= overlap < size.

Let step := size - overlap.

(** with enough rounds the loop ends, and adds the chunks from [i] on *)
Lemma chunk_loop_chunked fuel : ∀ i parts,
  0 <= i → Z.max 0 (Z.of_nat (length text) - i) < Z.of_nat fuel →
  ∃ new, chunk_loop fuel text size overlap i parts = Some (parts ++ new) ∧
         chunked text size step i new.
Proof.
  induction fuel as [|fuel IH]; intros i parts Hi Hfuel; simpl.
  - lia.
  - destruct (i <? Z.of_nat (length text)) eqn:E.
    + apply Z.ltb_lt in E.
      destruct (IH (i + (size - overlap)) (parts ++ [py_slice text i (i + size)]))
        as (new & -> & Hnew); [lia|lia|].
      rewrite py_slice_window by lia.
      exists (take (Z.to_nat size) (drop (Z.to_nat i) text) :: new).
      rewrite <- app_assoc. split; [done|]. by constructor.
    + apply Z.ltb_ge in E. exists []. rewrite app_nil_r. split; [done|].
      by constructor.
Qed.

Lemma chunked_covers i parts :
  chunked text size step i parts → 0 <= i →
  concat (map (take (Z.to_nat step)) parts) = drop (Z.to_nat i) text.
Proof.
  induction 1 as [i Hend|i rest Hi Hrest IH]; intros Hpos; simpl.
  - rewrite drop_ge; [done|lia].
  - rewrite IH by (unfold step; lia).
    rewrite take_take, Nat.min_l by (unfold step; lia).
    replace (Z.to_nat (i + step)) with (Z.to_nat i + Z.to_nat step)%nat
      by (unfold step; lia).
    rewrite <- drop_drop. apply take_drop.
Qed.

Lemma chunked_sizes i parts :
  chunked text size step i parts →
  Forall (fun p => (0 < length p ≤ Z.to_nat size)%nat) parts.
Proof.
  induction 1 as [i Hend|i rest Hi Hrest IH]; constructor; [|done].
  rewrite length_take, length_drop. lia.
Qed.

Lemma chunked_overlaps i parts p q :
  chunked text size step i parts → 0 <= i → neighbours parts p q →
  drop (Z.to_nat step) p = take (Z.to_nat overlap) q.
Proof.
  intros Hch. revert p q.
  induction Hch as [i Hend|i rest Hi Hrest IH]; intros p q Hpos (k & Hp & Hq).
  - done.
  - destruct k as [|k].
    + simpl in Hp, Hq. injection Hp as <-.
      inversion Hrest as [|i' rest' Hi' Hrest' Ei]; subst; [done|].
      simpl in Hq. injection Hq as <-.
      rewrite take_take, Nat.min_l by lia.
      rewrite skipn_firstn_comm, drop_drop.
      replace (Z.to_nat (i + step)) with (Z.to_nat i + Z.to_nat step)%nat
        by (unfold step; lia).
      f_equal. unfold step. lia.
    + apply IH; [unfold step; lia|]. by exists k.
Qed.

(** X22: For [0 <= overlap < size], [_chunk] returns, once it is given more
    rounds than the text has characters, and its chunks cover the text:
    the first [size - overlap] characters of the chunks, one after the
    other, are the text; no chunk is empty or longer than [size]; and
    each chunk starts with the [overlap] characters that end the chunk
    before it (with what is left of them at the end of the text). *)
Theorem chunks_cover_the_text fuel :
  (length text < fuel)%nat →
  ∃ parts,
    _chunk fuel text size overlap = Some parts ∧
    concat (map (take (Z.to_nat (size - overlap))) parts) = text ∧
    Forall (fun p => (0 < length p ≤ Z.to_nat size)%nat) parts ∧
    ∀ p q, neighbours parts p q →
      drop (Z.to_nat (size - overlap)) p = take (Z.to_nat overlap) q.
Proof.
  intros Hfuel. unfold _chunk.
  destruct (chunk_loop_chunked fuel 0 []) as (parts & -> & Hch); [lia|lia|].
  exists parts. split; [done|]. split; [|split].
  - pose proof (chunked_covers 0 parts Hch) as Hcover.
    unfold step in Hcover. by rewrite Hcover.
  - by eapply chunked_sizes.
  - intros p q. pose proof (chunked_overlaps 0 parts p q Hch) as Hover.
    unfold step in Hover. by apply Hover.
Qed.

End Chunks.

Lemma chunks_cover_the_text_witness :
  ∃ parts,
    _chunk 8 (list_ascii_of_string "invoice") 4 1 = Some parts ∧
    concat (map (take 3) parts) = list_ascii_of_string "invoice".
Proof.
  assert (0 <= 1 < 4) as Hoverlap by lia.
  assert (length (list_ascii_of_string "invoice") < 8)%nat as Hfuel by (simpl; lia).
  destruct (chunks_cover_the_text (list_ascii_of_string "invoice") 4 1 Hoverlap 8 Hfuel)
    as (parts & Hrun & Hcover & _).
  by exists parts.
Defined.

(** the loop never ends when a round does not advance *)
Lemma chunk_loop_stuck text size overlap fuel : ∀ i parts,
  size <= overlap → i <= 0 → text ≠ [] →
  chunk_loop fuel text size overlap i parts = None.
Proof.
  induction fuel as [|fuel IH]; intros i parts Hsize Hi Htext; simpl; [done|].
  assert ((i <? Z.of_nat (length text)) = true) as ->.
  { apply Z.ltb_lt. destruct text; [done|]. cbn [length]. lia. }
  apply IH; [done|lia|done].
Qed.

(** X23: When [size <= overlap], [_chunk] does not return on any text that is
    not empty: the position never advances, so that no number of rounds
    is enough. *)
Theorem chunk_needs_size_above_overlap text size overlap fuel :
  size <= overlap → text ≠ [] → _chunk fuel text size overlap = None.
Proof. intros Hsize Htext. by apply chunk_loop_stuck. Qed.

Lemma chunk_needs_size_above_overlap_witness :
  _chunk 1000 (list_ascii_of_string "invoice") 200 200 = None.
Proof.
  apply chunk_needs_size_above_overlap; [lia|discriminate].
Defined.

End IngestFacts.

(* ===================================================================== *)
(** ** api.py and install.py: the result that is shown, the roles *)
(* ===================================================================== *)

Module ApiFacts.
Import Sys Agent Wire Api.

Lemma first_table_is_table steps inner :
  first_table steps = Some inner → is_table inner = true.
Proof.
  induction steps as [|step rest IH]; simpl; [done|].
  destruct step as [| | | | | |kvs]; try done.
  destruct (is_table (get "result" kvs)) eqn:E; [|done].
  by intros [= <-].
Qed.

Lemma extract_best_table v : is_table v = true → _extract_best v = v.
Proof.
  destruct v as [| | | | | |kvs]; try done. simpl. by intros ->.
Qed.

Lemma extract_best_cases payload :
  is_table (_extract_best payload) = true ∨ _extract_best payload = payload.
Proof.
  destruct payload as [| | | | | |kvs]; try (by right).
  unfold _extract_best.
  destruct (isinstance_list (get "rows" kvs)); [by right|].
  destruct (is_iterable _); [|by right].
  destruct (iterate _) as [items|]; [|by right].
  destruct (first_table (rev items)) as [inner|] eqn:E; [|by right].
  left. simpl. by eapply first_table_is_table.
Qed.

(** X24: [_extract_best] is idempotent: it returns a table, which it returns
    as it is, or the payload it was given. *)
Theorem extract_best_is_idempotent payload :
  _extract_best (_extract_best payload) = _extract_best payload.
Proof.
  destruct (extract_best_cases payload) as [Htable|Hsame].
  - by apply extract_best_table.
  - congruence.
Qed.

Lemma first_table_app l1 l2 :
  first_table (l1 ++ l2) =
    match first_table l1 with Some t => Some t | None => first_table l2 end.
Proof.
  induction l1 as [|step rest IH]; simpl; [done|].
  destruct step as [| | | | | |kvs]; try done.
  by destruct (is_table (get "result" kvs)).
Qed.

Lemma first_table_rev_outcomes results :
  first_table (rev (map outcome_dict results)) = last_table results.
Proof.
  unfold last_table.
  induction results as [|o rest IH]; [done|].
  cbn [map rev]. rewrite first_table_app, IH.
  destruct o as [idx tool res|idx tool args].
  - change (omap _ (StepResult idx tool res :: rest)) with
      (res :: omap (fun o => match o with
                             | StepResult _ _ r => Some r
                             | StepSkipped _ _ _ => None
                             end) rest).
    cbn [List.filter first_table outcome_dict].
    change (get "result" _) with res.
    destruct (is_table res); [|by destruct (last _)].
    rewrite last_cons. by destruct (last _).
  - change (omap _ (StepSkipped idx tool args :: rest)) with
      (omap (fun o => match o with
                      | StepResult _ _ r => Some r
                      | StepSkipped _ _ _ => None
                      end) rest).
    cbn [first_table outcome_dict].
    change (get "result" _) with PNone. cbn [is_table].
    by destruct (last _).
Qed.

(** X25: What is shown of a run of the agent is the result of the last step
    that returned a table (a dict whose [rows] are a list), whatever
    came before it; a step skipped under dry run is never shown; and
    when no step returned a table, or the run stopped for a
    confirmation, the run is shown as it is. *)
Theorem extract_best_of_a_run r :
  _extract_best (as_dict r) =
    match r with
    | Completed _ _ results _ => default (as_dict r) (last_table results)
    | AwaitingConfirmation _ _ => as_dict r
    end.
Proof.
  destruct r as [cid plan|[cid|] plan results summary]; [done| |].
  - unfold as_dict. set (tail := match summary with Some _ => _ | None => _ end).
    unfold _extract_best.
    change (get "rows" _) with (get "rows" tail).
    change (get "results" _) with (PList (map outcome_dict results)).
    assert (isinstance_list (get "rows" tail) = false) as ->.
    { unfold tail. destruct summary as [s|]; [|done]. by destruct (truthy (PStr s)). }
    simpl. by rewrite first_table_rev_outcomes.
  - unfold as_dict, _extract_best. simpl. by rewrite first_table_rev_outcomes.
Qed.

End ApiFacts.

Module InstallFacts.
Import Install.

Lemma role_exists_elem roles name : role_exists roles name = true ↔ name ∈ roles.
Proof.
  unfold role_exists. rewrite existsb_exists, list_elem_of_In. split.
  - intros (x & Hin & ->%String.eqb_eq). done.
  - intros Hin. exists name. split; [done|apply String.eqb_refl].
Qed.

Lemma ensure_role_spec name roles :
  NoDup roles →
  NoDup (ensure_role name roles) ∧
  (∀ r, r ∈ ensure_role name roles ↔ r = name ∨ r ∈ roles) ∧
  (name ∈ roles → ensure_role name roles = roles).
Proof.
  intros Hnd. unfold ensure_role.
  destruct (role_exists roles name) eqn:E; simpl.
  - apply role_exists_elem in E. split; [done|]. split; [|done].
    intros r. split; [tauto|]. by intros [->|?].
  - assert (name ∉ roles) as Hout.
    { intros Hin%role_exists_elem. congruence. }
    split; [|split; [|done]].
    + apply NoDup_app. split; [done|]. split; [|apply NoDup_singleton].
      intros x Hx ->%list_elem_of_singleton. done.
    + intros r. rewrite elem_of_app, list_elem_of_singleton. tauto.
Qed.

(** X26: [after_install] can run again: on a site whose roles are distinct
    it keeps every role there is, in place, adds the three roles of the
    agent that are missing, none twice, and a second run changes
    nothing. *)
Theorem after_install_is_idempotent roles :
  NoDup roles →
  let installed := after_install roles in
  NoDup installed ∧
  (∀ r, r ∈ installed ↔ r ∈ AGENT_ROLES ∨ r ∈ roles) ∧
  (∃ added, installed = roles ++ added) ∧
  after_install installed = installed.
Proof.
  intros Hnd. unfold after_install, AGENT_ROLES. simpl.
  set (r1 := ensure_role "AI Agent Admin" roles).
  set (r2 := ensure_role "AI Agent Operator" r1).
  set (r3 := ensure_role "AI Readonly" r2).
  destruct (ensure_role_spec "AI Agent Admin" roles Hnd) as (N1 & M1 & F1).
  fold r1 in N1, M1, F1.
  destruct (ensure_role_spec "AI Agent Operator" r1 N1) as (N2 & M2 & F2).
  fold r2 in N2, M2, F2.
  destruct (ensure_role_spec "AI Readonly" r2 N2) as (N3 & M3 & F3).
  fold r3 in N3, M3, F3.
  split; [done|]. split; [|split].
  - intros r. rewrite M3, M2, M1, !elem_of_cons, elem_of_nil. tauto.
  - unfold r3, r2, r1, ensure_role.
    repeat destruct (negb _); rewrite <- ?app_assoc; eexists; try done.
    by rewrite app_nil_r.
  - assert (ensure_role "AI Agent Admin" r3 = r3) as ->.
    { apply ensure_role_spec; [done|]. rewrite M3, M2, M1. tauto. }
    assert (ensure_role "AI Agent Operator" r3 = r3) as ->.
    { apply ensure_role_spec; [done|]. rewrite M3, M2. tauto. }
    apply ensure_role_spec; [done|]. rewrite M3. tauto.
Qed.

Lemma after_install_is_idempotent_witness :
  after_install (after_install ["System Manager"; "AI Agent Operator"])
    = after_install ["System Manager"; "AI Agent Operator"].
Proof.
  apply (after_install_is_idempotent ["System Manager"; "AI Agent Operator"]).
  apply (bool_decide_unpack _). by vm_compute.
Defined.

End InstallFacts.

(* ===================================================================== *)
(** ** From the planner and the router to the statements of the tools *)
(* ===================================================================== *)

Module Journeys.
Import Spec Calls Routes Sys Tools ToolTerms.
Import PlannerMore RouterMore ToolsFacts.

Lemma zfill_cons w : ∀ z c acc, ∃ c' s', Dates.zfill w z (String c acc) = String c' s'.
Proof.
  induction w as [|w IH]; intros z c acc; simpl; [eauto|]. apply IH.
Qed.

Lemma isoformat_truthy d : truthy (PStr (Dates.isoformat d)) = true.
Proof.
  unfold Dates.isoformat.
  destruct (zfill_cons 4 (Dates.year d) "-"
              (Dates.zfill 2 (Dates.month d)
                 (String "-" (Dates.zfill 2 (Dates.day d) EmptyString))))
    as (c & s & ->).
  reflexivity.
Qed.

Lemma normalize_iso_dates W d1 d2 :
  _normalize_dates W (PStr (Dates.isoformat d1)) (PStr (Dates.isoformat d2)) =
    (Dates.isoformat d1, Dates.isoformat d2).
Proof. unfold _normalize_dates. by rewrite !isoformat_truthy. Qed.

Lemma parse_date_range_iso W text :
  ∃ d1 d2 label,
    Router._parse_date_range W text = (Dates.isoformat d1, Dates.isoformat d2, label).
Proof.
  unfold Router._parse_date_range.
  repeat match goal with
  | |- context [Text.re_search ?r ?t] => destruct (Text.re_search r t); [by eauto|]
  end.
  by eauto.
Qed.

(** the statement of the sales tool for a group key it knows and a window
    of ISO dates: on every site the same query, and the same treatment
    of its rows *)
Lemma sales_statement W key label d1 d2 :
  (key, label) ∈ [("month", MONTH_OF_SALE); ("customer", "si.customer");
                  ("item", "sii.item_code"); ("region", "COALESCE(addr.country, '')")] →
  ∃ finish, ∀ site,
    apply_stats (get_sales_stats W site)
      [("by", PStr key); ("from_date", PStr (Dates.isoformat d1));
       ("to_date", PStr (Dates.isoformat d2))] =
    rbind (db_sql site
             (stats_sql label "sii.base_net_amount" SALES_JOINS SALES_CONDS)
             [("from_date", PStr (Dates.isoformat d1));
              ("to_date", PStr (Dates.isoformat d2))]) finish.
Proof.
  rewrite !elem_of_cons, elem_of_nil.
  intros [[= -> ->]|[[= -> ->]|[[= -> ->]|[[= -> ->]|[]]]]];
    eexists; intros site;
    unfold apply_stats, get_sales_stats;
    cbn [get dict_get String.eqb Ascii.eqb Bool.eqb default List.filter existsb
         fst negb orb];
    rewrite ?normalize_iso_dates; reflexivity.
Qed.

(** X27: A command of a fast path reaches the database as the planner meant
    it: on every site, the arguments of its one step make
    [get_sales_stats] run the statement grouped by the month, the
    customer or the item, as the step says, without a condition on the
    company, over the planner's window of twelve months and not the
    tool's own default; what the tool makes of the rows does not depend
    on the site. *)
Theorem fastpath_statement W command plan :
  Agent._fastpath W command = Some plan →
  ∃ by_ label finish,
    (by_, label) ∈ [("month", MONTH_OF_SALE); ("customer", "si.customer");
                    ("item", "sii.item_code")] ∧
    let f := fst (Agent._last_n_month_range W 12) in
    let t := snd (Agent._last_n_month_range W 12) in
    get "steps" plan = PList [Agent.stats_step "get_sales_stats" by_ f t] ∧
    ∀ site,
      apply_stats (get_sales_stats W site) (tc_kwargs (stats_call by_ f t)) =
        rbind (db_sql site
                 (stats_sql label "sii.base_net_amount" SALES_JOINS SALES_CONDS)
                 [("from_date", PStr f); ("to_date", PStr t)]) finish.
Proof.
  intros Hfast.
  destruct (fastpath_shape _ _ _ Hfast) as (by_ & risks & Hby & ->).
  assert (∃ label, (by_, label) ∈ [("month", MONTH_OF_SALE); ("customer", "si.customer");
                                   ("item", "sii.item_code")]) as (label & Hlabel).
  { rewrite !elem_of_cons, elem_of_nil in Hby.
    destruct Hby as [->|[->|[->|[]]]]; eexists; rewrite !elem_of_cons; eauto. }
  destruct (sales_statement W by_ label
              (Agent._add_months (Dates.replace_day (today W) 1) (- (12 - 1)))
              (today W)) as (finish & Hrun).
  { rewrite !elem_of_cons in *. tauto. }
  exists by_, label, finish. split; [exact Hlabel|]. split; [reflexivity|exact Hrun].
Qed.

Lemma fastpath_statement_witness :
  ∃ by_ label finish,
    apply_stats (get_sales_stats Scenario.unreachable demo_site)
      (tc_kwargs (stats_call by_ "2023-04-01" "2024-03-15")) =
    rbind (db_sql demo_site
             (stats_sql label "sii.base_net_amount" SALES_JOINS SALES_CONDS)
             [("from_date", PStr "2023-04-01"); ("to_date", PStr "2024-03-15")]) finish.
Proof.
  destruct (fastpath_statement Scenario.unreachable "Top customers this year?"
              _ eq_refl) as (by_ & label & finish & _ & _ & Hrun).
  exists by_, label, finish. exact (Hrun demo_site).
Defined.

(** X28: Sales statistics that the router chooses are grouped as it chose:
    on every site, the first call of the statistics branch makes
    [get_sales_stats] run the statement of the routed dimension, which
    is never the supplier, so never the fallback to months, over the
    routed window and without a condition on the company; what the tool
    makes of the rows does not depend on the site. *)
Theorem routed_sales_statement W query :
  get "action" (Router.route W query) = PStr "sales_stats" →
  ∃ dim label d1 d2 top_n finish,
    (dim, label) ∈ [("month", MONTH_OF_SALE); ("customer", "si.customer");
                    ("item", "sii.item_code");
                    ("region", "COALESCE(addr.country, '')")] ∧
    Router.route W query =
      stats_route "sales_stats"
        (PDict [("by", PStr dim); ("from_date", PStr (Dates.isoformat d1));
                ("to_date", PStr (Dates.isoformat d2));
                ("top_n", Router.opt_int top_n)]) ∧
    ∀ site,
      apply_stats (get_sales_stats W site)
        (tc_kwargs (window_call true (PStr dim) (PStr (Dates.isoformat d1))
                      (PStr (Dates.isoformat d2)))) =
        rbind (db_sql site
                 (stats_sql label "sii.base_net_amount" SALES_JOINS SALES_CONDS)
                 [("from_date", PStr (Dates.isoformat d1));
                  ("to_date", PStr (Dates.isoformat d2))]) finish.
Proof.
  intros Haction.
  destruct (route_statistics W query "sales_stats" Haction)
    as (dim & top_n & Hroute & Hdim & Hsup & _).
  { rewrite !elem_of_cons. tauto. }
  destruct (parse_date_range_iso W (Text.strip query)) as (d1 & d2 & label0 & Hwin).
  rewrite Hwin in Hroute. unfold stats_args in Hroute. cbn [fst snd] in Hroute.
  assert (∃ label, (dim, label) ∈
            [("month", MONTH_OF_SALE); ("customer", "si.customer");
             ("item", "sii.item_code"); ("region", "COALESCE(addr.country, '')")])
    as (label & Hlabel).
  { unfold DIMENSIONS in Hdim. rewrite !elem_of_cons, elem_of_nil in Hdim.
    destruct Hdim as [->|[->|[->|[->|[->|[]]]]]];
      try (eexists; rewrite !elem_of_cons; eauto; fail).
    by destruct Hsup. }
  destruct (sales_statement W dim label d1 d2 Hlabel) as (finish & Hrun).
  exists dim, label, d1, d2, top_n, finish.
  split; [exact Hlabel|]. split; [exact Hroute|exact Hrun].
Qed.

Lemma routed_sales_statement_witness :
  ∃ dim label d1 d2 finish,
    apply_stats (get_sales_stats Scenario.stocked demo_site)
      (tc_kwargs (window_call true (PStr dim) (PStr (Dates.isoformat d1))
                    (PStr (Dates.isoformat d2)))) =
      rbind (db_sql demo_site
               (stats_sql label "sii.base_net_amount" SALES_JOINS SALES_CONDS)
               [("from_date", PStr (Dates.isoformat d1));
                ("to_date", PStr (Dates.isoformat d2))]) finish.
Proof.
  destruct (routed_sales_statement Scenario.stocked "top 5 customers ytd"
              eq_refl) as (dim & label & d1 & d2 & top_n & finish & _ & _ & Hrun).
  exists dim, label, d1, d2, finish. exact (Hrun demo_site).
Defined.

End Journeys.

(* ===================================================================== *)
(** ** agent.py: the summary *)
(* ===================================================================== *)

Module SummaryFacts.
Import Spec Budgets Sys SysFacts Agent LLMFacts.

Lemma max_by_spec W rest : ∀ pre best kbest mid r,
  revenue_key W best = Ok kbest →
  Forall (earns_less W kbest) pre →
  Forall (earns_at_most W kbest) mid →
  max_by W best kbest rest = Ok r →
  ∃ before after k,
    pre ++ best :: mid ++ rest = before ++ r :: after ∧
    revenue_key W r = Ok k ∧
    Forall (earns_less W k) before ∧ Forall (earns_at_most W k) after.
Proof.
  induction rest as [|x rest IH]; intros pre best kbest mid r Hbest Hpre Hmid; simpl.
  - intros [= <-]. exists pre, mid, kbest. by rewrite app_nil_r.
  - destruct (revenue_key W x) as [kx|] eqn:Ex; [simpl|done].
    destruct (LLM.Qlt_bool kbest kx) eqn:E.
    + apply Qlt_bool_iff in E. intros Hrun.
      destruct (IH (pre ++ best :: mid) x kx [] r Ex) as (before & after & k & Heq & ?);
        [| |done|].
      * apply Forall_app. split; [|constructor].
        -- eapply Forall_impl; [exact Hpre|]. intros y (ky & Hy & Hlt).
           exists ky. split; [done|]. by eapply Qlt_trans.
        -- by exists kbest.
        -- eapply Forall_impl; [exact Hmid|]. intros y (ky & Hy & Hle).
           exists ky. split; [done|]. by eapply Qle_lt_trans.
      * constructor.
      * exists before, after, k. split; [|done].
        rewrite <- Heq. by rewrite <- app_assoc.
    + apply Qlt_bool_false_iff in E. intros Hrun.
      destruct (IH pre best kbest (mid ++ [x]) r Hbest Hpre) as
        (before & after & k & Heq & ?); [|done|].
      * apply Forall_app. split; [done|]. constructor; [|done]. by exists kx.
      * exists before, after, k. split; [|done].
        rewrite <- Heq. by rewrite <- app_assoc.
Qed.

(** X29: The summary of a run names the best month of its first sales
    statistics that can be summarized: the row it names is the first
    row with the largest revenue ([float(revenue or 0)]) of the rows of
    a [get_sales_stats] step of the run. *)
Theorem summary_names_the_best_row W results text :
  summarize W results = Ok (Some text) →
  ∃ r rows before best after k period revenue,
    r ∈ results ∧ eq_str (tool_of r) "get_sales_stats" = true ∧
    rbind (py_get "rows" (py_or (result_of r) (PDict [])))
          (fun v => Ok (py_or v (PList []))) = Ok (PList rows) ∧
    rows = before ++ best :: after ∧
    revenue_key W best = Ok k ∧
    Forall (earns_less W k) before ∧ Forall (earns_at_most W k) after ∧
    subscript "period" best = Ok period ∧
    subscript "revenue" best = Ok revenue ∧
    text = summary_text W period revenue.
Proof.
  induction results as [|r rest IH]; simpl; [done|].
  destruct (eq_str (tool_of r) "get_sales_stats") eqn:Etool.
  2: { intros (r' & H)%IH. destruct H as (rows & ? & ? & ? & ? & ? & ? & Hin & H).
       exists r'. eexists _, _, _, _, _, _, _. split; [by right|exact H]. }
  destruct (py_get "rows" _) as [rowsv|] eqn:Erows; [simpl|done].
  destruct (summary_of_rows W (py_or rowsv (PList []))) as [[t|]|] eqn:Esum;
    simpl; [| |done].
  2: { intros (r' & H)%IH. destruct H as (rows & ? & ? & ? & ? & ? & ? & Hin & H).
       exists r'. eexists _, _, _, _, _, _, _. split; [by right|exact H]. }
  intros [= <-]. unfold summary_of_rows in Esum.
  destruct (py_or rowsv (PList [])) as [| | | | |rows|] eqn:Eor;
    try (simpl in Esum; by repeat case_match).
  destruct rows as [|[| | | | | |kv0] rest0]; try done.
  cbn [truthy] in Esum.
  destruct (contains "period" kv0 && contains "revenue" kv0); [|done].
  destruct (revenue_key W (PDict kv0)) as [k0|] eqn:Ek0; [simpl in Esum|done].
  destruct (max_by W (PDict kv0) k0 rest0) as [best|] eqn:Emax; [simpl in Esum|done].
  destruct (subscript "period" best) as [period|] eqn:Ep; [simpl in Esum|done].
  destruct (subscript "revenue" best) as [revenue|] eqn:Er; [simpl in Esum|done].
  injection Esum as <-.
  destruct (max_by_spec W rest0 [] (PDict kv0) k0 [] best Ek0) as
    (before & after & k & Heq & Hk & Hb & Ha); [constructor|constructor|done|].
  simpl in Heq.
  exists r, (PDict kv0 :: rest0), before, best, after, k, period, revenue.
  split; [by left|]. split; [done|]. split; [rewrite Erows; simpl; by rewrite Eor|].
  by repeat split.
Qed.

Lemma summary_names_the_best_row_witness :
  ∃ best period revenue,
    subscript "period" best = Ok period ∧
    subscript "revenue" best = Ok revenue ∧
    summarize Scenario.stocked [StepResult 1 (PStr "get_sales_stats") two_months] =
      Ok (Some (summary_text Scenario.stocked period revenue)).
Proof.
  destruct (summary_names_the_best_row Scenario.stocked
              [StepResult 1 (PStr "get_sales_stats") two_months] _ eq_refl)
    as (r & rows & before & best & after & k & period & revenue &
        _ & _ & _ & _ & _ & _ & _ & Hp & Hr & Htext).
  exists best, period, revenue. split; [exact Hp|]. split; [exact Hr|].
  rewrite <- Htext. reflexivity.
Defined.

End SummaryFacts.

(* ===================================================================== *)
(** ** agent.py: the tool calls of a command *)
(* ===================================================================== *)

Module BudgetFacts.
Import Spec Budgets Sys SysFacts Agent Router EngineCalls RouterFacts.

Lemma within_silent {A} n (m : M A) :
  (∀ st r st', m st = (r, st') → st' = st) → calls_within n m.
Proof.
  intros Hm st r st' Hrun. apply Hm in Hrun as ->.
  exists []. rewrite app_nil_r. split; [done|simpl; lia].
Qed.

Lemma within_ret {A} n (a : A) : calls_within n (ret a).
Proof. apply within_silent. by intros st r st' [= _ <-]. Qed.

Lemma within_raise {A} n e : calls_within n (raise (A := A) e).
Proof. apply within_silent. by intros st r st' [= _ <-]. Qed.

Lemma within_lift {A} n (r : result A) : calls_within n (lift r).
Proof. apply within_silent. by intros st r' st' [= _ <-]. Qed.

Lemma within_call_tool W n c : calls_within (S n) (call_tool W c).
Proof.
  intros st r st' [= _ <-]. exists [EvTool c]. split; [done|simpl; lia].
Qed.

Lemma within_bind {A B} n1 n2 (m : M A) (k : A → M B) :
  calls_within n1 m → (∀ a, calls_within n2 (k a)) →
  calls_within (n1 + n2) (bind m k).
Proof.
  intros Hm Hk st r st'. unfold bind.
  destruct (m st) as [[a|e] st1] eqn:Em.
  - intros Hrun. apply Hm in Em as (evs1 & E1 & L1).
    apply Hk in Hrun as (evs2 & E2 & L2).
    exists (evs1 ++ evs2). rewrite E2, E1, <- app_assoc. split; [done|].
    rewrite tool_calls_app, length_app. lia.
  - intros [= <- <-]. apply Hm in Em as (evs1 & E1 & L1).
    exists evs1. split; [done|lia].
Qed.

Lemma within_quiet {A} n (m : M A) : emits quiet m → calls_within n m.
Proof.
  intros Hm st r st' Hrun. apply Hm in Hrun as (evs & E & Hq).
  exists evs. split; [done|]. rewrite (tool_calls_quiet evs) by done. simpl. lia.
Qed.

Lemma stats_branch_within W r is_sales : calls_within 2 (stats_branch W r is_sales).
Proof.
  unfold stats_branch.
  apply (within_bind 0 2); [apply within_lift|]. intros args0.
  destruct args0 as [| | | | | |args1]; try apply within_raise.
  apply (within_bind 0 2); [apply within_lift|]. intros dim.
  apply (within_bind 0 2); [apply within_lift|]. intros kw.
  apply (within_bind 1 1); [apply within_call_tool|]. intros data.
  apply (within_bind 0 1); [apply within_lift|]. intros rows.
  apply (within_bind 1 0).
  - destruct (truthy rows); [apply within_ret|].
    apply (within_bind 0 1); [apply within_lift|]. intros f.
    apply (within_bind 0 1); [apply within_lift|]. intros t.
    apply (within_bind 0 1); [apply within_lift|]. intros t_dt.
    apply (within_bind 1 0); [apply within_call_tool|]. intros data2.
    apply (within_bind 0 0); [apply within_lift|]. intros rows2.
    apply within_ret.
  - intros [data' rows'].
    destruct data'; try apply within_raise.
    destruct dim; try apply within_raise. apply within_ret.
Qed.

Lemma report_branch_within W r : calls_within 2 (report_branch W r).
Proof.
  unfold report_branch.
  apply (within_bind 0 2); [apply within_lift|]. intros name.
  apply (within_bind 1 1); [apply within_call_tool|]. intros rep.
  apply (within_bind 0 1); [apply within_lift|]. intros cols.
  apply (within_bind 0 1); [apply within_lift|]. intros rows.
  apply (within_bind 0 1).
  - destruct cols; [apply within_ret|].
    destruct (truthy rows); [apply within_lift|apply within_ret].
  - intros [|]; [|apply within_ret].
    destruct (find_index total_columns cols 0); [|apply within_ret].
    apply (within_bind 0 1); [apply within_lift|]. intros shaped.
    apply (within_bind 0 1); [apply within_lift|]. intros title_.
    apply (within_bind 0 1); [apply within_lift|]. intros group_by.
    apply (within_bind 0 1); [apply within_lift|]. intros fd.
    apply (within_bind 0 1); [apply within_lift|]. intros td.
    apply within_ret.
Qed.

Lemma ask_within W q : calls_within 2 (ask W q).
Proof.
  unfold ask. destruct q; try apply within_raise.
  apply within_quiet, answer_question_quiet.
Qed.

Lemma execute_routed_within W r : calls_within 2 (execute_routed W r).
Proof.
  unfold execute_routed.
  destruct (eq_str _ "rag").
  { apply (within_bind 0 2); [apply within_lift|]. intros q.
    apply (within_bind 2 0); [apply ask_within|]. intros ans. apply within_lift. }
  destruct (eq_str _ "inventory_snapshot").
  { apply (within_bind 0 2); [apply within_lift|]. intros wh.
    apply (within_bind 1 1); [apply within_call_tool|]. intros snap.
    apply (within_bind 0 1); [apply within_lift|]. intros rows. apply within_ret. }
  destruct (_ || _); [apply stats_branch_within|].
  destruct (eq_str _ "run_report"); [apply report_branch_within|].
  apply (within_bind 2 0); [apply ask_within|]. intros ans. apply within_lift.
Qed.

Lemma route_and_execute_within W query : calls_within 2 (route_and_execute W query).
Proof.
  unfold route_and_execute.
  apply (within_bind 2 0); [apply execute_routed_within|]. intros out.
  destruct out; try apply within_ret.
  apply (within_bind 0 0); [apply within_lift|]. intros fd.
  apply (within_bind 0 0); [apply within_lift|]. intros td.
  apply (within_bind 0 0); [apply within_lift|]. intros by_.
  apply (within_bind 0 0).
  - destruct (truthy by_); [apply within_ret|apply within_lift].
  - intros gb. apply within_ret.
Qed.

Lemma execute_within W command user dry_run token :
  calls_within 8 (execute W command user dry_run token).
Proof.
  intros st r st' Hrun.
  apply execute_trace in Hrun as (qs & evs & -> & Hquiet & Hlen & _).
  exists (qs ++ evs). split; [done|].
  rewrite tool_calls_app, (tool_calls_quiet qs), app_nil_l by done.
  assert (length (tool_calls evs) ≤ length evs)%nat; [|lia].
  clear. induction evs as [|[] evs IH]; simpl; lia.
Qed.

(** X30: A command has a budget of tool calls: one call of [execute] makes
    at most eight, whatever the plan says and whether it completes, stops
    for a confirmation or fails on the way; one call of [smart_execute]
    makes at most ten, two at most by the router (the second only to
    widen the window of a statistics query) and the eight of [execute]
    when the router gave no answer. *)
Theorem tool_budget W command user dry_run token :
  calls_within 8 (execute W command user dry_run token) ∧
  calls_within 10 (smart_execute W command user dry_run token).
Proof.
  split; [apply execute_within|].
  apply (within_bind 2 8 (route_and_execute W command)).
  - apply route_and_execute_within.
  - intros routed. destruct (match routed with PDict _ => _ | _ => _ end).
    + apply within_ret.
    + apply execute_within.
Qed.

Lemma tool_budget_witness :
  let run := smart_execute Routes.late_rows "purchases by supplier ytd" "alice" true None
               Sys.init in
  ∃ evs, trace (snd run) = trace Sys.init ++ evs ∧ (length (tool_calls evs) ≤ 10)%nat.
Proof.
  intros run.
  exact (proj2 (tool_budget Routes.late_rows "purchases by supplier ytd" "alice" true None)
           Sys.init (fst run) (snd run) (surjective_pairing run)).
Defined.

End BudgetFacts.
